(** * Autoscaling decision and schedule engine: a shallow embedding

    This development embeds the three Python modules under
    [examples/scaling] that carry the decision logic of the repository:

    - [ai_scaling_engine.py]   (rule-based and AI-backed scaling decisions),
    - [k8s_hpa_manager.py]     (applying a decision to an HPA configuration),
    - [schedule_generator.py]  (pattern analysis and schedule synthesis).

    Modelling conventions.

    - Python [int] is [Z].  A finite Python [float] is the rational it
      denotes, a [Q]; infinities and NaN do not occur.  What binary64
      computes exactly is computed on [Q]: comparisons, [max], [abs] and
      [int()].  What binary64 rounds is a parameter of the model, an
      arithmetic [Float.Arith] with [sum], [-], [*], [/] on floats and [/]
      on two ints: the trend of the engine, the pattern analysis and the
      schedule synthesis are defined for every arithmetic.  A statement
      that binds an arithmetic [fl] holds for every one, the interpreter's
      among them, whatever its rounding.  A statement that names none is
      about [Float.exact], the arithmetic without rounding: it is so for the
      statements whose conclusion no rounding can change (an order, a
      bound, a membership, a route), and for examples whose intermediate
      values binary64 represents exactly.  [Float.binary64] computes as
      CPython does and serves to show what rounding changes.
    - The rules of the engine and the reconciler multiply a pod count by
      1.5, 0.5 or 0.7 without rounding: the products by 1.5 and 0.5 are
      exact in binary64 for every count below 2^52, and of the product by
      0.7 only bounds are stated, which hold after rounding as well.  A pod
      count beyond the largest float, on which Python raises
      [OverflowError], is left aside.
    - Python [str] is [string], read as a sequence of Latin-1 characters.
    - A [dict] whose iteration order is visible is an association list in
      insertion order; the [changes] dict of a reconcile result, which is only
      tested for emptiness and looked up, is a [gmap].
    - A call that may raise returns an [outcome]; [try]/[except Exception] is
      [try_except].  In-place mutation is explicit state passing.
    - [datetime.utcnow()] is an explicit argument [now]; a timestamp is the
      number of seconds since 1970-01-01 00:00.
    - Tracing spans and Prometheus counters do not influence any returned
      value and are left out. *)

From Stdlib Require Import ZArith QArith Qround Qabs String Ascii List Lia Lqa DecimalString Sorted.
From stdpp Require Import base gmap strings list.
Import ListNotations.

Local Open Scope string_scope.
Local Open Scope Z_scope.

(** ** Python runtime: exceptions, numbers, strings, dicts *)

Module Py.

Inductive exn : Type :=
| ZeroDivisionError
| ValueError (msg : string)
| KeyError
| IndexError
| AttributeError
| JSONDecodeError
| TypeError
| BackendError (msg : string).

Inductive outcome (A : Type) : Type :=
| Returned (a : A)
| Raised (e : exn).
Arguments Returned {A} a.
Arguments Raised {A} e.

Definition bind {A B : Type} (c : outcome A) (k : A -> outcome B) : outcome B :=
  match c with
  | Returned a => k a
  | Raised e => Raised e
  end.

(** [try: c  except Exception as e: h e] *)
Definition try_except {A : Type} (c : outcome A) (h : exn -> outcome A) : outcome A :=
  match c with
  | Returned a => Returned a
  | Raised e => h e
  end.

Definition returns {A : Type} (c : outcome A) : Prop :=
  exists a, c = Returned a.

Fixpoint mapM {A B : Type} (f : A -> outcome B) (l : list A) : outcome (list B) :=
  match l with
  | [] => Returned []
  | x :: r => bind (f x) (fun y => bind (mapM f r) (fun ys => Returned (y :: ys)))
  end.

(** *** Numbers *)

Definition float := Q.

Definition float_lt (a b : float) : bool := negb (Qle_bool b a).
Definition float_gt (a b : float) : bool := float_lt b a.
Arguments float_lt (a b)%_Q_scope.
Arguments float_gt (a b)%_Q_scope.

(** [int(x)] on a float truncates toward zero. *)
Definition int_of_float (x : float) : Z := Z.quot (Qnum x) (Zpos (Qden x)).

Definition float_of_int (n : Z) : float := inject_Z n.

(** [a / b] raises on a zero divisor. *)
Definition truediv (a b : float) : outcome float :=
  if Qeq_bool b 0 then Raised ZeroDivisionError else Returned (a / b)%Q.

(** [sum(xs)] starts from 0 and adds from the left. *)
Definition sum (xs : list float) : float := fold_left Qplus xs 0%Q.

Definition len {A : Type} (xs : list A) : Z := Z.of_nat (List.length xs).

(** [max(a, b)] keeps [a] unless [b] is strictly larger; [min] dually. *)
Definition max_float (a b : float) : float := if float_gt b a then b else a.
Definition max_int (a b : Z) : Z := if b >? a then b else a.
Definition min_int (a b : Z) : Z := if b <? a then b else a.

(** [max(xs)] of an iterable raises [ValueError] when it is empty. *)
Definition max_of (xs : list Z) : outcome Z :=
  match xs with
  | [] => Raised (ValueError "max() arg is an empty sequence")
  | x :: r => Returned (fold_left max_int r x)
  end.

(** [sum(xs) / len(xs)] *)
Definition mean (xs : list float) : outcome float :=
  truediv (sum xs) (float_of_int (len xs)).

(** *** Strings *)

Definition str_of_int (n : Z) : string := NilZero.string_of_int (Z.to_int n).

(** [f"{n:02d}"]: zero padding to width two (a sign counts for the width). *)
Definition fmt_02d (n : Z) : string :=
  let s := str_of_int n in
  if (String.length s <? 2)%nat then "0" ++ s else s.

(** [str.isspace] on one Latin-1 character. *)
Definition isspace (c : ascii) : bool :=
  let n := N_of_ascii c in
  ((9 <=? n) && (n <=? 13) || (28 <=? n) && (n <=? 32)
   || (n =? 133) || (n =? 160))%N.

Fixpoint lstrip (s : string) : string :=
  match s with
  | String c r => if isspace c then lstrip r else s
  | EmptyString => EmptyString
  end.

Definition rstrip (s : string) : string := String.rev (lstrip (String.rev s)).
Definition strip (s : string) : string := rstrip (lstrip s).

Definition startswith (s p : string) : bool := String.prefix p s.

(** [s[n:]] *)
Fixpoint drop_chars (n : nat) (s : string) : string :=
  match n, s with
  | O, _ => s
  | S k, String _ r => drop_chars k r
  | S _, EmptyString => EmptyString
  end.

(** [s.split(sep)] for a non-empty [sep]: [skip] counts the characters of a
    separator occurrence still to be passed over, [cur] is the current
    piece in reverse. *)
Fixpoint split_go (sep : string) (skip : nat) (cur : string) (s : string) : list string :=
  match s with
  | EmptyString => [String.rev cur]
  | String c r =>
      match skip with
      | S k => split_go sep k cur r
      | O =>
          if String.prefix sep s
          then String.rev cur :: split_go sep (String.length sep - 1) EmptyString r
          else split_go sep O (String c cur) r
      end
  end.

Definition split (s sep : string) : list string := split_go sep O EmptyString s.

(** [xs[i]] *)
Definition index {A : Type} (xs : list A) (i : nat) : outcome A :=
  match nth_error xs i with
  | Some x => Returned x
  | None => Raised IndexError
  end.

(** [sep.join(parts)] *)
Definition join (sep : string) (parts : list string) : string := String.concat sep parts.

(** *** Insertion-ordered dicts *)

Section Dict.
Context {K V : Type} `{EqDecision K}.

Definition dict := list (K * V).

Fixpoint get (d : dict) (k : K) : option V :=
  match d with
  | [] => None
  | (k', v) :: r => if decide (k' = k) then Some v else get r k
  end.

(** [d[k]] *)
Definition getitem (d : dict) (k : K) : outcome V :=
  match get d k with
  | Some v => Returned v
  | None => Raised KeyError
  end.

(** [d[k] = v]: an existing key keeps its position, a new one goes last. *)
Fixpoint setitem (d : dict) (k : K) (v : V) : dict :=
  match d with
  | [] => [(k, v)]
  | (k', v') :: r =>
      if decide (k' = k) then (k', v) :: r else (k', v') :: setitem r k v
  end.

Definition keys (d : dict) : list K := map fst d.
Definition values (d : dict) : list V := map snd d.
End Dict.
Arguments dict : clear implicits.

(** [d[k].append(x)] on a [defaultdict(list)] *)
Definition append_to {K A : Type} `{EqDecision K} (d : dict K (list A)) (k : K) (x : A)
  : dict K (list A) :=
  match get d k with
  | Some xs => setitem d k (xs ++ [x])%list
  | None => setitem d k [x]
  end.

(** [sorted(xs, key=...)]: a stable sort; [before a b] says that [a] must
    come strictly before [b]. *)
Section Sorted.
Context {A : Type} (before : A -> A -> bool).

Fixpoint insert_sorted (x : A) (l : list A) : list A :=
  match l with
  | [] => [x]
  | y :: r => if before y x then y :: insert_sorted x r else x :: l
  end.

Definition sorted (l : list A) : list A := fold_right insert_sorted [] l.
End Sorted.

(** *** Time *)

Definition datetime := Z.
Definition hour (t : datetime) : Z := (t / 3600) mod 24.
(** [t.weekday()], Monday = 0; 1970-01-01 was a Thursday. *)
Definition weekday (t : datetime) : Z := (t / 86400 + 3) mod 7.
(** [t.strftime("%A")] *)
Definition day_name (t : datetime) : string :=
  match weekday t with
  | 0 => "Monday" | 1 => "Tuesday" | 2 => "Wednesday" | 3 => "Thursday"
  | 4 => "Friday" | 5 => "Saturday" | _ => "Sunday"
  end.

End Py.

Declare Scope py_scope.
Delimit Scope py_scope with py.
Notation "x <- c ;; k" := (Py.bind c (fun x => k))
  (at level 100, c at next level, right associativity) : py_scope.

(** JSON values, as [json.loads] builds them and [json.dumps] prints them. *)
(** ** Float arithmetic *)

Module Float.
Import Py.

(** The operations on floats whose result binary64 rounds: [sum(xs)] over
    floats, [a - b], [a * b], [a / b] for a divisor other than zero, and
    [m / n] on two ints. How the interpreter rounds them is not fixed here:
    the functions that average and scale are defined for every arithmetic. *)
Class Arith : Type := {
  sum : list Q -> Q;
  sub : Q -> Q -> Q;
  mul : Q -> Q -> Q;
  div : Q -> Q -> Q;
  int_div : Z -> Z -> Q
}.

(** Arithmetic without rounding. It is the arithmetic of every statement
    that does not name one. *)
#[global] Instance exact : Arith := {|
  sum := Py.sum;
  sub := Qminus;
  mul := Qmult;
  div := Qdiv;
  int_div := fun m n => (inject_Z m / inject_Z n)%Q
|}.

(** [a / b] on floats raises on a zero divisor. *)
Definition truediv {fl : Arith} (a b : Q) : outcome Q :=
  if Qeq_bool b 0 then Raised ZeroDivisionError else Returned (div a b).

(** [sum(xs) / len(xs)] over floats. *)
Definition mean {fl : Arith} (xs : list Q) : outcome Q :=
  truediv (sum xs) (float_of_int (len xs)).

(** [sum(ns)] over ints is exact. *)
Definition int_sum (ns : list Z) : Z := fold_left Z.add ns 0.

(** [sum(ns) / len(ns)] over ints. *)
Definition int_mean {fl : Arith} (ns : list Z) : outcome Q :=
  if len ns =? 0 then Raised ZeroDivisionError
  else Returned (int_div (int_sum ns) (len ns)).

(** *** binary64 *)

(** [2 ^ e] for every integer [e]. *)
Definition pow2 (e : Z) : Q :=
  if 0 <=? e then inject_Z (2 ^ e) else 1 # Z.to_pos (2 ^ (- e)).

(** The integer nearest to a rational, ties to the even one. *)
Definition round_half_even (q : Q) : Z :=
  let n := Qnum q in
  let d := Zpos (Qden q) in
  let f := n / d in
  let r := n mod d in
  match 2 * r ?= d with
  | Lt => f
  | Gt => f + 1
  | Eq => if Z.even f then f else f + 1
  end.

(** The float nearest to a rational, ties to the even significand: 53
    bits, subnormal from [2 ^ -1074] on. Values beyond the largest float do
    not occur here, so nothing overflows. *)
Definition nearest (x : Q) : Q :=
  match Qnum x with
  | 0 => 0%Q
  | _ =>
      let a := Qabs x in
      let e0 := Z.log2 (Qnum a) - Z.log2 (Zpos (Qden a)) - 52 in
      let e1 := if Qle_bool (inject_Z (2 ^ 52)) (a / pow2 e0) then e0 else e0 - 1 in
      let e := Z.max e1 (-1074) in
      let m := inject_Z (round_half_even (a / pow2 e)) in
      ((if Qnum x <? 0 then - m else m) * pow2 e)%Q
  end.

(** The arithmetic of CPython on binary64: every operation gives the exact
    result rounded once, and [sum] adds from the left, rounding each partial
    sum (CPython up to 3.11; later versions compensate the sum, and a
    statement for every arithmetic covers both). It is used to compute
    examples; no statement depends on it. *)
Definition binary64 : Arith := {|
  sum := fun xs => fold_left (fun acc x => nearest (acc + x)) xs 0%Q;
  sub := fun a b => nearest (a - b);
  mul := fun a b => nearest (a * b);
  div := fun a b => nearest (a / b);
  int_div := fun m n => nearest (inject_Z m / inject_Z n)
|}.

End Float.

Module Json.
#[local] Set Warnings "-register-all".
Inductive value : Type :=
| Null
| Bool (b : bool)
| Int (n : Z)
| Float (x : Q)
| Str (s : string)
| Array (items : list value)
| Object (members : list (string * value)).
End Json.

(** Characters that cannot be written inside a string literal. *)
Definition nl : string := String (ascii_of_nat 10) EmptyString.
Definition dq : string := String (ascii_of_nat 34) EmptyString.
Definition quoted (s : string) : string := dq ++ s ++ dq.

(** ** ai_scaling_engine.py *)

Module ScalingMetrics.
Record t : Type := mk {
  cpu_utilization : Q;
  memory_utilization : Q;
  request_rate : Q;
  response_time_ms : Q;
  error_rate : Q;
  active_connections : Z;
  queue_depth : Z;
  current_pod_count : Z;
  timestamp : Py.datetime
}.

Definition to_dict (isoformat : Py.datetime -> string) (self : t) : Json.value :=
  Json.Object
    [ ("cpu_utilization_percent", Json.Float (cpu_utilization self));
      ("memory_utilization_percent", Json.Float (memory_utilization self));
      ("request_rate_per_second", Json.Float (request_rate self));
      ("response_time_ms", Json.Float (response_time_ms self));
      ("error_rate_percent", Json.Float (error_rate self));
      ("active_connections", Json.Int (active_connections self));
      ("queue_depth", Json.Int (queue_depth self));
      ("current_pod_count", Json.Int (current_pod_count self));
      ("timestamp", Json.Str (isoformat (timestamp self))) ].
End ScalingMetrics.

Module ScalingDecision.
Record t : Type := mk {
  action : string;
  recommended_pod_count : option Z;
  recommended_memory_increase : option string;
  recommended_cpu_increase : option string;
  confidence : Q;
  reasoning : string;
  urgency : string;
  estimated_cost_impact : option string;
  timestamp : Py.datetime
}.

(** [ScalingDecision.__init__] with its keyword defaults; [now] is the
    reading of [datetime.utcnow()]. *)
Definition init (now : Py.datetime) (action : string)
    (recommended_pod_count : option Z)
    (recommended_memory_increase recommended_cpu_increase : option string)
    (confidence : Q) (reasoning urgency : string)
    (estimated_cost_impact : option string) : t :=
  mk action recommended_pod_count recommended_memory_increase
     recommended_cpu_increase confidence reasoning urgency
     estimated_cost_impact now.
End ScalingDecision.

Module AIScalingEngine.
Import Py.
Local Open Scope py_scope.

(** What the engine uses from the Python library: [json], [datetime] and
    float formatting. [json_loads] is [None] where Python raises
    [JSONDecodeError]. *)
Record Runtime : Type := {
  json_loads : string -> option Json.value;
  json_dumps : Json.value -> string;
  isoformat : datetime -> string;
  str_of_float : Q -> string;
  fmt_1f : Q -> string
}.

(** The reasoning backend: [client.messages.create(model, max_tokens,
    messages)] answers with a list of content blocks, or raises. *)
Inductive ContentBlock : Type :=
| TextBlock (text : string)
| OtherBlock.

Record Response : Type := { content : list ContentBlock }.

Definition Client : Type := string -> Z -> string -> outcome Response.

Record t : Type := {
  api_key : option string;
  model : string;
  client : option Client
}.

(** A value built by Python whose fields may not have their declared
    types: the AI path copies JSON values into a [ScalingDecision]
    unchecked. [Untyped] keeps the raw JSON object. *)
Inductive dyn (A : Type) : Type :=
| Typed (a : A)
| Untyped (raw : Json.value).
Arguments Typed {A} a.
Arguments Untyped {A} raw.

Definition _rule_based_decision (now : datetime) (metrics : ScalingMetrics.t)
  : ScalingDecision.t :=
  let cpu := ScalingMetrics.cpu_utilization metrics in
  let mem := ScalingMetrics.memory_utilization metrics in
  let pods := ScalingMetrics.current_pod_count metrics in
  if float_gt cpu 80%Q || float_gt mem 85%Q then
    if float_gt mem 90%Q then
      ScalingDecision.init now "scale_up_vertical" None (Some "50%") None 0.85%Q
        "Memory utilization >90%, vertical scaling recommended" "high" None
    else
      ScalingDecision.init now "scale_up_horizontal"
        (Some (int_of_float (float_of_int pods * 1.5)%Q)) None None 0.80%Q
        "High CPU/memory utilization detected" "high" None
  else if float_lt cpu 20%Q && float_lt mem 30%Q && (pods >? 2) then
    ScalingDecision.init now "scale_down_horizontal"
      (Some (max_int 2 (int_of_float (float_of_int pods * 0.7)%Q))) None None 0.75%Q
      "Low resource utilization, system over-provisioned" "low" None
  else
    ScalingDecision.init now "maintain" (Some pods) None None 0.90%Q
      "All metrics within acceptable ranges" "normal" None.

(** [values[-n:]] *)
Definition last_n {A : Type} (n : nat) (xs : list A) : list A :=
  skipn (List.length xs - n) xs.

Definition _calculate_trend {fl : Float.Arith} (rt : Runtime) (values : list Q)
  : outcome string :=
  if len values <? 2 then Returned "insufficient data"
  else
    recent_avg <- Float.truediv (Float.sum (last_n 3 values))
                    (float_of_int (min_int 3 (len (last_n 3 values)))) ;;
    overall_avg <- Float.truediv (Float.sum values) (float_of_int (len values)) ;;
    ratio <- Float.truediv (Float.sub recent_avg overall_avg) overall_avg ;;
    let diff_percent := Float.mul ratio 100%Q in
    if float_gt diff_percent 10%Q then
      Returned ("increasing (" ++ fmt_1f rt diff_percent ++ "% above average)")
    else if float_lt diff_percent (-10)%Q then
      Returned ("decreasing (" ++ fmt_1f rt (Qabs diff_percent) ++ "% below average)")
    else Returned "stable".

Definition history_line (rt : Runtime) (i : nat) (m : ScalingMetrics.t) : string :=
  "  " ++ str_of_int (Z.of_nat i + 1) ++ ". CPU: "
  ++ str_of_float rt (ScalingMetrics.cpu_utilization m) ++ "%, Memory: "
  ++ str_of_float rt (ScalingMetrics.memory_utilization m) ++ "%, RPS: "
  ++ str_of_float rt (ScalingMetrics.request_rate m).

Definition _prepare_ai_context {fl : Float.Arith} (rt : Runtime)
    (current_metrics : ScalingMetrics.t)
    (historical_metrics : option (list ScalingMetrics.t)) : outcome string :=
  match historical_metrics with
  | None | Some [] => Returned EmptyString
  | Some history =>
      cpu_trend <- _calculate_trend rt (map ScalingMetrics.cpu_utilization history) ;;
      memory_trend <- _calculate_trend rt (map ScalingMetrics.memory_utilization history) ;;
      rps_trend <- _calculate_trend rt (map ScalingMetrics.request_rate history) ;;
      let context_parts :=
        [ "HISTORICAL TRENDS:";
          "- CPU utilization trend: " ++ cpu_trend;
          "- Memory utilization trend: " ++ memory_trend;
          "- Request rate trend: " ++ rps_trend;
          nl ++ "RECENT HISTORY (last 5 data points):" ] in
      let context_parts :=
        app context_parts (imap (history_line rt) (last_n 5 history)) in
      Returned (join nl context_parts)
  end.

(** The f-string prompt of [_ai_based_decision]. *)
Definition response_format : list string :=
  [ "{";
    "    " ++ quoted "action" ++ ": "
      ++ quoted "maintain|scale_up_horizontal|scale_down_horizontal|scale_up_vertical|scale_down_vertical" ++ ",";
    "    " ++ quoted "recommended_pod_count" ++ ": <number or null>,";
    "    " ++ quoted "recommended_memory_increase" ++ ": " ++ quoted "<percentage or null>" ++ ",";
    "    " ++ quoted "recommended_cpu_increase" ++ ": " ++ quoted "<percentage or null>" ++ ",";
    "    " ++ quoted "confidence" ++ ": <0.0 to 1.0>,";
    "    " ++ quoted "reasoning" ++ ": " ++ quoted "<detailed explanation>" ++ ",";
    "    " ++ quoted "urgency" ++ ": " ++ quoted "low|normal|high|critical" ++ ",";
    "    " ++ quoted "estimated_cost_impact" ++ ": " ++ quoted "<cost analysis>";
    "}" ].

Definition build_prompt (rt : Runtime) (current_metrics : ScalingMetrics.t)
    (context : string) : string :=
  join nl
    (app
       [ "You are an expert DevOps engineer specializing in Kubernetes autoscaling and resource optimization.";
         EmptyString;
         "Analyze the following metrics and provide a scaling recommendation:";
         EmptyString;
         "CURRENT METRICS:";
         json_dumps rt (ScalingMetrics.to_dict (isoformat rt) current_metrics);
         EmptyString;
         context;
         EmptyString;
         "Based on these metrics, provide a scaling recommendation in the following JSON format:" ]
       (app response_format
          [ EmptyString;
            "Consider:";
            "1. Current resource utilization and capacity";
            "2. Error rates and response times";
            "3. Queue depth and active connections";
            "4. Trends from historical data (if available)";
            "5. Cost optimization opportunities";
            "6. Risk of service degradation";
            EmptyString;
            "Respond with ONLY the JSON object, no additional text." ])).

(** [response.content[0].text] *)
Definition block_text (b : ContentBlock) : outcome string :=
  match b with
  | TextBlock text => Returned text
  | OtherBlock => Raised AttributeError
  end.

(** Removal of a surrounding markdown code block. *)
Definition strip_code_fence (response_text : string) : outcome string :=
  if startswith response_text "```" then
    part <- index (split response_text "```") 1 ;;
    let part := if startswith part "json" then drop_chars 4 part else part in
    Returned (strip part)
  else Returned response_text.

Definition loads (rt : Runtime) (text : string) : outcome Json.value :=
  match json_loads rt text with
  | Some v => Returned v
  | None => Raised JSONDecodeError
  end.

(** [decision_data.get] exists on a dict only. *)
Definition dict_members (decision_data : Json.value) : outcome (dict string Json.value) :=
  match decision_data with
  | Json.Object members => Returned members
  | _ => Raised AttributeError
  end.

(** [members.get(key, default)] read at the declared type of the field it
    initialises; [None] when the JSON value has another type. *)
Definition get_str (members : dict string Json.value) (key default : string)
  : option string :=
  match get members key with
  | None => Some default
  | Some (Json.Str s) => Some s
  | Some _ => None
  end.

Definition get_opt_str (members : dict string Json.value) (key : string)
  : option (option string) :=
  match get members key with
  | None | Some Json.Null => Some None
  | Some (Json.Str s) => Some (Some s)
  | Some _ => None
  end.

Definition get_opt_int (members : dict string Json.value) (key : string)
  : option (option Z) :=
  match get members key with
  | None | Some Json.Null => Some None
  | Some (Json.Int n) => Some (Some n)
  | Some _ => None
  end.

Definition get_float (members : dict string Json.value) (key : string) (default : Q)
  : option Q :=
  match get members key with
  | None => Some default
  | Some (Json.Float x) => Some x
  | Some (Json.Int n) => Some (float_of_int n)
  | Some _ => None
  end.

Definition decision_of (now : datetime) (decision_data : Json.value)
    (members : dict string Json.value) : dyn ScalingDecision.t :=
  match get_str members "action" "maintain",
        get_opt_int members "recommended_pod_count",
        get_opt_str members "recommended_memory_increase",
        get_opt_str members "recommended_cpu_increase",
        get_float members "confidence" 0.0%Q,
        get_str members "reasoning" EmptyString,
        get_str members "urgency" "normal",
        get_opt_str members "estimated_cost_impact"
  with
  | Some a, Some pods, Some mem, Some cpu, Some conf, Some why, Some urg, Some cost =>
      Typed (ScalingDecision.init now a pods mem cpu conf why urg cost)
  | _, _, _, _, _, _, _, _ => Untyped decision_data
  end.

(** The statements of the [try] block after the backend has answered. *)
Definition decode_response (rt : Runtime) (now : datetime) (response : Response)
  : outcome (dyn ScalingDecision.t) :=
  block <- index (content response) 0 ;;
  text <- block_text block ;;
  response_text <- strip_code_fence (strip text) ;;
  decision_data <- loads rt response_text ;;
  members <- dict_members decision_data ;;
  Returned (decision_of now decision_data members).

(** The context is prepared before the [try] block; the handler prints the
    error and falls back to the rules. *)
Definition _ai_based_decision {fl : Float.Arith} (rt : Runtime) (self : t) (now : datetime)
    (current_metrics : ScalingMetrics.t)
    (historical_metrics : option (list ScalingMetrics.t))
  : outcome (dyn ScalingDecision.t) :=
  context <- _prepare_ai_context rt current_metrics historical_metrics ;;
  let prompt := build_prompt rt current_metrics context in
  try_except
    (response <- match client self with
                 | Some call => call (model self) 1024 prompt
                 | None => Raised AttributeError
                 end ;;
     decode_response rt now response)
    (fun _ => Returned (Typed (_rule_based_decision now current_metrics))).

(** The label of the decision counter. *)
Definition confidence_level (decision : ScalingDecision.t) : string :=
  if float_gt (ScalingDecision.confidence decision) 0.8%Q then "high"
  else if float_gt (ScalingDecision.confidence decision) 0.5%Q then "medium"
  else "low".

(** [decision.confidence > 0.8] on an object whose fields were copied from
    JSON unchecked: numbers and booleans compare with a float, anything
    else raises [TypeError]. *)
Definition confidence_comparable (raw : Json.value) : bool :=
  match raw with
  | Json.Object members =>
      match get members "confidence" with
      | None | Some (Json.Float _) | Some (Json.Int _) | Some (Json.Bool _) => true
      | Some _ => false
      end
  | _ => false
  end.

(** [analyze_metrics]: the strategy is chosen by the presence of a client;
    the counter label is then computed from the confidence. *)
Definition analyze_metrics {fl : Float.Arith} (rt : Runtime) (self : t) (now : datetime)
    (current_metrics : ScalingMetrics.t)
    (historical_metrics : option (list ScalingMetrics.t))
  : outcome (dyn ScalingDecision.t) :=
  decision <- match client self with
              | None => Returned (Typed (_rule_based_decision now current_metrics))
              | Some _ => _ai_based_decision rt self now current_metrics historical_metrics
              end ;;
  match decision with
  | Typed d => let _ := confidence_level d in Returned (Typed d)
  | Untyped raw =>
      if confidence_comparable raw then Returned (Untyped raw) else Raised TypeError
  end.

End AIScalingEngine.

(** ** k8s_hpa_manager.py *)

Module HPAConfiguration.
Import Py.

Record t : Type := mk {
  name : string;
  namespace : string;
  min_replicas : Z;
  max_replicas : Z;
  target_cpu_utilization : Z;
  target_memory_utilization : Z
}.

(** [HPAConfiguration.__init__]; the targets default to 70 and 80. *)
Definition init (name namespace : string) (min_replicas max_replicas : Z)
    (target_cpu_utilization target_memory_utilization : Z) : outcome t :=
  if min_replicas <? 1 then
    Raised (ValueError "min_replicas must be at least 1")
  else if max_replicas <? min_replicas then
    Raised (ValueError "max_replicas must be >= min_replicas")
  else if negb ((1 <=? target_cpu_utilization) && (target_cpu_utilization <=? 100)) then
    Raised (ValueError "target_cpu_utilization must be between 1 and 100")
  else if negb ((1 <=? target_memory_utilization) && (target_memory_utilization <=? 100)) then
    Raised (ValueError "target_memory_utilization must be between 1 and 100")
  else
    Returned (mk name namespace min_replicas max_replicas
                 target_cpu_utilization target_memory_utilization).

(** The constraints the constructor enforces. *)
Definition valid (c : t) : Prop :=
  1 <= min_replicas c /\ min_replicas c <= max_replicas c
  /\ 1 <= target_cpu_utilization c <= 100
  /\ 1 <= target_memory_utilization c <= 100.

Definition set_replicas (c : t) (new_min new_max : Z) : t :=
  mk (name c) (namespace c) new_min new_max
     (target_cpu_utilization c) (target_memory_utilization c).
End HPAConfiguration.

(** The [result] dict of [_apply_decision_to_hpa]; the keys ["note"] and
    ["recommendation"] are optional. *)
Module UpdateResult.
Record Change : Type := { old : Z; new : Z }.

Record Recommendation : Type := {
  memory_increase : option string;
  cpu_increase : option string
}.

Record t : Type := mk {
  hpa_name : string;
  timestamp : Py.datetime;
  decision : ScalingDecision.t;
  changes : gmap string Change;
  applied : bool;
  dry_run : bool;
  note : option string;
  recommendation : option Recommendation
}.

Definition set_changes (r : t) (ch : gmap string Change) : t :=
  mk (hpa_name r) (timestamp r) (decision r) ch (applied r) (dry_run r)
     (note r) (recommendation r).
Definition set_applied (r : t) (b : bool) : t :=
  mk (hpa_name r) (timestamp r) (decision r) (changes r) b (dry_run r)
     (note r) (recommendation r).
Definition set_note (r : t) (s : string) : t :=
  mk (hpa_name r) (timestamp r) (decision r) (changes r) (applied r) (dry_run r)
     (Some s) (recommendation r).
Definition set_recommendation (r : t) (rec : Recommendation) : t :=
  mk (hpa_name r) (timestamp r) (decision r) (changes r) (applied r) (dry_run r)
     (note r) (Some rec).
End UpdateResult.

Module K8sHPAManager.
Import Py.
Local Open Scope py_scope.

Record t : Type := mk {
  scaling_engine : AIScalingEngine.t;
  dry_run : bool;
  applied_changes : list UpdateResult.t
}.

(** Truth value of an [Optional[int]]: [None] and [0] are false. *)
Definition truthy (n : option Z) : option Z :=
  match n with
  | Some k => if k =? 0 then None else Some k
  | None => None
  end.

(** [result["changes"]["min_replicas"] = ...; result["changes"]["max_replicas"] = ...] *)
Definition record_changes (r : UpdateResult.t) (original_min new_min original_max new_max : Z)
  : UpdateResult.t :=
  UpdateResult.set_changes r
    (<["max_replicas" := {| UpdateResult.old := original_max; UpdateResult.new := new_max |}]>
     (<["min_replicas" := {| UpdateResult.old := original_min; UpdateResult.new := new_min |}]>
      (UpdateResult.changes r))).

(** The [if]/[elif] chain on [decision.action]: the result dict and the
    configuration after it. *)
Definition decide_changes (result : UpdateResult.t) (hpa_config : HPAConfiguration.t)
    (decision : ScalingDecision.t) : UpdateResult.t * HPAConfiguration.t :=
  let original_min := HPAConfiguration.min_replicas hpa_config in
  let original_max := HPAConfiguration.max_replicas hpa_config in
  let action := ScalingDecision.action decision in
  if String.eqb action "scale_up_horizontal" then
    match truthy (ScalingDecision.recommended_pod_count decision) with
    | Some recommended =>
        let new_max := max_int (recommended + 5) (HPAConfiguration.max_replicas hpa_config) in
        let new_min := max_int (HPAConfiguration.min_replicas hpa_config)
                               (int_of_float (float_of_int recommended * 0.5)%Q) in
        (record_changes result original_min new_min original_max new_max,
         HPAConfiguration.set_replicas hpa_config new_min new_max)
    | None => (result, hpa_config)
    end
  else if String.eqb action "scale_down_horizontal" then
    match truthy (ScalingDecision.recommended_pod_count decision) with
    | Some recommended =>
        let new_max := recommended + 3 in
        let new_min := max_int 2 (recommended - 1) in
        (record_changes result original_min new_min original_max new_max,
         HPAConfiguration.set_replicas hpa_config new_min new_max)
    | None => (result, hpa_config)
    end
  else if String.eqb action "scale_up_vertical" || String.eqb action "scale_down_vertical" then
    (UpdateResult.set_recommendation
       (UpdateResult.set_note result
          "Vertical scaling requires deployment resource updates, not HPA changes")
       {| UpdateResult.memory_increase := ScalingDecision.recommended_memory_increase decision;
          UpdateResult.cpu_increase := ScalingDecision.recommended_cpu_increase decision |},
     hpa_config)
  else if String.eqb action "maintain" then
    (UpdateResult.set_note result
       "No HPA changes needed, current configuration is appropriate",
     hpa_config)
  else (result, hpa_config).

(** [_apply_decision_to_hpa]. [apply_to_cluster] stands for
    [_apply_hpa_to_cluster], which shells out to kubectl, catches every
    exception and answers with a boolean. The function returns the result
    dict, the configuration object after its mutation and the manager with
    the result appended to [applied_changes]. *)
Definition _apply_decision_to_hpa (apply_to_cluster : HPAConfiguration.t -> bool)
    (now : datetime) (self : t) (hpa_config : HPAConfiguration.t)
    (decision : ScalingDecision.t) (current_metrics : ScalingMetrics.t)
  : UpdateResult.t * HPAConfiguration.t * t :=
  let result :=
    UpdateResult.mk (HPAConfiguration.name hpa_config) now decision ∅ false
      (dry_run self) None None in
  let '(result, hpa_config) := decide_changes result hpa_config decision in
  let has_changes := negb (bool_decide (UpdateResult.changes result = ∅)) in
  let result :=
    if has_changes && negb (dry_run self) then
      UpdateResult.set_applied result (apply_to_cluster hpa_config)
    else if has_changes then
      UpdateResult.set_note result "Dry-run mode: Changes not applied to cluster"
    else result in
  (result, hpa_config,
   mk (scaling_engine self) (dry_run self) (applied_changes self ++ [result])%list).
End K8sHPAManager.

(** ** schedule_generator.py *)

Module ScalingSchedule.
Record Entry : Type := {
  time : string;
  target_pods : Z;
  reason : string;
  confidence : Q;
  day_of_week : option string
}.

Record t : Type := mk {
  name : string;
  description : string;
  schedule_entries : list Entry
}.

(** [ScalingSchedule(name)]: the description defaults to the empty string. *)
Definition init (name description : string) : t := mk name description [].

(** [add_entry]: the ["day_of_week"] key is set for a non-empty string only. *)
Definition add_entry (self : t) (time : string) (target_pods : Z) (reason : string)
    (day_of_week : option string) (confidence : Q) : t :=
  let day :=
    match day_of_week with
    | Some d => if String.eqb d EmptyString then None else Some d
    | None => None
    end in
  mk (name self) (description self)
     (schedule_entries self
      ++ [ {| time := time; target_pods := target_pods; reason := reason;
              confidence := confidence; day_of_week := day |} ])%list.
End ScalingSchedule.

Module HourStats.
Record t : Type := { cpu : Q; memory : Q; rps : Q; avg_pods : Q; max_pods : Z }.
End HourStats.

Module DayStats.
Record t : Type := { cpu : Q; memory : Q; rps : Q; avg_pods : Q }.
End DayStats.

Module PeakHour.
Record t : Type := { hour : Z; cpu : Q; rps : Q; severity : string }.
End PeakHour.

Module LowHour.
Record t : Type := { hour : Z; cpu : Q; rps : Q }.
End LowHour.

Module Patterns.
Record t : Type := {
  hourly_patterns : Py.dict Z HourStats.t;
  daily_patterns : Py.dict string DayStats.t;
  peak_hours : list PeakHour.t;
  low_traffic_hours : list LowHour.t;
  analysis_timestamp : Py.datetime
}.
End Patterns.

Module ScheduleGenerator.
Import Py.
Local Open Scope py_scope.

(** What [analyze_patterns] returns: the dict with the single key
    ["error"], or the analysis. *)
Inductive analysis : Type :=
| ErrorDict (error : string)
| Analysis (patterns : Patterns.t).

Definition history := list (datetime * ScalingMetrics.t).

Definition pods_of (m : ScalingMetrics.t) : Q :=
  float_of_int (ScalingMetrics.current_pod_count m).

Definition hour_stats {fl : Float.Arith} (metrics_list : list ScalingMetrics.t)
  : outcome HourStats.t :=
  cpu <- Float.mean (map ScalingMetrics.cpu_utilization metrics_list) ;;
  memory <- Float.mean (map ScalingMetrics.memory_utilization metrics_list) ;;
  rps <- Float.mean (map ScalingMetrics.request_rate metrics_list) ;;
  avg_pods <- Float.int_mean (map ScalingMetrics.current_pod_count metrics_list) ;;
  max_pods <- max_of (map ScalingMetrics.current_pod_count metrics_list) ;;
  Returned {| HourStats.cpu := cpu; HourStats.memory := memory; HourStats.rps := rps;
              HourStats.avg_pods := avg_pods; HourStats.max_pods := max_pods |}.

Definition day_stats {fl : Float.Arith} (metrics_list : list ScalingMetrics.t)
  : outcome DayStats.t :=
  cpu <- Float.mean (map ScalingMetrics.cpu_utilization metrics_list) ;;
  memory <- Float.mean (map ScalingMetrics.memory_utilization metrics_list) ;;
  rps <- Float.mean (map ScalingMetrics.request_rate metrics_list) ;;
  avg_pods <- Float.int_mean (map ScalingMetrics.current_pod_count metrics_list) ;;
  Returned {| DayStats.cpu := cpu; DayStats.memory := memory; DayStats.rps := rps;
              DayStats.avg_pods := avg_pods |}.

(** The averaging loops: one entry per key, in the order of the keys. *)
Definition averages {K S : Type} (stats : list ScalingMetrics.t -> outcome S)
    (groups : dict K (list ScalingMetrics.t)) : outcome (dict K S) :=
  mapM (fun kv => s <- stats (snd kv) ;; Returned (fst kv, s)) groups.

Definition is_peak_hour {fl : Float.Arith} (avg_cpu avg_rps : Q) (kv : Z * HourStats.t)
  : bool :=
  float_gt (HourStats.cpu (snd kv)) (Float.mul avg_cpu 1.5%Q)
  || float_gt (HourStats.rps (snd kv)) (Float.mul avg_rps 1.5%Q).

Definition peak_entry (kv : Z * HourStats.t) : PeakHour.t :=
  {| PeakHour.hour := fst kv; PeakHour.cpu := HourStats.cpu (snd kv);
     PeakHour.rps := HourStats.rps (snd kv); PeakHour.severity := "high" |}.

Definition _identify_peak_hours {fl : Float.Arith} (hourly_averages : dict Z HourStats.t)
  : outcome (list PeakHour.t) :=
  match hourly_averages with
  | [] => Returned []
  | _ =>
      avg_cpu <- Float.mean (map HourStats.cpu (values hourly_averages)) ;;
      avg_rps <- Float.mean (map HourStats.rps (values hourly_averages)) ;;
      let peak_hours := map peak_entry (List.filter (is_peak_hour avg_cpu avg_rps) hourly_averages) in
      Returned (sorted (fun a b => float_gt (PeakHour.cpu a) (PeakHour.cpu b)) peak_hours)
  end.

Definition is_low_hour {fl : Float.Arith} (avg_cpu avg_rps : Q) (kv : Z * HourStats.t)
  : bool :=
  float_lt (HourStats.cpu (snd kv)) (Float.mul avg_cpu 0.5%Q)
  && float_lt (HourStats.rps (snd kv)) (Float.mul avg_rps 0.5%Q).

Definition low_entry (kv : Z * HourStats.t) : LowHour.t :=
  {| LowHour.hour := fst kv; LowHour.cpu := HourStats.cpu (snd kv);
     LowHour.rps := HourStats.rps (snd kv) |}.

Definition _identify_low_hours {fl : Float.Arith} (hourly_averages : dict Z HourStats.t)
  : outcome (list LowHour.t) :=
  match hourly_averages with
  | [] => Returned []
  | _ =>
      avg_cpu <- Float.mean (map HourStats.cpu (values hourly_averages)) ;;
      avg_rps <- Float.mean (map HourStats.rps (values hourly_averages)) ;;
      let low_hours := map low_entry (List.filter (is_low_hour avg_cpu avg_rps) hourly_averages) in
      Returned (sorted (fun a b => LowHour.hour a <? LowHour.hour b) low_hours)
  end.

(** The grouping loop of [analyze_patterns]. *)
Definition group_by {K : Type} `{EqDecision K} (key : datetime -> K) (metrics_history : history)
  : dict K (list ScalingMetrics.t) :=
  fold_left (fun groups tm => append_to groups (key (fst tm)) (snd tm)) metrics_history [].

Definition analyze_patterns {fl : Float.Arith} (now : datetime) (metrics_history : history)
  : outcome analysis :=
  match metrics_history with
  | [] => Returned (ErrorDict "No metrics history provided")
  | _ =>
      let hourly_patterns := group_by hour metrics_history in
      let daily_patterns := group_by day_name metrics_history in
      hourly_averages <- averages hour_stats hourly_patterns ;;
      daily_averages <- averages day_stats daily_patterns ;;
      peak_hours <- _identify_peak_hours hourly_averages ;;
      low_hours <- _identify_low_hours hourly_averages ;;
      Returned (Analysis
        {| Patterns.hourly_patterns := hourly_averages;
           Patterns.daily_patterns := daily_averages;
           Patterns.peak_hours := peak_hours;
           Patterns.low_traffic_hours := low_hours;
           Patterns.analysis_timestamp := now |})
  end.

(** The pod count the hourly loop of [generate_schedule] recommends. *)
Definition recommended_for {fl : Float.Arith} (metrics : HourStats.t)
    (min_pods max_pods : Z) : outcome Z :=
  cpu_factor <- Float.truediv (HourStats.cpu metrics) 70.0%Q ;;
  memory_factor <- Float.truediv (HourStats.memory metrics) 80.0%Q ;;
  let scaling_factor := max_float cpu_factor memory_factor in
  let recommended_pods :=
    int_of_float (Float.mul (HourStats.avg_pods metrics) (max_float 1.0%Q scaling_factor)) in
  Returned (max_int min_pods (min_int max_pods recommended_pods)).

(** One round of the loop over [sorted(hourly_averages.keys())]. *)
Definition schedule_hour {fl : Float.Arith} (patterns : Patterns.t) (min_pods max_pods : Z)
    (schedule : ScalingSchedule.t) (hour : Z) : outcome ScalingSchedule.t :=
  metrics <- getitem (Patterns.hourly_patterns patterns) hour ;;
  recommended_pods <- recommended_for metrics min_pods max_pods ;;
  let is_peak :=
    bool_decide (hour ∈ map PeakHour.hour (Patterns.peak_hours patterns)) in
  let schedule :=
    if is_peak then
      let pre_hour := (hour - 1) mod 24 in
      let pre_minute := 30 in
      ScalingSchedule.add_entry schedule
        (fmt_02d pre_hour ++ ":" ++ fmt_02d pre_minute) recommended_pods
        ("Pre-scale for peak hour " ++ str_of_int hour ++ ":00") None 0.9%Q
    else schedule in
  Returned
    (ScalingSchedule.add_entry schedule (fmt_02d hour ++ ":00") recommended_pods
       ("Scheduled scaling for hour " ++ str_of_int hour) None 0.85%Q).

(** One round of the loop over the low-traffic hours. *)
Definition schedule_low (min_pods : Z) (schedule : ScalingSchedule.t)
    (hour_info : LowHour.t) : ScalingSchedule.t :=
  ScalingSchedule.add_entry schedule (fmt_02d (LowHour.hour hour_info) ++ ":00") min_pods
    "Scale down during low traffic" None 0.95%Q.

Fixpoint foldM {A B : Type} (f : B -> A -> outcome B) (l : list A) (b : B) : outcome B :=
  match l with
  | [] => Returned b
  | x :: r => b' <- f b x ;; foldM f r b'
  end.

(** [generate_schedule]; the defaults of [min_pods] and [max_pods] are 2
    and 20. *)
Definition generate_schedule {fl : Float.Arith} (now : datetime) (metrics_history : history)
    (min_pods max_pods : Z) : outcome ScalingSchedule.t :=
  patterns <- analyze_patterns now metrics_history ;;
  match patterns with
  | ErrorDict _ => Returned (ScalingSchedule.init "error-schedule" EmptyString)
  | Analysis patterns =>
      let schedule :=
        ScalingSchedule.init "ai-workload-schedule"
          "Generated from historical metrics analysis" in
      let hours := sorted Z.ltb (keys (Patterns.hourly_patterns patterns)) in
      schedule <- foldM (schedule_hour patterns min_pods max_pods) hours schedule ;;
      Returned (fold_left (schedule_low min_pods) (Patterns.low_traffic_hours patterns) schedule)
  end.

End ScheduleGenerator.

(** * Observers, examples and the wording of the specification *)

(** ** Observers of one [_apply_decision_to_hpa] call *)

Module Reconcile.
Import Py.

(** The result dict the call starts from. *)
Definition fresh_result (now : datetime) (self : K8sHPAManager.t)
    (hpa_config : HPAConfiguration.t) (decision : ScalingDecision.t) : UpdateResult.t :=
  UpdateResult.mk (HPAConfiguration.name hpa_config) now decision ∅ false
    (K8sHPAManager.dry_run self) None None.

(** The configuration object after the call. *)
Definition config_after (apply_to_cluster : HPAConfiguration.t -> bool)
    (now : datetime) (self : K8sHPAManager.t)
    (hpa_config : HPAConfiguration.t) (decision : ScalingDecision.t)
    (current_metrics : ScalingMetrics.t) : HPAConfiguration.t :=
  snd (fst (K8sHPAManager._apply_decision_to_hpa apply_to_cluster now self hpa_config
              decision current_metrics)).

(** The result dict the call returns. *)
Definition result_of (apply_to_cluster : HPAConfiguration.t -> bool)
    (now : datetime) (self : K8sHPAManager.t)
    (hpa_config : HPAConfiguration.t) (decision : ScalingDecision.t)
    (current_metrics : ScalingMetrics.t) : UpdateResult.t :=
  fst (fst (K8sHPAManager._apply_decision_to_hpa apply_to_cluster now self hpa_config
              decision current_metrics)).

(** The manager after the call. *)
Definition manager_after (apply_to_cluster : HPAConfiguration.t -> bool)
    (now : datetime) (self : K8sHPAManager.t)
    (hpa_config : HPAConfiguration.t) (decision : ScalingDecision.t)
    (current_metrics : ScalingMetrics.t) : K8sHPAManager.t :=
  snd (K8sHPAManager._apply_decision_to_hpa apply_to_cluster now self hpa_config
         decision current_metrics).

(** A [scale_down_horizontal] decision whose recommended count is -2 or
    less. *)
Definition negative_scale_down (d : ScalingDecision.t) : Prop :=
  ScalingDecision.action d = "scale_down_horizontal"
  /\ exists r, ScalingDecision.recommended_pod_count d = Some r /\ r <= -2.

(** The constraints of [HPAConfiguration.__init__] on its arguments. *)
Definition acceptable (min_replicas max_replicas target_cpu target_memory : Z) : Prop :=
  1 <= min_replicas /\ min_replicas <= max_replicas
  /\ 1 <= target_cpu <= 100 /\ 1 <= target_memory <= 100.

End Reconcile.

(** ** Example inputs *)

Module Examples.

(** The load spike of the engine's demo: cpu 88, memory 85, three pods. *)
Definition spike_metrics : ScalingMetrics.t :=
  ScalingMetrics.mk 88 85 620 920 11.2 2380 158 3 0.

(** An idle service: no requests arrive. *)
Definition idle_metrics : ScalingMetrics.t :=
  ScalingMetrics.mk 10 20 0 0 0 0 0 3 0.

(** One observation at midnight: cpu 35, memory 100, three pods. *)
Definition memory_bound_metrics : ScalingMetrics.t :=
  ScalingMetrics.mk 35 100 10 10 0.5 10 1 3 0.

(** The configuration of the manager's demo. *)
Definition demo_config : HPAConfiguration.t :=
  HPAConfiguration.mk "ai-inference-hpa" "ai-services" 3 20 70 80.

Definition rule_engine : AIScalingEngine.t :=
  {| AIScalingEngine.api_key := None;
     AIScalingEngine.model := "claude-3-5-sonnet-20241022";
     AIScalingEngine.client := None |}.

Definition ai_engine (call : AIScalingEngine.Client) : AIScalingEngine.t :=
  {| AIScalingEngine.api_key := Some "key";
     AIScalingEngine.model := "claude-3-5-sonnet-20241022";
     AIScalingEngine.client := Some call |}.

Definition dry_run_manager : K8sHPAManager.t := K8sHPAManager.mk rule_engine true [].

Definition decision (action : string) (recommended_pod_count : option Z) : ScalingDecision.t :=
  ScalingDecision.init 0 action recommended_pod_count None None 0.5 "example" "normal" None.

(** A runtime whose JSON parser knows the empty object and [null] only. *)
Definition small_runtime : AIScalingEngine.Runtime :=
  {| AIScalingEngine.json_loads := fun s =>
       if String.eqb s "{}" then Some (Json.Object [])
       else if String.eqb s "null" then Some Json.Null
       else None;
     AIScalingEngine.json_dumps := fun _ => "{}";
     AIScalingEngine.isoformat := fun _ => "1970-01-01T00:00:00";
     AIScalingEngine.str_of_float := fun _ => "0.0";
     AIScalingEngine.fmt_1f := fun _ => "0.0" |}.

(** A backend that answers with prose. *)
Definition chatty_client : AIScalingEngine.Client :=
  fun _ _ _ =>
    Py.Returned {| AIScalingEngine.content :=
                     [AIScalingEngine.TextBlock "I recommend scaling up."] |}.

End Examples.

(** ** The wording of the specification for the pattern analysis *)

Module Spec.
Import Py.

(** The snapshots observed at hour [h]. *)
Definition samples_at (history : ScheduleGenerator.history) (h : Z) : list ScalingMetrics.t :=
  map snd (List.filter (fun tm => hour (fst tm) =? h) history).

(** The elements of a list, each once, in the order of first appearance. *)
Fixpoint distinct (l : list Z) : list Z :=
  match l with
  | [] => []
  | x :: r => x :: List.filter (fun y => negb (y =? x)) (distinct r)
  end.

(** The hours that have data. *)
Definition hours_with_data (history : ScheduleGenerator.history) : list Z :=
  distinct (map (fun tm => hour (fst tm)) history).

(** Arithmetic mean of a metric over a list of snapshots: the sum divided
    by the number of snapshots, in the arithmetic at hand. *)
Definition mean_of {fl : Float.Arith} (f : ScalingMetrics.t -> Q)
    (ms : list ScalingMetrics.t) : Q :=
  Float.div (Float.sum (map f ms)) (inject_Z (len ms)).

(** Mean of the pod counts of a list of snapshots: a sum of ints divided
    by an int. *)
Definition mean_pods {fl : Float.Arith} (ms : list ScalingMetrics.t) : Q :=
  Float.int_div (Float.int_sum (map ScalingMetrics.current_pod_count ms)) (len ms).

(** Mean of a metric over the snapshots of hour [h]. *)
Definition hourly_mean {fl : Float.Arith} (f : ScalingMetrics.t -> Q)
    (history : ScheduleGenerator.history) (h : Z) : Q :=
  mean_of f (samples_at history h).

(** Mean of the hourly means of a metric over the hours that have data. *)
Definition global_mean {fl : Float.Arith} (f : ScalingMetrics.t -> Q)
    (history : ScheduleGenerator.history) : Q :=
  Float.div (Float.sum (map (hourly_mean f history) (hours_with_data history)))
    (inject_Z (len (hours_with_data history))).

(** Mean of a metric over all snapshots, whatever their hour. *)
Definition snapshot_mean {fl : Float.Arith} (f : ScalingMetrics.t -> Q)
    (history : ScheduleGenerator.history) : Q :=
  mean_of f (map snd history).

(** Hour [h] lies below half of the mean of the hourly means, in cpu and in
    request rate. *)
Definition low_traffic {fl : Float.Arith} (history : ScheduleGenerator.history) (h : Z)
  : Prop :=
  (hourly_mean ScalingMetrics.cpu_utilization history h
   < Float.mul (global_mean ScalingMetrics.cpu_utilization history) 0.5)%Q
  /\ (hourly_mean ScalingMetrics.request_rate history h
      < Float.mul (global_mean ScalingMetrics.request_rate history) 0.5)%Q.

(** The statistics of a non-empty group of snapshots. *)
Definition stats_of {fl : Float.Arith} (ms : list ScalingMetrics.t) : HourStats.t :=
  {| HourStats.cpu := mean_of ScalingMetrics.cpu_utilization ms;
     HourStats.memory := mean_of ScalingMetrics.memory_utilization ms;
     HourStats.rps := mean_of ScalingMetrics.request_rate ms;
     HourStats.avg_pods := mean_pods ms;
     HourStats.max_pods :=
       match map ScalingMetrics.current_pod_count ms with
       | [] => 0
       | x :: r => fold_left max_int r x
       end |}.

(** The statistics of hour [h]. *)
Definition stats_at {fl : Float.Arith} (history : ScheduleGenerator.history) (h : Z)
  : HourStats.t :=
  stats_of (samples_at history h).

(** The hourly statistics, one entry per hour that has data. *)
Definition hourly_table {fl : Float.Arith} (history : ScheduleGenerator.history)
  : Py.dict Z HourStats.t :=
  map (fun h => (h, stats_at history h)) (hours_with_data history).

(** [mean_pods * max(1, max(mean_cpu / 70, mean_memory / 80))] *)
Definition scaled_load {fl : Float.Arith} (history : ScheduleGenerator.history) (h : Z)
  : Q :=
  Float.mul (mean_pods (samples_at history h))
    (max_float 1.0%Q
       (max_float (Float.div (hourly_mean ScalingMetrics.cpu_utilization history h) 70.0%Q)
                  (Float.div (hourly_mean ScalingMetrics.memory_utilization history h)
                     80.0%Q))).

(** Clamping to [[min_pods, max_pods]] as the code nests it. *)
Definition clamp (min_pods max_pods x : Z) : Z := Z.max min_pods (Z.min max_pods x).

(** The target of the standard entry for given hourly statistics. *)
Definition hour_target {fl : Float.Arith} (stats : HourStats.t) (min_pods max_pods : Z)
  : Z :=
  clamp min_pods max_pods
    (int_of_float
       (Float.mul (HourStats.avg_pods stats)
          (max_float 1.0%Q (max_float (Float.div (HourStats.cpu stats) 70.0%Q)
                                      (Float.div (HourStats.memory stats) 80.0%Q))))).

(** Python's [round] on a float: to the nearest integer, ties to even. *)
Definition round (x : Q) : Z :=
  let f := Qfloor x in
  match (x - inject_Z f ?= 1 # 2)%Q with
  | Lt => f
  | Gt => f + 1
  | Eq => if Z.even f then f else f + 1
  end.

(** The standard entry of hour [h] with a given target. *)
Definition standard_entry (h target : Z) : ScalingSchedule.Entry :=
  {| ScalingSchedule.time := fmt_02d h ++ ":00";
     ScalingSchedule.target_pods := target;
     ScalingSchedule.reason := "Scheduled scaling for hour " ++ str_of_int h;
     ScalingSchedule.confidence := 0.85%Q;
     ScalingSchedule.day_of_week := None |}.

End Spec.

(** * Further code of the three modules *)

(** ** More of the Python runtime *)

Module PyMore.
Import Py.

(** [max(xs)] over floats: the first largest element; [ValueError] on an
    empty iterable. *)
Definition max_of_float (xs : list Q) : outcome Q :=
  match xs with
  | [] => Raised (ValueError "max() arg is an empty sequence")
  | x :: r => Returned (fold_left max_float r x)
  end.

(** [str.lower] on one Latin-1 character. *)
Definition lower_char (c : ascii) : ascii :=
  let n := N_of_ascii c in
  if ((65 <=? n) && (n <=? 90)
      || (192 <=? n) && (n <=? 222) && negb (n =? 215))%N
  then ascii_of_N (n + 32) else c.

Fixpoint lower (s : string) : string :=
  match s with
  | EmptyString => EmptyString
  | String c r => String (lower_char c) (lower r)
  end.

(** [a, b = parts]: unpacking into two names. *)
Definition unpack2 (parts : list string) : outcome (string * string) :=
  match parts with
  | [a; b] => Returned (a, b)
  | [] => Raised (ValueError "not enough values to unpack (expected 2, got 0)")
  | [_] => Raised (ValueError "not enough values to unpack (expected 2, got 1)")
  | _ => Raised (ValueError "too many values to unpack (expected 2)")
  end.

(** [sep in s] for a non-empty [sep]. *)
Fixpoint contains (sep s : string) : bool :=
  match s with
  | EmptyString => false
  | String _ r => String.prefix sep s || contains sep r
  end.

End PyMore.

(** ** ai_scaling_engine.py, continued *)

Module ScalingDecisionDict.

Definition opt_str (o : option string) : Json.value :=
  match o with
  | Some s => Json.Str s
  | None => Json.Null
  end.

Definition opt_int (o : option Z) : Json.value :=
  match o with
  | Some n => Json.Int n
  | None => Json.Null
  end.

(** [ScalingDecision.to_dict] *)
Definition to_dict (isoformat : Py.datetime -> string) (self : ScalingDecision.t)
  : Py.dict string Json.value :=
  [ ("action", Json.Str (ScalingDecision.action self));
    ("recommended_pod_count", opt_int (ScalingDecision.recommended_pod_count self));
    ("recommended_memory_increase",
     opt_str (ScalingDecision.recommended_memory_increase self));
    ("recommended_cpu_increase", opt_str (ScalingDecision.recommended_cpu_increase self));
    ("confidence", Json.Float (ScalingDecision.confidence self));
    ("reasoning", Json.Str (ScalingDecision.reasoning self));
    ("urgency", Json.Str (ScalingDecision.urgency self));
    ("estimated_cost_impact", opt_str (ScalingDecision.estimated_cost_impact self));
    ("timestamp", Json.Str (isoformat (ScalingDecision.timestamp self))) ].

End ScalingDecisionDict.

Module EngineSetup.

(** Truth value of an [Optional[str]]: [None] and the empty string are
    false. *)
Definition nonempty (s : option string) : option string :=
  match s with
  | Some k => if String.eqb k EmptyString then None else Some k
  | None => None
  end.

(** [AIScalingEngine.__init__]: [getenv] reads the environment, and
    [make_client] stands for the constructor of the vendor client. The
    default of [model] is ["claude-3-5-sonnet-20241022"]. *)
Definition init (getenv : string -> option string)
    (make_client : string -> AIScalingEngine.Client)
    (api_key : option string) (model : string) : AIScalingEngine.t :=
  let key :=
    match nonempty api_key with
    | Some k => Some k
    | None => getenv "ANTHROPIC_API_KEY"
    end in
  {| AIScalingEngine.api_key := key;
     AIScalingEngine.model := model;
     AIScalingEngine.client :=
       match nonempty key with
       | Some k => Some (make_client k)
       | None => None
       end |}.

End EngineSetup.

(** ** k8s_hpa_manager.py, continued *)

Module HPARecommendation.
Import Py.
Local Open Scope py_scope.

Record Config : Type := {
  min_replicas : Z;
  max_replicas : Z;
  target_cpu_utilization : Z;
  target_memory_utilization : Z
}.

Record Analysis : Type := {
  max_cpu_observed : Q;
  max_memory_observed : Q;
  max_pods_used : Z;
  avg_pods_used : Q
}.

Record t : Type := {
  hpa_name : string;
  namespace : string;
  recommended_config : Config;
  analysis : Analysis;
  reasoning : string
}.

(** What [generate_hpa_recommendations] returns: the dict with the single
    key ["error"], or the recommendation. *)
Inductive result : Type :=
| ErrorDict (error : string)
| Recommendation (r : t).

(** [generate_hpa_recommendations]; [round2] stands for [round(x, 2)] and
    [str_of_float] for the formatting of a float in an f-string. The
    defaults of [hpa_name] and [namespace] are ["ai-inference-hpa"] and
    ["ai-services"]. *)
Definition generate_hpa_recommendations (round2 : Q -> Q) (str_of_float : Q -> string)
    (metrics_history : list ScalingMetrics.t) (hpa_name namespace : string)
  : outcome result :=
  match metrics_history with
  | [] => Returned (ErrorDict "No metrics history provided")
  | _ =>
      max_cpu <- PyMore.max_of_float (map ScalingMetrics.cpu_utilization metrics_history) ;;
      max_memory <- PyMore.max_of_float
                      (map ScalingMetrics.memory_utilization metrics_history) ;;
      max_pods <- max_of (map ScalingMetrics.current_pod_count metrics_history) ;;
      avg_pods <- mean (map ScheduleGenerator.pods_of metrics_history) ;;
      let recommended_min := max_int 2 (int_of_float (avg_pods * 0.7)%Q) in
      let recommended_max :=
        max_int (int_of_float (float_of_int max_pods * 1.5)%Q) (recommended_min + 5) in
      let target_cpu := if float_gt max_cpu 90 then 65 else 70 in
      let target_memory := if float_gt max_memory 90 then 75 else 80 in
      Returned (Recommendation
        {| hpa_name := hpa_name;
           namespace := namespace;
           recommended_config :=
             {| min_replicas := recommended_min;
                max_replicas := recommended_max;
                target_cpu_utilization := target_cpu;
                target_memory_utilization := target_memory |};
           analysis :=
             {| max_cpu_observed := max_cpu;
                max_memory_observed := max_memory;
                max_pods_used := max_pods;
                avg_pods_used := round2 avg_pods |};
           reasoning :=
             "Based on " ++ str_of_int (len metrics_history) ++ " data points: "
             ++ "Max CPU " ++ str_of_float max_cpu ++ "%, Max Memory "
             ++ str_of_float max_memory ++ "%, "
             ++ "recommending min=" ++ str_of_int recommended_min
             ++ " max=" ++ str_of_int recommended_max ++ " pods" |})
  end.

End HPARecommendation.

Module K8sHPAManagerFlow.
Import Py.
Local Open Scope py_scope.

(** [update_hpa_from_metrics]: the engine decides at [now], the decision is
    applied at [now']. When the engine hands back an object with ill-typed
    fields the model stops: what [_apply_decision_to_hpa] does with it is
    not modelled, and the raw object is shown instead of a result. *)
Definition update_hpa_from_metrics {fl : Float.Arith} (rt : AIScalingEngine.Runtime)
    (apply_to_cluster : HPAConfiguration.t -> bool) (now now' : datetime)
    (self : K8sHPAManager.t) (hpa_config : HPAConfiguration.t)
    (current_metrics : ScalingMetrics.t)
    (historical_metrics : option (list ScalingMetrics.t))
  : outcome (AIScalingEngine.dyn (UpdateResult.t * HPAConfiguration.t * K8sHPAManager.t)) :=
  decision <- AIScalingEngine.analyze_metrics rt (K8sHPAManager.scaling_engine self) now
                current_metrics historical_metrics ;;
  match decision with
  | AIScalingEngine.Typed d =>
      Returned (AIScalingEngine.Typed
                  (K8sHPAManager._apply_decision_to_hpa apply_to_cluster now' self
                     hpa_config d current_metrics))
  | AIScalingEngine.Untyped raw => Returned (AIScalingEngine.Untyped raw)
  end.

End K8sHPAManagerFlow.

(** ** schedule_generator.py, continued *)

Module CronJobs.
Import Py.
Local Open Scope py_scope.

(** One element of the list [to_cron_jobs] returns. *)
Record CronJob : Type := {
  schedule : string;
  target_pods : Z;
  reason : string;
  kubectl_command : string
}.

(** The cron expression of one entry: minute, hour and the day field. *)
Definition cron_expr (hour minute : string) (day_of_week : option string) : string :=
  let every_day := minute ++ " " ++ hour ++ " * * *" in
  match day_of_week with
  | Some day =>
      if String.eqb (PyMore.lower day) "weekend" then minute ++ " " ++ hour ++ " * * 0,6"
      else if String.eqb (PyMore.lower day) "weekday" then minute ++ " " ++ hour ++ " * * 1-5"
      else every_day
  | None => every_day
  end.

(** The body of the loop of [to_cron_jobs]. *)
Definition cron_job (entry : ScalingSchedule.Entry) : outcome CronJob :=
  hm <- PyMore.unpack2 (split (ScalingSchedule.time entry) ":") ;;
  Returned
    {| schedule := cron_expr (fst hm) (snd hm) (ScalingSchedule.day_of_week entry);
       target_pods := ScalingSchedule.target_pods entry;
       reason := ScalingSchedule.reason entry;
       kubectl_command :=
         "kubectl scale deployment ai-inference-service --replicas="
         ++ str_of_int (ScalingSchedule.target_pods entry) |}.

(** [ScalingSchedule.to_cron_jobs] *)
Definition to_cron_jobs (self : ScalingSchedule.t) : outcome (list CronJob) :=
  mapM cron_job (ScalingSchedule.schedule_entries self).

(** [ScalingSchedule.to_dict]: the entries sorted by their time string. *)
Record ScheduleDict : Type := {
  name : string;
  description : string;
  schedule_entries : list ScalingSchedule.Entry
}.

Definition to_dict (self : ScalingSchedule.t) : ScheduleDict :=
  {| name := ScalingSchedule.name self;
     description := ScalingSchedule.description self;
     schedule_entries :=
       sorted (fun a b => String.ltb (ScalingSchedule.time a) (ScalingSchedule.time b))
         (ScalingSchedule.schedule_entries self) |}.

End CronJobs.

Module WeeklySchedule.
Import Py.
Local Open Scope py_scope.






End WeeklySchedule.

(** ** Wording of the properties of the further code *)

Module SpecMore.
Import Py.

(** The entries the hourly loop adds for hour [h]: the pre-scale entry when
    [h] is a peak hour, then the standard entry. *)
Definition pre_scale_entry (h target : Z) : ScalingSchedule.Entry :=
  {| ScalingSchedule.time := fmt_02d ((h - 1) mod 24) ++ ":" ++ fmt_02d 30;
     ScalingSchedule.target_pods := target;
     ScalingSchedule.reason := "Pre-scale for peak hour " ++ str_of_int h ++ ":00";
     ScalingSchedule.confidence := 0.9%Q;
     ScalingSchedule.day_of_week := None |}.

Definition low_traffic_entry (h min_pods : Z) : ScalingSchedule.Entry :=
  {| ScalingSchedule.time := fmt_02d h ++ ":00";
     ScalingSchedule.target_pods := min_pods;
     ScalingSchedule.reason := "Scale down during low traffic";
     ScalingSchedule.confidence := 0.95%Q;
     ScalingSchedule.day_of_week := None |}.

Definition hour_entries {fl : Float.Arith} (p : Patterns.t) (min_pods max_pods : Z)
    (kv : Z * HourStats.t) : list ScalingSchedule.Entry :=
  let target := Spec.hour_target (snd kv) min_pods max_pods in
  (if bool_decide (fst kv ∈ map PeakHour.hour (Patterns.peak_hours p))
   then [pre_scale_entry (fst kv) target] else [])
  ++ [Spec.standard_entry (fst kv) target].

(** Hour [h] lies above one and a half times the mean of the hourly means,
    in cpu or in request rate. *)
Definition peak {fl : Float.Arith} (history : ScheduleGenerator.history) (h : Z) : Prop :=
  (Float.mul (Spec.global_mean ScalingMetrics.cpu_utilization history) 1.5
   < Spec.hourly_mean ScalingMetrics.cpu_utilization history h)%Q
  \/ (Float.mul (Spec.global_mean ScalingMetrics.request_rate history) 1.5
      < Spec.hourly_mean ScalingMetrics.request_rate history h)%Q.




(** The number of occurrences of a character. *)
Fixpoint count_char (c : ascii) (s : string) : nat :=
  match s with
  | EmptyString => O
  | String a r => (if Ascii.eqb a c then 1 else 0) + count_char c r
  end.

(** [overall_avg] of [_calculate_trend]: the sum of the values divided by
    their number, in the arithmetic at hand. *)
Definition overall_avg {fl : Float.Arith} (values : list Q) : Q :=
  Float.div (Float.sum values) (float_of_int (len values)).

(** A history on which a trend divides by zero: at least two snapshots
    whose cpu, memory or request rates average to zero. *)
Definition degenerate {fl : Float.Arith} (history : list ScalingMetrics.t) : Prop :=
  2 <= len history
  /\ ((overall_avg (map ScalingMetrics.cpu_utilization history) == 0)%Q
      \/ (overall_avg (map ScalingMetrics.memory_utilization history) == 0)%Q
      \/ (overall_avg (map ScalingMetrics.request_rate history) == 0)%Q).

(** The decision of the rules with the timestamp left aside. *)
Definition same_advice (a b : ScalingDecision.t) : Prop :=
  ScalingDecision.action a = ScalingDecision.action b
  /\ ScalingDecision.recommended_pod_count a = ScalingDecision.recommended_pod_count b
  /\ ScalingDecision.confidence a = ScalingDecision.confidence b
  /\ ScalingDecision.urgency a = ScalingDecision.urgency b.

End SpecMore.

(** ** Further example inputs *)

Module MoreExamples.

(** The other three scenarios of the engine's demo. *)
Definition normal_metrics : ScalingMetrics.t :=
  ScalingMetrics.mk 45 55 120 85 0.5 450 5 3 0.

Definition over_provisioned_metrics : ScalingMetrics.t :=
  ScalingMetrics.mk 12 22 45 35 0.1 180 0 8 0.

Definition memory_constrained_metrics : ScalingMetrics.t :=
  ScalingMetrics.mk 54 96 185 495 16.5 692 145 5 0.

(** A single pod under cpu pressure. *)
Definition single_pod_spike : ScalingMetrics.t :=
  ScalingMetrics.mk 95 50 700 900 5 100 10 1 0.

(** One sample at midnight: cpu 94, memory 50, 35 pods. *)
Definition busy_midnight : ScheduleGenerator.history :=
  [(0, ScalingMetrics.mk 94 50 10 5 0 40 0 35 0)].

(** Three hours, one sample each: cpu 8.1, 20.0 and 20.5 (the float written
    [8.1] is the float nearest to 81/10), 10, 500 and 500 requests per
    second. *)
Definition near_tie : ScheduleGenerator.history :=
  [ (0, ScalingMetrics.mk (Float.nearest 8.1) 20 10 5 0 40 0 2 0);
    (3600, ScalingMetrics.mk 20 20 500 5 0 40 0 2 3600);
    (7200, ScalingMetrics.mk 20.5 20 500 5 0 40 0 2 7200) ].

(** A runtime whose JSON parser reads every text as the value [v]. *)
Definition fixed_answer_runtime (v : Json.value) : AIScalingEngine.Runtime :=
  {| AIScalingEngine.json_loads := fun _ => Some v;
     AIScalingEngine.json_dumps := AIScalingEngine.json_dumps Examples.small_runtime;
     AIScalingEngine.isoformat := AIScalingEngine.isoformat Examples.small_runtime;
     AIScalingEngine.str_of_float := AIScalingEngine.str_of_float Examples.small_runtime;
     AIScalingEngine.fmt_1f := AIScalingEngine.fmt_1f Examples.small_runtime |}.

End MoreExamples.

(** * Properties *)

(** ** Facts about the runtime model *)

Section RuntimeFacts.
Import Py.

Lemma float_lt_spec (a b : Q) : float_lt a b = true <-> (a < b)%Q.
Proof.
  unfold float_lt. rewrite negb_true_iff. split.
  - intros H. apply Qnot_le_lt. intros Hle.
    apply Qle_bool_iff in Hle. congruence.
  - intros H. destruct (Qle_bool b a) eqn:E; [|reflexivity].
    apply Qle_bool_iff in E. exfalso. exact (Qlt_not_le _ _ H E).
Qed.

Lemma float_gt_spec (a b : Q) : float_gt a b = true <-> (b < a)%Q.
Proof. unfold float_gt. apply float_lt_spec. Qed.

Lemma float_gt_false (a b : Q) : float_gt a b = false <-> (a <= b)%Q.
Proof.
  unfold float_gt, float_lt. rewrite negb_false_iff. apply Qle_bool_iff.
Qed.

Lemma float_lt_false (a b : Q) : float_lt a b = false <-> (b <= a)%Q.
Proof. unfold float_lt. rewrite negb_false_iff. apply Qle_bool_iff. Qed.

(** [int(n * 1.5)] is [3 n / 2] rounded toward zero. *)
Lemma int_of_three_halves (n : Z) :
  int_of_float (float_of_int n * 1.5)%Q = Z.quot (3 * n) 2.
Proof.
  unfold int_of_float, float_of_int. cbn [Qnum Qden Qmult inject_Z].
  change (Z.pos (1 * 10)) with (2 * 5).
  replace (n * 15) with (3 * n * 5) by lia.
  apply Z.quot_mul_cancel_r; lia.
Qed.

(** [int(n * 0.5)] is [n / 2] rounded toward zero. *)
Lemma int_of_half (n : Z) :
  int_of_float (float_of_int n * 0.5)%Q = Z.quot n 2.
Proof.
  unfold int_of_float, float_of_int. cbn [Qnum Qden Qmult inject_Z].
  change (Z.pos (1 * 10)) with (2 * 5).
  apply Z.quot_mul_cancel_r; lia.
Qed.

(** On a non-negative float, [int] is the floor. *)
Lemma int_of_float_floor (x : Q) : (0 <= x)%Q -> int_of_float x = Qfloor x.
Proof.
  destruct x as [p q]. unfold Qle, int_of_float, Qfloor. cbn [Qnum Qden].
  intros H. apply Z.quot_div_nonneg; lia.
Qed.

Lemma max_int_spec (a b : Z) : max_int a b = Z.max a b.
Proof. unfold max_int. destruct (Z.gtb_spec b a); lia. Qed.

Lemma min_int_spec (a b : Z) : min_int a b = Z.min a b.
Proof. unfold min_int. destruct (Z.ltb_spec b a); lia. Qed.

End RuntimeFacts.

(** ** The rule-based strategy *)

(** C1 (as amended). When memory is at most 90 and cpu exceeds 80 or memory
    exceeds 85, the rule-based decision is [scale_up_horizontal] with
    confidence 0.80 and urgency high, and its recommended pod count is
    [int(current_pod_count * 1.5)]: three halves of the pod count rounded
    toward zero, which is the floor for a non-negative pod count. *)
Theorem rule_based_scale_up_horizontal (now : Py.datetime) (m : ScalingMetrics.t) :
  (ScalingMetrics.memory_utilization m <= 90)%Q ->
  (80 < ScalingMetrics.cpu_utilization m)%Q \/ (85 < ScalingMetrics.memory_utilization m)%Q ->
  let d := AIScalingEngine._rule_based_decision now m in
  let pods := ScalingMetrics.current_pod_count m in
  ScalingDecision.action d = "scale_up_horizontal"
  /\ ScalingDecision.recommended_pod_count d = Some (Z.quot (3 * pods) 2)
  /\ (0 <= pods -> ScalingDecision.recommended_pod_count d
                   = Some (Qfloor (inject_Z pods * 1.5)))
  /\ ScalingDecision.confidence d = 0.80%Q
  /\ ScalingDecision.urgency d = "high".
Proof.
  intros Hmem Hhigh d pods. subst d.
  unfold AIScalingEngine._rule_based_decision.
  assert (Hor : Py.float_gt (ScalingMetrics.cpu_utilization m) 80
                || Py.float_gt (ScalingMetrics.memory_utilization m) 85 = true).
  { apply orb_true_iff. destruct Hhigh as [H|H]; [left|right]; now apply float_gt_spec. }
  rewrite Hor.
  apply float_gt_false in Hmem. rewrite Hmem.
  cbn [ScalingDecision.init ScalingDecision.action ScalingDecision.recommended_pod_count
       ScalingDecision.confidence ScalingDecision.urgency].
  fold pods. rewrite int_of_three_halves.
  repeat split.
  intros Hpos. f_equal.
  rewrite <- int_of_three_halves. apply int_of_float_floor.
  unfold Py.float_of_int, Qle. cbn. lia.
Qed.

(** The amended rule at the load-spike example: four pods are recommended. *)
Lemma rule_based_scale_up_horizontal_spike :
  (ScalingMetrics.memory_utilization Examples.spike_metrics <= 90)%Q
  /\ ((80 < ScalingMetrics.cpu_utilization Examples.spike_metrics)%Q
      \/ (85 < ScalingMetrics.memory_utilization Examples.spike_metrics)%Q)
  /\ ScalingDecision.action (AIScalingEngine._rule_based_decision 0 Examples.spike_metrics)
     = "scale_up_horizontal"
  /\ ScalingDecision.recommended_pod_count (AIScalingEngine._rule_based_decision 0 Examples.spike_metrics)
     = Some 4.
Proof.
  assert (Hm : (ScalingMetrics.memory_utilization Examples.spike_metrics <= 90)%Q)
    by (unfold Qle; simpl; lia).
  assert (Hc : (80 < ScalingMetrics.cpu_utilization Examples.spike_metrics)%Q
               \/ (85 < ScalingMetrics.memory_utilization Examples.spike_metrics)%Q)
    by (left; unfold Qlt; simpl; lia).
  split; [exact Hm | split; [exact Hc |]].
  destruct (rule_based_scale_up_horizontal 0 Examples.spike_metrics Hm Hc) as (Ha & Hp & _).
  split; [exact Ha | exact Hp].
Defined.

(** C1 (as stated) fails at its own example: for cpu 88, memory 85 and three
    pods the claimed count is [ceil(3 * 1.5) = 5], the code recommends 4. *)
Lemma rule_based_scale_up_not_ceiling :
  (ScalingMetrics.memory_utilization Examples.spike_metrics <= 90)%Q
  /\ (80 < ScalingMetrics.cpu_utilization Examples.spike_metrics)%Q
  /\ Qceiling (inject_Z (ScalingMetrics.current_pod_count Examples.spike_metrics) * 1.5) = 5
  /\ ScalingDecision.recommended_pod_count (AIScalingEngine._rule_based_decision 0 Examples.spike_metrics)
     <> Some (Qceiling (inject_Z (ScalingMetrics.current_pod_count Examples.spike_metrics) * 1.5)).
Proof.
  split; [unfold Qle; simpl; lia|].
  split; [unfold Qlt; simpl; lia|].
  split; [reflexivity|].
  vm_compute. discriminate.
Qed.

(** ** Applying a decision to an HPA configuration *)

Section ReconcileFacts.
Import Py.
Variable apply_to_cluster : HPAConfiguration.t -> bool.

Lemma config_after_decide now self cfg d m :
  Reconcile.config_after apply_to_cluster now self cfg d m
  = snd (K8sHPAManager.decide_changes (Reconcile.fresh_result now self cfg d) cfg d).
Proof.
  unfold Reconcile.config_after, K8sHPAManager._apply_decision_to_hpa. fold (Reconcile.fresh_result now self cfg d).
  destruct (K8sHPAManager.decide_changes (Reconcile.fresh_result now self cfg d) cfg d) as [r c].
  reflexivity.
Qed.

(** When the [if]/[elif] chain records no change, the result dict is
  returned as the chain left it. *)
Lemma result_of_no_changes now self cfg d m :
  UpdateResult.changes
  (fst (K8sHPAManager.decide_changes (Reconcile.fresh_result now self cfg d) cfg d)) = ∅ ->
  Reconcile.result_of apply_to_cluster now self cfg d m
  = fst (K8sHPAManager.decide_changes (Reconcile.fresh_result now self cfg d) cfg d).
Proof.
  unfold Reconcile.result_of, K8sHPAManager._apply_decision_to_hpa. fold (Reconcile.fresh_result now self cfg d).
  destruct (K8sHPAManager.decide_changes (Reconcile.fresh_result now self cfg d) cfg d) as [r c].
  cbn [fst snd]. intros ->.
  rewrite bool_decide_eq_true_2 by reflexivity. reflexivity.
Qed.

Lemma truthy_none (n : option Z) :
  n = None \/ n = Some 0 -> K8sHPAManager.truthy n = None.
Proof. intros [-> | ->]; reflexivity. Qed.

Lemma truthy_some (n : option Z) (k : Z) :
  K8sHPAManager.truthy n = Some k -> n = Some k /\ k <> 0.
Proof.
  destruct n as [j|]; cbn; [|discriminate].
  destruct (Z.eqb_spec j 0); [discriminate|]. intros [= ->]. auto.
Qed.

(** The chain touches the replica bounds only. *)
Lemma decide_changes_frame r cfg d :
  let c := snd (K8sHPAManager.decide_changes r cfg d) in
  HPAConfiguration.name c = HPAConfiguration.name cfg
  /\ HPAConfiguration.namespace c = HPAConfiguration.namespace cfg
  /\ HPAConfiguration.target_cpu_utilization c = HPAConfiguration.target_cpu_utilization cfg
  /\ HPAConfiguration.target_memory_utilization c
   = HPAConfiguration.target_memory_utilization cfg.
Proof.
  unfold K8sHPAManager.decide_changes.
  repeat match goal with
         | |- context [if ?b then _ else _] => destruct b
         | |- context [match K8sHPAManager.truthy ?n with _ => _ end] =>
             destruct (K8sHPAManager.truthy n)
         end; cbn; auto.
Qed.

Lemma quot2_le (r : Z) : 1 <= Z.quot r 2 -> Z.quot r 2 <= r.
Proof.
  destruct (Z_le_gt_dec 0 r) as [H|H].
  - rewrite Z.quot_div_nonneg by lia. intros _.
    apply Z.div_le_upper_bound; lia.
  - intros H1. exfalso.
    assert (Z.quot r 2 <= 0); [|lia].
    apply Z.quot_le_upper_bound; lia.
Qed.

Lemma decide_changes_valid r cfg d :
  HPAConfiguration.valid cfg -> ~ Reconcile.negative_scale_down d ->
  HPAConfiguration.valid (snd (K8sHPAManager.decide_changes r cfg d)).
Proof.
  intros (H1 & H2 & H3 & H4) Hns. unfold K8sHPAManager.decide_changes.
  destruct (String.eqb_spec (ScalingDecision.action d) "scale_up_horizontal") as [Ea|_].
  { destruct (K8sHPAManager.truthy _) as [k|] eqn:Et; cbn [snd];
      [|repeat split; tauto].
    rewrite int_of_half, !max_int_spec.
    unfold HPAConfiguration.valid; cbn.
    pose proof (quot2_le k).
    repeat split; try tauto; lia. }
  destruct (String.eqb_spec (ScalingDecision.action d) "scale_down_horizontal") as [Ea|_].
  { destruct (K8sHPAManager.truthy _) as [k|] eqn:Et; cbn [snd];
      [|repeat split; tauto].
    apply truthy_some in Et as [Ek Hk].
    assert (-2 < k).
    { destruct (Z_le_gt_dec k (-2)); [|lia].
      exfalso. apply Hns. split; [exact Ea|]. exists k. auto. }
    rewrite max_int_spec. unfold HPAConfiguration.valid; cbn.
    repeat split; try tauto; lia. }
  destruct (_ || _); [cbn; repeat split; tauto|].
  destruct (String.eqb _ _); cbn; repeat split; tauto.
Qed.

End ReconcileFacts.

Lemma init_accepts (name namespace : string) (mn mx tc tm : Z) :
  Reconcile.acceptable mn mx tc tm ->
  HPAConfiguration.init name namespace mn mx tc tm
  = Py.Returned (HPAConfiguration.mk name namespace mn mx tc tm).
Proof.
  intros (H1 & H2 & H3 & H4). unfold HPAConfiguration.init.
  destruct (Z.ltb_spec mn 1); [lia|].
  destruct (Z.ltb_spec mx mn); [lia|].
  destruct (Z.leb_spec 1 tc); [|lia].
  destruct (Z.leb_spec tc 100); [|lia].
  destruct (Z.leb_spec 1 tm); [|lia].
  destruct (Z.leb_spec tm 100); [|lia].
  reflexivity.
Qed.

Lemma init_rejects (name namespace : string) (mn mx tc tm : Z) :
  ~ Reconcile.acceptable mn mx tc tm ->
  exists msg, HPAConfiguration.init name namespace mn mx tc tm
              = Py.Raised (Py.ValueError msg).
Proof.
  intros Hbad. unfold HPAConfiguration.init.
  destruct (Z.ltb_spec mn 1); [eauto|].
  destruct (Z.ltb_spec mx mn); [eauto|].
  destruct (Z.leb_spec 1 tc); cbn; [|eauto].
  destruct (Z.leb_spec tc 100); cbn; [|eauto].
  destruct (Z.leb_spec 1 tm); cbn; [|eauto].
  destruct (Z.leb_spec tm 100); cbn; [|eauto].
  exfalso. apply Hbad. unfold Reconcile.acceptable. lia.
Qed.

(** C2, evaluated at its failing input. The demo configuration (3 to 20
    replicas) passes the checks of the constructor; after a
    [scale_down_horizontal] decision that recommends -2 pods the call has
    returned and the configuration holds [min_replicas = 2] above
    [max_replicas = 1]. *)
Theorem scale_down_breaks_replica_bounds :
  HPAConfiguration.init "ai-inference-hpa" "ai-services" 3 20 70 80
  = Py.Returned Examples.demo_config
  /\ HPAConfiguration.valid Examples.demo_config
  /\ Reconcile.config_after (fun _ => true) 0 Examples.dry_run_manager Examples.demo_config
       (Examples.decision "scale_down_horizontal" (Some (-2))) Examples.idle_metrics
     = HPAConfiguration.mk "ai-inference-hpa" "ai-services" 2 1 70 80
  /\ ~ HPAConfiguration.valid
         (Reconcile.config_after (fun _ => true) 0 Examples.dry_run_manager
            Examples.demo_config
            (Examples.decision "scale_down_horizontal" (Some (-2))) Examples.idle_metrics).
Proof.
  assert (Hafter :
    Reconcile.config_after (fun _ => true) 0 Examples.dry_run_manager Examples.demo_config
      (Examples.decision "scale_down_horizontal" (Some (-2))) Examples.idle_metrics
    = HPAConfiguration.mk "ai-inference-hpa" "ai-services" 2 1 70 80)
    by (vm_compute; reflexivity).
  split; [reflexivity|].
  split; [unfold HPAConfiguration.valid; cbn; lia|].
  split; [exact Hafter|].
  rewrite Hafter. unfold HPAConfiguration.valid. cbn. lia.
Qed.

(** C3 (as stated) fails: a live manager applies a [scale_down_horizontal]
    decision recommending -2 pods to a valid configuration; the mutation
    yields [max_replicas < min_replicas], no error is raised and the
    configuration is not left as it was. *)
Lemma violating_mutation_is_kept :
  let live := K8sHPAManager.mk Examples.rule_engine false [] in
  let d := Examples.decision "scale_down_horizontal" (Some (-2)) in
  let after := Reconcile.config_after (fun _ => false) 0 live Examples.demo_config d
                 Examples.spike_metrics in
  HPAConfiguration.valid Examples.demo_config
  /\ HPAConfiguration.max_replicas after < HPAConfiguration.min_replicas after
  /\ after <> Examples.demo_config
  /\ UpdateResult.changes
       (Reconcile.result_of (fun _ => false) 0 live Examples.demo_config d
          Examples.spike_metrics) !! "max_replicas"
     = Some {| UpdateResult.old := 20; UpdateResult.new := 1 |}.
Proof.
  cbv zeta.
  assert (Hafter :
    Reconcile.config_after (fun _ => false) 0
      (K8sHPAManager.mk Examples.rule_engine false []) Examples.demo_config
      (Examples.decision "scale_down_horizontal" (Some (-2))) Examples.spike_metrics
    = HPAConfiguration.mk "ai-inference-hpa" "ai-services" 2 1 70 80)
    by (vm_compute; reflexivity).
  rewrite Hafter.
  split; [unfold HPAConfiguration.valid; cbn; lia|].
  split; [cbn; lia|].
  split; [discriminate|].
  vm_compute. reflexivity.
Qed.

(** C3 (as amended). The constraints on replica bounds and targets are
    checked where a configuration is constructed: the constructor returns
    the configuration when they hold and raises [ValueError], creating
    nothing, when one is violated. [_apply_decision_to_hpa] checks nothing
    and has no failure path; from a valid configuration it yields a valid
    one for every decision other than a [scale_down_horizontal] with a
    recommended count of -2 or less. *)
Theorem validation_at_construction_only :
  (forall (name namespace : string) (mn mx tc tm : Z),
      (Reconcile.acceptable mn mx tc tm
       -> HPAConfiguration.init name namespace mn mx tc tm
          = Py.Returned (HPAConfiguration.mk name namespace mn mx tc tm)
          /\ HPAConfiguration.valid (HPAConfiguration.mk name namespace mn mx tc tm))
      /\ (~ Reconcile.acceptable mn mx tc tm
          -> exists msg, HPAConfiguration.init name namespace mn mx tc tm
                         = Py.Raised (Py.ValueError msg)))
  /\ (forall apply_to_cluster now self cfg d m,
         HPAConfiguration.valid cfg -> ~ Reconcile.negative_scale_down d ->
         HPAConfiguration.valid (Reconcile.config_after apply_to_cluster now self cfg d m)).
Proof.
  split.
  - intros name namespace mn mx tc tm. split.
    + intros H. split; [now apply init_accepts | exact H].
    + apply init_rejects.
  - intros apply_to_cluster now self cfg d m Hv Hd.
    rewrite config_after_decide. now apply decide_changes_valid.
Qed.

(** The amended C3 on the demo: the constructor accepts 3 to 20 replicas,
    and a scale-up to five pods leaves a valid configuration. *)
Lemma validation_at_construction_only_demo :
  HPAConfiguration.init "ai-inference-hpa" "ai-services" 3 20 70 80
  = Py.Returned Examples.demo_config
  /\ HPAConfiguration.valid
       (Reconcile.config_after (fun _ => true) 0 Examples.dry_run_manager Examples.demo_config
          (Examples.decision "scale_up_horizontal" (Some 5)) Examples.spike_metrics).
Proof.
  destruct validation_at_construction_only as [Hinit Hkeep].
  assert (Hacc : Reconcile.acceptable 3 20 70 80)
    by (unfold Reconcile.acceptable; lia).
  split.
  - exact (proj1 (proj1 (Hinit "ai-inference-hpa" "ai-services" 3 20 70 80) Hacc)).
  - apply Hkeep.
    + unfold HPAConfiguration.valid; cbn; lia.
    + intros [Ha _]. discriminate Ha.
Defined.

(** Every call is recorded: the result is appended to [applied_changes]. *)
Lemma applied_changes_grow (apply_to_cluster : HPAConfiguration.t -> bool)
    (now : Py.datetime) (self : K8sHPAManager.t) (cfg : HPAConfiguration.t)
    (d : ScalingDecision.t) (m : ScalingMetrics.t) :
  K8sHPAManager.applied_changes (Reconcile.manager_after apply_to_cluster now self cfg d m)
  = (K8sHPAManager.applied_changes self
     ++ [Reconcile.result_of apply_to_cluster now self cfg d m])%list.
Proof.
  unfold Reconcile.manager_after, Reconcile.result_of, K8sHPAManager._apply_decision_to_hpa.
  destruct (K8sHPAManager.decide_changes _ cfg d) as [r c]. reflexivity.
Qed.

(** C7. A decision whose action is [maintain], [scale_up_vertical] or
    [scale_down_vertical] leaves every field of the configuration as it
    was, so applying it again changes nothing either; the result records no
    change, is not applied, and carries the advisory note, together with the
    recommended memory and cpu increase for the vertical actions and
    nothing else for [maintain]. *)
Theorem advisory_actions_leave_config
    (apply_to_cluster : HPAConfiguration.t -> bool) (now : Py.datetime)
    (self : K8sHPAManager.t) (cfg : HPAConfiguration.t) (d : ScalingDecision.t)
    (m : ScalingMetrics.t) :
  ScalingDecision.action d = "maintain"
  \/ ScalingDecision.action d = "scale_up_vertical"
  \/ ScalingDecision.action d = "scale_down_vertical" ->
  let r := Reconcile.result_of apply_to_cluster now self cfg d m in
  let after := Reconcile.config_after apply_to_cluster now self cfg d m in
  after = cfg
  /\ (forall now' self' m',
         Reconcile.config_after apply_to_cluster now' self' after d m' = cfg)
  /\ UpdateResult.changes r = ∅
  /\ UpdateResult.applied r = false
  /\ (ScalingDecision.action d = "maintain" ->
      UpdateResult.note r
      = Some "No HPA changes needed, current configuration is appropriate"
      /\ UpdateResult.recommendation r = None)
  /\ (ScalingDecision.action d <> "maintain" ->
      UpdateResult.note r
      = Some "Vertical scaling requires deployment resource updates, not HPA changes"
      /\ UpdateResult.recommendation r
         = Some {| UpdateResult.memory_increase :=
                     ScalingDecision.recommended_memory_increase d;
                   UpdateResult.cpu_increase :=
                     ScalingDecision.recommended_cpu_increase d |}).
Proof.
  intros Hact r after.
  assert (Hcfg : forall now' self' c m',
             Reconcile.config_after apply_to_cluster now' self' c d m' = c).
  { intros now' self' c m'. rewrite config_after_decide.
    unfold K8sHPAManager.decide_changes.
    destruct Hact as [H | [H | H]]; rewrite H; reflexivity. }
  assert (Hres : r = fst (K8sHPAManager.decide_changes
                            (Reconcile.fresh_result now self cfg d) cfg d)).
  { subst r. apply result_of_no_changes. unfold K8sHPAManager.decide_changes.
    destruct Hact as [H | [H | H]]; rewrite H; reflexivity. }
  subst after. rewrite Hcfg. split; [reflexivity|]. split; [intros; apply Hcfg|].
  rewrite Hres. unfold K8sHPAManager.decide_changes.
  destruct Hact as [H | [H | H]]; rewrite H; cbn;
    (repeat split; try reflexivity; try discriminate; try congruence).
Qed.

(** C7 on the demo configuration with a [maintain] decision. *)
Lemma advisory_actions_leave_config_demo :
  Reconcile.config_after (fun _ => true) 0 Examples.dry_run_manager Examples.demo_config
    (Examples.decision "maintain" (Some 3)) Examples.spike_metrics
  = Examples.demo_config
  /\ UpdateResult.changes
       (Reconcile.result_of (fun _ => true) 0 Examples.dry_run_manager Examples.demo_config
          (Examples.decision "maintain" (Some 3)) Examples.spike_metrics) = ∅.
Proof.
  assert (Hact :
    ScalingDecision.action (Examples.decision "maintain" (Some 3)) = "maintain"
    \/ ScalingDecision.action (Examples.decision "maintain" (Some 3)) = "scale_up_vertical"
    \/ ScalingDecision.action (Examples.decision "maintain" (Some 3)) = "scale_down_vertical")
    by (left; reflexivity).
  destruct (advisory_actions_leave_config (fun _ => true) 0 Examples.dry_run_manager
              Examples.demo_config (Examples.decision "maintain" (Some 3))
              Examples.spike_metrics Hact) as (H1 & _ & H3 & _).
  split; [exact H1 | exact H3].
Defined.

(** C10. A horizontal decision whose recommended pod count is absent or 0
    leaves every field of the configuration unchanged, records no change
    and is reported as not applied. *)
Theorem horizontal_without_count_is_noop
    (apply_to_cluster : HPAConfiguration.t -> bool) (now : Py.datetime)
    (self : K8sHPAManager.t) (cfg : HPAConfiguration.t) (d : ScalingDecision.t)
    (m : ScalingMetrics.t) :
  ScalingDecision.action d = "scale_up_horizontal"
  \/ ScalingDecision.action d = "scale_down_horizontal" ->
  ScalingDecision.recommended_pod_count d = None
  \/ ScalingDecision.recommended_pod_count d = Some 0 ->
  let r := Reconcile.result_of apply_to_cluster now self cfg d m in
  Reconcile.config_after apply_to_cluster now self cfg d m = cfg
  /\ UpdateResult.changes r = ∅
  /\ UpdateResult.applied r = false.
Proof.
  intros Hact Hcount r. apply truthy_none in Hcount.
  assert (Hdec : K8sHPAManager.decide_changes (Reconcile.fresh_result now self cfg d) cfg d
                 = (Reconcile.fresh_result now self cfg d, cfg)).
  { unfold K8sHPAManager.decide_changes. rewrite Hcount.
    destruct Hact as [H | H]; rewrite H; reflexivity. }
  subst r. rewrite config_after_decide, result_of_no_changes; rewrite Hdec; cbn; auto.
Qed.

(** C10 on the demo configuration: a scale-up that recommends 0 pods, sent
    through a live manager. *)
Lemma horizontal_without_count_is_noop_demo :
  let live := K8sHPAManager.mk Examples.rule_engine false [] in
  let d := Examples.decision "scale_up_horizontal" (Some 0) in
  Reconcile.config_after (fun _ => true) 0 live Examples.demo_config d Examples.spike_metrics
  = Examples.demo_config
  /\ UpdateResult.applied
       (Reconcile.result_of (fun _ => true) 0 live Examples.demo_config d
          Examples.spike_metrics) = false.
Proof.
  cbv zeta.
  destruct (horizontal_without_count_is_noop (fun _ => true) 0
              (K8sHPAManager.mk Examples.rule_engine false []) Examples.demo_config
              (Examples.decision "scale_up_horizontal" (Some 0)) Examples.spike_metrics
              (or_introl eq_refl) (or_intror eq_refl)) as (H1 & _ & H3).
  split; [exact H1 | exact H3].
Defined.

(** ** The AI-backed strategy and its fallback *)

Section EngineFacts.
Import Py.
Context {fl : Float.Arith}.
Variable rt : AIScalingEngine.Runtime.

(** Without a client the rules decide and nothing is raised. *)
Lemma analyze_without_client self now m hist :
  AIScalingEngine.client self = None ->
  AIScalingEngine.analyze_metrics rt self now m hist
  = Returned (AIScalingEngine.Typed (AIScalingEngine._rule_based_decision now m)).
Proof. intros H. unfold AIScalingEngine.analyze_metrics. rewrite H. reflexivity. Qed.

(** Whatever is raised inside the [try] block leads to the rules. *)
Lemma try_block_failure_falls_back self call now m hist context e :
  AIScalingEngine.client self = Some call ->
  AIScalingEngine._prepare_ai_context rt m hist = Returned context ->
  bind (call (AIScalingEngine.model self) 1024 (AIScalingEngine.build_prompt rt m context))
       (fun response => AIScalingEngine.decode_response rt now response) = Raised e ->
  AIScalingEngine.analyze_metrics rt self now m hist
  = Returned (AIScalingEngine.Typed (AIScalingEngine._rule_based_decision now m)).
Proof.
  intros Hc Hctx Hfail.
  unfold AIScalingEngine.analyze_metrics, AIScalingEngine._ai_based_decision.
  rewrite Hc, Hctx. cbn [bind]. cbv beta iota zeta. rewrite Hfail. reflexivity.
Qed.

(** Without history the context is empty and its preparation returns. *)
Lemma context_without_history m :
  AIScalingEngine._prepare_ai_context rt m None = Returned EmptyString
  /\ AIScalingEngine._prepare_ai_context rt m (Some []) = Returned EmptyString.
Proof. split; reflexivity. Qed.

End EngineFacts.

(** X8. Inside the [try] block an answer that is not valid JSON leads to
    the rules: when the preparation of the context has returned, so that the
    backend is reached, and the backend answers with a text that, after the
    removal of an optional code fence, is not valid JSON, [analyze_metrics]
    returns the decision of the rule-based strategy for the same snapshot
    (every field, the timestamp included) and raises nothing. This holds for
    every arithmetic in which the context is prepared. *)
Theorem invalid_json_falls_back
    (fl : Float.Arith) (rt : AIScalingEngine.Runtime) (self : AIScalingEngine.t)
    (call : AIScalingEngine.Client) (now : Py.datetime) (m : ScalingMetrics.t)
    (hist : option (list ScalingMetrics.t)) (context : string)
    (response : AIScalingEngine.Response) (text : string)
    (rest : list AIScalingEngine.ContentBlock) (body : string) :
  AIScalingEngine.client self = Some call ->
  AIScalingEngine._prepare_ai_context rt m hist = Py.Returned context ->
  call (AIScalingEngine.model self) 1024 (AIScalingEngine.build_prompt rt m context)
  = Py.Returned response ->
  AIScalingEngine.content response = AIScalingEngine.TextBlock text :: rest ->
  AIScalingEngine.strip_code_fence (Py.strip text) = Py.Returned body ->
  AIScalingEngine.json_loads rt body = None ->
  AIScalingEngine.analyze_metrics rt self now m hist
  = Py.Returned (AIScalingEngine.Typed (AIScalingEngine._rule_based_decision now m)).
Proof.
  intros Hc Hctx Hcall Hcontent Hbody Hjson.
  apply (try_block_failure_falls_back rt self call now m hist context Py.JSONDecodeError Hc Hctx).
  rewrite Hcall. cbn [Py.bind]. unfold AIScalingEngine.decode_response.
  rewrite Hcontent. cbn [Py.index nth_error Py.bind AIScalingEngine.block_text].
  rewrite Hbody. cbn [Py.bind]. unfold AIScalingEngine.loads. rewrite Hjson. reflexivity.
Qed.

(** X8 on a backend that answers with prose to the load-spike snapshot,
    after a history of two such snapshots, computed in binary64: the trends
    are stable, the context is prepared, the backend is asked and its answer
    is not valid JSON. *)
Lemma invalid_json_falls_back_prose :
  AIScalingEngine.json_loads Examples.small_runtime "I recommend scaling up." = None
  /\ Py.returns
       (AIScalingEngine._prepare_ai_context (fl:=Float.binary64) Examples.small_runtime
          Examples.spike_metrics (Some [Examples.spike_metrics; Examples.spike_metrics]))
  /\ AIScalingEngine.analyze_metrics (fl:=Float.binary64) Examples.small_runtime
       (Examples.ai_engine Examples.chatty_client) 0 Examples.spike_metrics
       (Some [Examples.spike_metrics; Examples.spike_metrics])
     = Py.Returned (AIScalingEngine.Typed
                      (AIScalingEngine._rule_based_decision 0 Examples.spike_metrics)).
Proof.
  split; [reflexivity|].
  split; [eexists; vm_compute; reflexivity|].
  eapply (invalid_json_falls_back Float.binary64 Examples.small_runtime
            (Examples.ai_engine Examples.chatty_client) Examples.chatty_client 0
            Examples.spike_metrics
            (Some [Examples.spike_metrics; Examples.spike_metrics]) _
            {| AIScalingEngine.content := [AIScalingEngine.TextBlock "I recommend scaling up."] |}
            "I recommend scaling up." [] "I recommend scaling up." eq_refl).
  - vm_compute. reflexivity.
  - reflexivity.
  - reflexivity.
  - reflexivity.
  - reflexivity.
Defined.

(** C5, evaluated at its failing input. The backend answers with prose,
    which is not valid JSON, and the history holds two idle snapshots
    (request rate 0). The claim asks for the decision of the rules; the
    context is prepared before the [try] block is entered, the trend of the
    request rate divides by the overall average 0 there, and
    [analyze_metrics] raises [ZeroDivisionError]: the answer of the backend
    is never asked for. Without the history the same backend leads to the
    rules. *)
Theorem invalid_json_after_idle_history_raises :
  let text := "I recommend scaling up." in
  AIScalingEngine.strip_code_fence (Py.strip text) = Py.Returned text
  /\ AIScalingEngine.json_loads Examples.small_runtime text = None
  /\ AIScalingEngine.analyze_metrics Examples.small_runtime
       (Examples.ai_engine Examples.chatty_client) 0 Examples.spike_metrics None
     = Py.Returned (AIScalingEngine.Typed
                      (AIScalingEngine._rule_based_decision 0 Examples.spike_metrics))
  /\ AIScalingEngine.analyze_metrics Examples.small_runtime
       (Examples.ai_engine Examples.chatty_client) 0 Examples.spike_metrics
       (Some [Examples.idle_metrics; Examples.idle_metrics])
     = Py.Raised Py.ZeroDivisionError.
Proof. cbv zeta. repeat split; vm_compute; reflexivity. Qed.

(** C6, evaluated at its failing input. With a client configured and a
    history of two idle snapshots (request rate 0), the trend of the request
    rate divides by the overall average 0 while the context is prepared,
    before the [try] block is entered: [analyze_metrics] raises
    [ZeroDivisionError], whatever the backend would have answered. *)
Theorem idle_history_raises
    (rt : AIScalingEngine.Runtime) (call : AIScalingEngine.Client)
    (now : Py.datetime) (m : ScalingMetrics.t) :
  AIScalingEngine.analyze_metrics rt (Examples.ai_engine call) now m
    (Some [Examples.idle_metrics; Examples.idle_metrics])
  = Py.Raised Py.ZeroDivisionError.
Proof. reflexivity. Qed.

(** A second way out of [analyze_metrics]: a JSON answer whose confidence
    is a string is copied into the decision unchecked, and computing the
    counter label from it raises [TypeError]. *)
Lemma string_confidence_raises (now : Py.datetime) (m : ScalingMetrics.t) :
  let rt :=
    {| AIScalingEngine.json_loads := fun _ =>
         Some (Json.Object [("confidence", Json.Str "high")]);
       AIScalingEngine.json_dumps := AIScalingEngine.json_dumps Examples.small_runtime;
       AIScalingEngine.isoformat := AIScalingEngine.isoformat Examples.small_runtime;
       AIScalingEngine.str_of_float := AIScalingEngine.str_of_float Examples.small_runtime;
       AIScalingEngine.fmt_1f := AIScalingEngine.fmt_1f Examples.small_runtime |} in
  AIScalingEngine.analyze_metrics rt (Examples.ai_engine Examples.chatty_client) now m None
  = Py.Raised Py.TypeError.
Proof. reflexivity. Qed.

(** ** Pattern analysis and schedule synthesis *)

(** C9. On an empty history [analyze_patterns] returns the dict that holds
    only an error message and [generate_schedule] returns the schedule named
    [error-schedule] with no entries; neither raises. *)
Theorem empty_history_gives_empty_result (now : Py.datetime) (min_pods max_pods : Z) :
  ScheduleGenerator.analyze_patterns now []
  = Py.Returned (ScheduleGenerator.ErrorDict "No metrics history provided")
  /\ ScheduleGenerator.generate_schedule now [] min_pods max_pods
     = Py.Returned {| ScalingSchedule.name := "error-schedule";
                      ScalingSchedule.description := EmptyString;
                      ScalingSchedule.schedule_entries := [] |}.
Proof. split; reflexivity. Qed.

Section DictFacts.
Import Py.
Context {V : Type}.
Implicit Types (ks : list Z) (F : Z -> V).

Lemma get_map_in ks F k :
  In k ks -> get (map (fun h => (h, F h)) ks) k = Some (F k).
Proof.
  induction ks as [|a ks IH]; cbn; [tauto|].
  intros Hin. destruct (decide (a = k)) as [->|Hne]; [reflexivity|].
  apply IH. destruct Hin; [congruence | assumption].
Qed.

Lemma get_map_notin ks F k :
  ~ In k ks -> get (map (fun h => (h, F h)) ks) k = None.
Proof.
  induction ks as [|a ks IH]; cbn; [reflexivity|].
  intros Hin. destruct (decide (a = k)) as [->|Hne]; [tauto|].
  apply IH. tauto.
Qed.

Lemma setitem_map_notin ks F k (w : V) :
  ~ In k ks ->
  setitem (map (fun h => (h, F h)) ks) k w = (map (fun h => (h, F h)) ks ++ [(k, w)])%list.
Proof.
  induction ks as [|a ks IH]; cbn; [reflexivity|].
  intros Hin. destruct (decide (a = k)) as [->|Hne]; [tauto|].
  rewrite IH by tauto. reflexivity.
Qed.

Lemma setitem_map_in ks F k (w : V) :
  List.NoDup ks -> In k ks ->
  setitem (map (fun h => (h, F h)) ks) k w
  = map (fun h => (h, if decide (h = k) then w else F h)) ks.
Proof.
  induction ks as [|a ks IH]; cbn; [tauto|].
  intros Hnd Hin. inversion Hnd as [|? ? Ha Hks]; subst.
  destruct (decide (a = k)) as [->|Hne].
  - f_equal. apply map_ext_in. intros h Hh.
    destruct (decide (h = k)) as [->|_]; [contradiction | reflexivity].
  - f_equal. apply IH; [assumption|]. destruct Hin; [congruence | assumption].
Qed.

End DictFacts.

Section DistinctFacts.

Lemma distinct_in (l : list Z) (x : Z) : In x (Spec.distinct l) <-> In x l.
Proof.
  induction l as [|a l IH]; cbn; [tauto|].
  rewrite List.filter_In, IH, negb_true_iff, Z.eqb_neq.
  destruct (Z.eq_dec a x); [tauto|]. split; [tauto|].
  intros [H|H]; [tauto|]. right. split; [assumption | congruence].
Qed.

Lemma distinct_nodup (l : list Z) : List.NoDup (Spec.distinct l).
Proof.
  induction l as [|a l IH]; cbn; constructor.
  - rewrite List.filter_In, negb_true_iff, Z.eqb_neq. tauto.
  - now apply List.NoDup_filter.
Qed.

Lemma distinct_snoc_new (l : list Z) (k : Z) :
  ~ In k l -> Spec.distinct (l ++ [k]) = (Spec.distinct l ++ [k])%list.
Proof.
  induction l as [|a l IH]; cbn; [reflexivity|].
  intros Hin. rewrite IH by tauto. rewrite List.filter_app. cbn.
  destruct (Z.eqb_spec k a); [subst; tauto | reflexivity].
Qed.

Lemma distinct_snoc_old (l : list Z) (k : Z) :
  In k l -> Spec.distinct (l ++ [k]) = Spec.distinct l.
Proof.
  induction l as [|a l IH]; cbn; [tauto|].
  intros Hin. destruct (in_dec Z.eq_dec k l) as [Hl|Hl].
  - now rewrite IH.
  - destruct Hin as [->|Hin]; [|contradiction].
    rewrite distinct_snoc_new by assumption.
    rewrite List.filter_app. cbn. rewrite Z.eqb_refl. cbn. now rewrite app_nil_r.
Qed.

End DistinctFacts.

Section GroupingFacts.
Import Py.
Local Open Scope list_scope.

Lemma samples_at_snoc (l : ScheduleGenerator.history) (t : datetime)
    (m : ScalingMetrics.t) (h : Z) :
  Spec.samples_at (l ++ [(t, m)]) h
  = (Spec.samples_at l h ++ if hour t =? h then [m] else [])%list.
Proof.
  unfold Spec.samples_at. rewrite List.filter_app, map_app. cbn.
  destruct (hour t =? h); reflexivity.
Qed.

Lemma samples_at_none (l : ScheduleGenerator.history) (h : Z) :
  ~ In h (map (fun tm => hour (fst tm)) l) -> Spec.samples_at l h = [].
Proof.
  unfold Spec.samples_at. induction l as [|[t m] l IH]; cbn; [reflexivity|].
  intros Hin. destruct (Z.eqb_spec (hour t) h); [tauto|]. apply IH. tauto.
Qed.

Lemma samples_at_some (l : ScheduleGenerator.history) (h : Z) :
  In h (map (fun tm => hour (fst tm)) l) -> Spec.samples_at l h <> [].
Proof.
  unfold Spec.samples_at. induction l as [|[t m] l IH]; cbn; [tauto|].
  intros Hin. destruct (Z.eqb_spec (hour t) h); [discriminate|].
  apply IH. destruct Hin; [congruence | assumption].
Qed.

Lemma group_by_snoc {K : Type} `{EqDecision K} (key : datetime -> K)
    (l : ScheduleGenerator.history) (t : datetime) (m : ScalingMetrics.t) :
  ScheduleGenerator.group_by key (l ++ [(t, m)])
  = append_to (ScheduleGenerator.group_by key l) (key t) m.
Proof. unfold ScheduleGenerator.group_by. rewrite fold_left_app. reflexivity. Qed.

(** The hourly groups are the snapshots of each hour, hours in the order of
    their first appearance. *)
Lemma group_by_hour (l : ScheduleGenerator.history) :
  ScheduleGenerator.group_by hour l
  = map (fun h => (h, Spec.samples_at l h)) (Spec.hours_with_data l).
Proof.
  induction l as [|[t m] l IH] using rev_ind; [reflexivity|].
  rewrite group_by_snoc, IH. unfold Spec.hours_with_data, append_to.
  rewrite map_app. cbn [map fst].
  set (hs := map (fun tm => hour (fst tm)) l).
  destruct (in_dec Z.eq_dec (hour t) hs) as [Hin|Hin].
  - rewrite distinct_snoc_old by assumption.
    rewrite get_map_in by (now apply distinct_in).
    rewrite setitem_map_in by (apply distinct_nodup || now apply distinct_in).
    apply map_ext. intros h. rewrite samples_at_snoc.
    destruct (decide (h = hour t)) as [->|Hne].
    + now rewrite Z.eqb_refl.
    + destruct (Z.eqb_spec (hour t) h); [congruence|]. now rewrite app_nil_r.
  - rewrite distinct_snoc_new by assumption.
    rewrite get_map_notin by (now rewrite distinct_in).
    rewrite setitem_map_notin by (now rewrite distinct_in).
    rewrite map_app. cbn. f_equal.
    + apply map_ext_in. intros h Hh. rewrite samples_at_snoc.
      destruct (Z.eqb_spec (hour t) h) as [<-|_]; [|now rewrite app_nil_r].
      exfalso. exact (Hin (proj1 (distinct_in _ _) Hh)).
    + rewrite samples_at_snoc, Z.eqb_refl, samples_at_none by assumption. reflexivity.
Qed.

Lemma setitem_forall {K V : Type} `{EqDecision K} (P : K * V -> Prop)
    (d : dict K V) (k : K) (v : V) :
  List.Forall P d -> (forall k', P (k', v)) -> List.Forall P (setitem d k v).
Proof.
  intros Hd Hv. induction Hd as [|[k' v'] d Hx Hd IH]; cbn.
  - constructor; [apply Hv | constructor].
  - destruct (decide (k' = k)); constructor; auto.
Qed.

(** No group of [group_by] is empty, whatever the key. *)
Lemma group_by_nonempty {K : Type} `{EqDecision K} (key : datetime -> K)
    (l : ScheduleGenerator.history) :
  List.Forall (fun kv => snd kv <> []) (ScheduleGenerator.group_by key l).
Proof.
  induction l as [|[t m] l IH] using rev_ind; [constructor|].
  rewrite group_by_snoc. unfold append_to.
  destruct (get _ _); apply setitem_forall; try assumption;
    intros k'; cbn; [now destruct l0 | discriminate].
Qed.

End GroupingFacts.

Section AveragingFacts.
Import Py.
Local Open Scope list_scope.

Lemma len_pos {A : Type} (xs : list A) : xs <> [] -> 0 < len xs.
Proof. destruct xs; [congruence|]. unfold len. cbn [List.length]. lia. Qed.

Lemma truediv_nonzero (a b : Q) : ~ (b == 0)%Q -> truediv a b = Returned (a / b)%Q.
Proof.
  intros Hb. unfold truediv. destruct (Qeq_bool b 0) eqn:E; [|reflexivity].
  apply Qeq_bool_iff in E. contradiction.
Qed.

Lemma mean_returns (xs : list Q) :
  xs <> [] -> mean xs = Returned (sum xs / inject_Z (len xs))%Q.
Proof.
  intros Hxs. unfold mean, float_of_int. apply truediv_nonzero.
  pose proof (len_pos xs Hxs). unfold Qeq. cbn. lia.
Qed.

Lemma map_nonempty {A B : Type} (f : A -> B) (xs : list A) : xs <> [] -> map f xs <> [].
Proof. destruct xs; [congruence | discriminate]. Qed.

Lemma mapM_returns {A B : Type} (f : A -> outcome B) (l : list A) :
  List.Forall (fun x => returns (f x)) l -> returns (mapM f l).
Proof.
  induction 1 as [|x l [y Hy] _ [ys Hys]]; cbn.
  - eexists; reflexivity.
  - rewrite Hy. cbn. rewrite Hys. cbn. eexists; reflexivity.
Qed.

Lemma mapM_pure {A B : Type} (f : A -> outcome B) (g : A -> B) (l : list A) :
  List.Forall (fun x => f x = Returned (g x)) l -> mapM f l = Returned (map g l).
Proof.
  induction 1 as [|x l Hx _ IH]; cbn; [reflexivity|].
  rewrite Hx. cbn. rewrite IH. reflexivity.
Qed.

Context {fl : Float.Arith}.

Lemma float_truediv_nonzero (a b : Q) :
  ~ (b == 0)%Q -> Float.truediv a b = Returned (Float.div a b).
Proof.
  intros Hb. unfold Float.truediv. destruct (Qeq_bool b 0) eqn:E; [|reflexivity].
  apply Qeq_bool_iff in E. contradiction.
Qed.

Lemma float_mean_returns (xs : list Q) :
  xs <> [] -> Float.mean xs = Returned (Float.div (Float.sum xs) (inject_Z (len xs))).
Proof.
  intros Hxs. unfold Float.mean, float_of_int. apply float_truediv_nonzero.
  pose proof (len_pos xs Hxs). unfold Qeq. cbn. lia.
Qed.

Lemma mean_of_returns (f : ScalingMetrics.t -> Q) (ms : list ScalingMetrics.t) :
  ms <> [] -> Float.mean (map f ms) = Returned (Spec.mean_of f ms).
Proof.
  intros Hms. rewrite float_mean_returns by now apply map_nonempty.
  unfold Spec.mean_of, len. now rewrite length_map.
Qed.

Lemma mean_pods_returns (ms : list ScalingMetrics.t) :
  ms <> [] ->
  Float.int_mean (map ScalingMetrics.current_pod_count ms) = Returned (Spec.mean_pods ms).
Proof.
  intros Hms. unfold Float.int_mean, Spec.mean_pods, len. rewrite length_map.
  pose proof (len_pos ms Hms) as Hpos. unfold len in Hpos.
  destruct (Z.eqb_spec (Z.of_nat (List.length ms)) 0); [lia | reflexivity].
Qed.

Lemma hour_stats_returns (ms : list ScalingMetrics.t) :
  ms <> [] -> ScheduleGenerator.hour_stats ms = Returned (Spec.stats_of ms).
Proof.
  intros Hms. unfold ScheduleGenerator.hour_stats.
  rewrite !mean_of_returns, mean_pods_returns by assumption. cbn [bind].
  unfold Spec.stats_of, max_of.
  destruct ms as [|m ms]; [congruence|]. reflexivity.
Qed.

Lemma day_stats_returns (ms : list ScalingMetrics.t) :
  ms <> [] -> returns (ScheduleGenerator.day_stats ms).
Proof.
  intros Hms. unfold ScheduleGenerator.day_stats.
  rewrite !mean_of_returns, mean_pods_returns by assumption. cbn [bind].
  eexists. reflexivity.
Qed.

(** On a non-empty history the hourly averages are the table of the
    specification. *)
Lemma hourly_averages_table (history : ScheduleGenerator.history) :
  ScheduleGenerator.averages ScheduleGenerator.hour_stats
    (ScheduleGenerator.group_by hour history)
  = Returned (Spec.hourly_table history).
Proof.
  unfold ScheduleGenerator.averages.
  rewrite (mapM_pure _ (fun kv => (fst kv, Spec.stats_of (snd kv)))).
  - rewrite group_by_hour. unfold Spec.hourly_table. rewrite map_map. reflexivity.
  - eapply List.Forall_impl; [|apply group_by_nonempty].
    intros [k ms] Hms. cbn in *. now rewrite hour_stats_returns.
Qed.

Lemma daily_averages_return (history : ScheduleGenerator.history) :
  returns (ScheduleGenerator.averages ScheduleGenerator.day_stats
             (ScheduleGenerator.group_by day_name history)).
Proof.
  unfold ScheduleGenerator.averages. apply mapM_returns.
  eapply List.Forall_impl; [|apply group_by_nonempty].
  intros [k ms] Hms. cbn in *. destruct (day_stats_returns ms Hms) as [s Hs].
  rewrite Hs. cbn. eexists; reflexivity.
Qed.

End AveragingFacts.

Section SortingFacts.
Import Py.
Context {A : Type}.

Lemma insert_sorted_in (lt : A -> A -> bool) (x y : A) (l : list A) :
  In y (insert_sorted lt x l) <-> y = x \/ In y l.
Proof.
  induction l as [|a l IH]; cbn; [intuition congruence|].
  destruct (lt a x); cbn; rewrite ?IH; intuition congruence.
Qed.

Lemma sorted_in (lt : A -> A -> bool) (y : A) (l : list A) :
  In y (sorted lt l) <-> In y l.
Proof.
  induction l as [|a l IH]; cbn; [tauto|].
  rewrite insert_sorted_in, IH. intuition congruence.
Qed.

Variable key : A -> Z.

Let before (a b : A) : bool := key a <? key b.
Let ascending (a b : A) : Prop := key a < key b.

Lemma insert_sorted_ascending (x : A) (l : list A) :
  StronglySorted ascending l -> ~ In (key x) (map key l) ->
  StronglySorted ascending (insert_sorted before x l).
Proof.
  induction 1 as [|a l Hl IH Ha]; cbn; intros Hx.
  - repeat constructor.
  - unfold before at 1. destruct (Z.ltb_spec (key a) (key x)) as [Hlt|Hge].
    + constructor; [apply IH; tauto|].
      apply List.Forall_forall. intros y Hy. apply insert_sorted_in in Hy as [->|Hy].
      * exact Hlt.
      * rewrite List.Forall_forall in Ha. now apply Ha.
    + assert (Hxa : key x < key a) by (assert (key a <> key x) by tauto; lia).
      constructor; [now constructor|].
      constructor; [exact Hxa|].
      eapply List.Forall_impl; [|exact Ha]. unfold ascending. intros; lia.
Qed.

(** Sorting by a key without repetitions gives a strictly ascending list. *)
Lemma sorted_ascending (l : list A) :
  List.NoDup (map key l) -> StronglySorted ascending (sorted before l).
Proof.
  induction l as [|a l IH]; cbn; intros Hnd; [constructor|].
  inversion Hnd as [|? ? Ha Hl]; subst.
  apply insert_sorted_ascending; [now apply IH|].
  intros Hin. apply Ha. apply in_map_iff in Hin as (y & Hy & Hin).
  apply sorted_in in Hin. apply in_map_iff. eauto.
Qed.

End SortingFacts.

Lemma analyze_patterns_unfold {fl : Float.Arith} (now : Py.datetime)
    (l : ScheduleGenerator.history) :
  l <> [] ->
  ScheduleGenerator.analyze_patterns now l
  = Py.bind (ScheduleGenerator.averages ScheduleGenerator.hour_stats
               (ScheduleGenerator.group_by Py.hour l))
      (fun hourly_averages =>
         Py.bind (ScheduleGenerator.averages ScheduleGenerator.day_stats
                    (ScheduleGenerator.group_by Py.day_name l))
           (fun daily_averages =>
              Py.bind (ScheduleGenerator._identify_peak_hours hourly_averages)
                (fun peak_hours =>
                   Py.bind (ScheduleGenerator._identify_low_hours hourly_averages)
                     (fun low_hours =>
                        Py.Returned
                          (ScheduleGenerator.Analysis
                             {| Patterns.hourly_patterns := hourly_averages;
                                Patterns.daily_patterns := daily_averages;
                                Patterns.peak_hours := peak_hours;
                                Patterns.low_traffic_hours := low_hours;
                                Patterns.analysis_timestamp := now |}))))).
Proof. destruct l; [congruence | reflexivity]. Qed.

Section LowTrafficFacts.
Import Py.
Local Open Scope list_scope.
Context {fl : Float.Arith}.
Variable history : ScheduleGenerator.history.
Hypothesis history_nonempty : history <> [].

Lemma hours_nonempty : Spec.hours_with_data history <> [].
Proof.
  intros H. apply history_nonempty. unfold Spec.hours_with_data in H.
  destruct history as [|[t m] l]; [reflexivity | discriminate].
Qed.

Lemma table_keys : keys (Spec.hourly_table history) = Spec.hours_with_data history.
Proof.
  unfold keys, Spec.hourly_table. rewrite map_map. cbn. apply map_id.
Qed.

Lemma table_get (h : Z) :
  In h (Spec.hours_with_data history) ->
  get (Spec.hourly_table history) h = Some (Spec.stats_at history h).
Proof. apply get_map_in. Qed.

Lemma table_mean (proj : HourStats.t -> Q) (f : ScalingMetrics.t -> Q) :
  (forall ms, proj (Spec.stats_of ms) = Spec.mean_of f ms) ->
  Float.mean (map proj (values (Spec.hourly_table history)))
  = Returned (Spec.global_mean f history).
Proof.
  intros Hproj. unfold values, Spec.hourly_table. rewrite !map_map. cbn [snd].
  rewrite float_mean_returns by (apply map_nonempty, hours_nonempty).
  unfold Spec.global_mean, len. rewrite length_map.
  do 3 f_equal. apply map_ext. intros h. apply Hproj.
Qed.

Lemma low_hours_of_table :
  ScheduleGenerator._identify_low_hours (Spec.hourly_table history)
  = Returned
      (sorted (fun a b => LowHour.hour a <? LowHour.hour b)
         (map ScheduleGenerator.low_entry
            (List.filter
               (ScheduleGenerator.is_low_hour
                  (Spec.global_mean ScalingMetrics.cpu_utilization history)
                  (Spec.global_mean ScalingMetrics.request_rate history))
               (Spec.hourly_table history)))).
Proof.
  unfold ScheduleGenerator._identify_low_hours.
  rewrite (table_mean HourStats.cpu ScalingMetrics.cpu_utilization) by reflexivity.
  rewrite (table_mean HourStats.rps ScalingMetrics.request_rate) by reflexivity.
  cbn [bind].
  destruct (Spec.hourly_table history) eqn:E; [|reflexivity].
  exfalso. apply hours_nonempty. apply map_eq_nil in E. exact E.
Qed.

Lemma peak_hours_return :
  returns (ScheduleGenerator._identify_peak_hours (Spec.hourly_table history)).
Proof.
  unfold ScheduleGenerator._identify_peak_hours.
  rewrite (table_mean HourStats.cpu ScalingMetrics.cpu_utilization) by reflexivity.
  rewrite (table_mean HourStats.rps ScalingMetrics.request_rate) by reflexivity.
  cbn [bind]. destruct (Spec.hourly_table history); eexists; reflexivity.
Qed.

(** What [analyze_patterns] returns on a non-empty history. *)
Lemma analyze_patterns_nonempty (now : datetime) :
  exists p,
    ScheduleGenerator.analyze_patterns now history
    = Returned (ScheduleGenerator.Analysis p)
    /\ Patterns.hourly_patterns p = Spec.hourly_table history
    /\ ScheduleGenerator._identify_low_hours (Spec.hourly_table history)
       = Returned (Patterns.low_traffic_hours p).
Proof.
  rewrite analyze_patterns_unfold by assumption.
  rewrite hourly_averages_table. cbn [bind].
  destruct (daily_averages_return history) as [daily ->]. cbn [bind].
  destruct peak_hours_return as [peak ->]. cbn [bind].
  rewrite low_hours_of_table. cbn [bind].
  eexists. split; [reflexivity|]. split; reflexivity.
Qed.

Lemma is_low_hour_spec (h : Z) :
  ScheduleGenerator.is_low_hour
    (Spec.global_mean ScalingMetrics.cpu_utilization history)
    (Spec.global_mean ScalingMetrics.request_rate history)
    (h, Spec.stats_at history h) = true
  <-> Spec.low_traffic history h.
Proof.
  unfold ScheduleGenerator.is_low_hour, Spec.low_traffic. cbn [snd].
  rewrite andb_true_iff, !float_lt_spec. reflexivity.
Qed.

Lemma in_hours_with_data (h : Z) :
  In h (Spec.hours_with_data history)
  <-> exists t m, In (t, m) history /\ hour t = h.
Proof.
  unfold Spec.hours_with_data. rewrite distinct_in, in_map_iff. split.
  - intros ([t m] & Hh & Hin). eauto.
  - intros (t & m & Hin & Hh). exists (t, m). auto.
Qed.

(** The low-traffic hours of an analysis, by hour. *)
Lemma low_hour_in (p : Patterns.t) (h : Z) :
  ScheduleGenerator._identify_low_hours (Spec.hourly_table history)
  = Returned (Patterns.low_traffic_hours p) ->
  In h (map LowHour.hour (Patterns.low_traffic_hours p))
  <-> In h (Spec.hours_with_data history) /\ Spec.low_traffic history h.
Proof.
  rewrite low_hours_of_table. intros [= <-].
  rewrite in_map_iff. split.
  - intros (e & He & Hin). apply sorted_in in Hin.
    apply in_map_iff in Hin as ([k s] & <- & Hin).
    apply List.filter_In in Hin as [Hin Hlowk]. cbn in He. subst k.
    unfold Spec.hourly_table in Hin. apply in_map_iff in Hin as (h' & [= <- <-] & Hh).
    split; [exact Hh|]. now apply is_low_hour_spec.
  - intros [Hh Hl]. exists (ScheduleGenerator.low_entry (h, Spec.stats_at history h)).
    split; [reflexivity|]. apply sorted_in. apply in_map.
    apply List.filter_In. split; [|now apply is_low_hour_spec].
    unfold Spec.hourly_table. apply in_map_iff. eauto.
Qed.

(** They are listed by ascending hour, no hour twice. *)
Lemma low_hours_ascending (p : Patterns.t) :
  ScheduleGenerator._identify_low_hours (Spec.hourly_table history)
  = Returned (Patterns.low_traffic_hours p) ->
  StronglySorted (fun a b => LowHour.hour a < LowHour.hour b)
    (Patterns.low_traffic_hours p).
Proof.
  rewrite low_hours_of_table. intros [= <-].
  apply (sorted_ascending LowHour.hour).
  rewrite map_map. cbn.
  assert (Hnd : List.NoDup (map fst (Spec.hourly_table history))).
  { fold (keys (Spec.hourly_table history)). rewrite table_keys.
    apply distinct_nodup. }
  revert Hnd. generalize (Spec.hourly_table history). intros tbl.
  induction tbl as [|[k s] tbl IH]; cbn; [constructor|].
  intros Hnd. inversion Hnd as [|? ? Hk Htbl]; subst.
  destruct (ScheduleGenerator.is_low_hour _ _ _); cbn; [|now apply IH].
  constructor; [|now apply IH].
  intros Hin. apply Hk. apply in_map_iff in Hin as (kv & Hkv & Hin).
  apply List.filter_In in Hin as [Hin _]. apply in_map_iff. eauto.
Qed.

End LowTrafficFacts.

(** C8 (as amended). On a non-empty history an hour is listed in
    [low_traffic_hours] exactly when it has data, its mean cpu is below the
    mean of the hourly cpu means times 0.5 and its mean request rate is
    below the mean of the hourly request-rate means times 0.5; the list is
    in strictly ascending order of the hour. Every mean is a sum divided by
    a count and every product is [avg * 0.5], each as the arithmetic at hand
    computes it: the statement holds for every arithmetic, so whatever the
    rounding of the interpreter. *)
Theorem low_traffic_hours_characterised
    (fl : Float.Arith) (now : Py.datetime) (history : ScheduleGenerator.history) :
  history <> [] ->
  exists p,
    ScheduleGenerator.analyze_patterns now history
    = Py.Returned (ScheduleGenerator.Analysis p)
    /\ (forall h,
           In h (map LowHour.hour (Patterns.low_traffic_hours p))
           <-> In h (Spec.hours_with_data history) /\ Spec.low_traffic history h)
    /\ StronglySorted (fun a b => LowHour.hour a < LowHour.hour b)
         (Patterns.low_traffic_hours p).
Proof.
  intros Hne.
  destruct (analyze_patterns_nonempty history Hne now) as (p & Hp & _ & Hlow).
  exists p. split; [exact Hp|]. split.
  - intros h. exact (low_hour_in history Hne p h Hlow).
  - exact (low_hours_ascending history Hne p Hlow).
Qed.

(** The amended C8 computed in binary64. On two hours, a quiet midnight
    (cpu 10, 10 requests per second) and a busy one o'clock (cpu 90, 500
    requests per second), midnight is listed and one o'clock is not. On
    three hours with cpu 8.1, 20.0 and 20.5, half of the mean of the hourly
    means rounds to the float 8.1 itself, midnight is not below it and is
    not listed. *)
Lemma low_traffic_hours_characterised_two_hours :
  let history :=
    [ (0, ScalingMetrics.mk 10 20 10 5 0 40 0 2 0);
      (3600, ScalingMetrics.mk 90 80 500 300 2 2000 50 6 3600) ] in
  history <> [] /\ MoreExamples.near_tie <> []
  /\ (exists p,
         ScheduleGenerator.analyze_patterns (fl:=Float.binary64) 0 history
         = Py.Returned (ScheduleGenerator.Analysis p)
         /\ In 0 (map LowHour.hour (Patterns.low_traffic_hours p))
         /\ ~ In 1 (map LowHour.hour (Patterns.low_traffic_hours p)))
  /\ (exists p,
         ScheduleGenerator.analyze_patterns (fl:=Float.binary64) 0 MoreExamples.near_tie
         = Py.Returned (ScheduleGenerator.Analysis p)
         /\ ~ In 0 (map LowHour.hour (Patterns.low_traffic_hours p))).
Proof.
  cbv zeta.
  set (history := [ (0, ScalingMetrics.mk 10 20 10 5 0 40 0 2 0);
                    (3600, ScalingMetrics.mk 90 80 500 300 2 2000 50 6 3600) ]).
  assert (Hne : history <> []) by discriminate.
  assert (Hne' : MoreExamples.near_tie <> []) by discriminate.
  split; [exact Hne|]. split; [exact Hne'|]. split.
  - destruct (low_traffic_hours_characterised Float.binary64 0 history Hne)
      as (p & Hp & Hiff & _).
    exists p. split; [exact Hp|]. split.
    + apply Hiff. split; [left; reflexivity|].
      split; unfold Qlt; vm_compute; reflexivity.
    + intros Hin. apply Hiff in Hin as [_ [Hcpu _]].
      revert Hcpu. unfold Qlt. vm_compute. discriminate.
  - destruct (low_traffic_hours_characterised Float.binary64 0 MoreExamples.near_tie Hne')
      as (p & Hp & Hiff & _).
    exists p. split; [exact Hp|].
    intros Hin. apply Hiff in Hin as [_ [Hcpu _]].
    revert Hcpu. unfold Qlt. vm_compute. discriminate.
Defined.

(** C8 (as stated) fails when the global mean is read as the mean over all
    snapshots. One quiet snapshot at midnight (cpu 10, 10 requests per
    second) and three busier ones at one o'clock (cpu 25, 25 requests per
    second): the mean over all snapshots is 21.25, so midnight lies below
    half of it in cpu and in request rate and the claim lists it; the code
    compares with half of the mean of the two hourly means, 8.75, and lists
    no hour. All values are exact in binary64. *)
Lemma global_mean_is_mean_of_hourly_means :
  let quiet := ScalingMetrics.mk 10 20 10 5 0 40 0 2 0 in
  let busy := ScalingMetrics.mk 25 40 25 5 0 40 0 2 3600 in
  let history := [(0, quiet); (3600, busy); (3601, busy); (3602, busy)] in
  (Spec.hourly_mean ScalingMetrics.cpu_utilization history 0
     < 0.5 * Spec.snapshot_mean ScalingMetrics.cpu_utilization history)%Q
  /\ (Spec.hourly_mean ScalingMetrics.request_rate history 0
        < 0.5 * Spec.snapshot_mean ScalingMetrics.request_rate history)%Q
  /\ exists p,
      ScheduleGenerator.analyze_patterns 0 history
      = Py.Returned (ScheduleGenerator.Analysis p)
      /\ ~ In 0 (map LowHour.hour (Patterns.low_traffic_hours p)).
Proof.
  cbv zeta. split; [unfold Qlt; vm_compute; reflexivity|].
  split; [unfold Qlt; vm_compute; reflexivity|].
  eexists. split; [vm_compute; reflexivity|]. intros [].
Qed.

Section ScheduleFacts.
Import Py.
Local Open Scope list_scope.
Context {fl : Float.Arith}.

Lemma recommended_for_returns (stats : HourStats.t) (min_pods max_pods : Z) :
  ScheduleGenerator.recommended_for stats min_pods max_pods
  = Returned (Spec.hour_target stats min_pods max_pods).
Proof.
  unfold ScheduleGenerator.recommended_for.
  rewrite !float_truediv_nonzero by (unfold Qeq; cbn; lia). cbn [bind].
  rewrite max_int_spec, min_int_spec. reflexivity.
Qed.

Lemma schedule_hour_entries (p : Patterns.t) (min_pods max_pods : Z)
    (schedule : ScalingSchedule.t) (h : Z) (stats : HourStats.t) :
  get (Patterns.hourly_patterns p) h = Some stats ->
  exists schedule' pre,
    ScheduleGenerator.schedule_hour p min_pods max_pods schedule h = Returned schedule'
    /\ ScalingSchedule.schedule_entries schedule'
       = ScalingSchedule.schedule_entries schedule ++ pre
         ++ [Spec.standard_entry h (Spec.hour_target stats min_pods max_pods)].
Proof.
  intros Hget. unfold ScheduleGenerator.schedule_hour, getitem.
  rewrite Hget. cbn [bind]. rewrite recommended_for_returns. cbn [bind].
  destruct (bool_decide _); eexists; eexists; (split; [reflexivity|]); cbn.
  - rewrite <- app_assoc. reflexivity.
  - instantiate (1 := []). reflexivity.
Qed.

Lemma schedule_loop_entries (p : Patterns.t) (min_pods max_pods : Z) (hours : list Z) :
  forall schedule,
    (forall h, In h hours -> exists stats, get (Patterns.hourly_patterns p) h = Some stats) ->
    exists schedule',
      ScheduleGenerator.foldM (ScheduleGenerator.schedule_hour p min_pods max_pods)
        hours schedule = Returned schedule'
      /\ (forall e, In e (ScalingSchedule.schedule_entries schedule)
                    -> In e (ScalingSchedule.schedule_entries schedule'))
      /\ (forall h stats,
             In h hours -> get (Patterns.hourly_patterns p) h = Some stats ->
             In (Spec.standard_entry h (Spec.hour_target stats min_pods max_pods))
                (ScalingSchedule.schedule_entries schedule')).
Proof.
  induction hours as [|h hours IH]; intros schedule Hall; cbn.
  - exists schedule. split; [reflexivity|]. split; [auto | intros ? ? []].
  - destruct (Hall h (or_introl eq_refl)) as [stats Hstats].
    destruct (schedule_hour_entries p min_pods max_pods schedule h stats Hstats)
      as (s1 & pre & Hs1 & Hentries).
    rewrite Hs1. cbn [bind].
    destruct (IH s1 (fun k Hk => Hall k (or_intror Hk))) as (s2 & Hs2 & Hkeep & Hnew).
    exists s2. split; [exact Hs2|]. split.
    + intros e He. apply Hkeep. rewrite Hentries. apply in_or_app. now left.
    + intros k st [<-|Hk] Hst.
      * apply Hkeep. rewrite Hentries. rewrite Hstats in Hst. injection Hst as <-.
        apply in_or_app. right. apply in_or_app. right. now left.
      * now apply Hnew.
Qed.

Lemma schedule_low_keeps (min_pods : Z) (lows : list LowHour.t) :
  forall schedule e,
    In e (ScalingSchedule.schedule_entries schedule) ->
    In e (ScalingSchedule.schedule_entries
            (fold_left (ScheduleGenerator.schedule_low min_pods) lows schedule)).
Proof.
  induction lows as [|l lows IH]; intros schedule e He; cbn; [exact He|].
  apply IH. cbn. apply in_or_app. now left.
Qed.

Lemma fmt_02d_hour (h : Z) : 0 <= h < 24 -> String.length (fmt_02d h) = 2%nat.
Proof.
  intros Hh.
  assert (Hall : forallb (fun n => Nat.eqb (String.length (fmt_02d (Z.of_nat n))) 2)
                   (seq 0 24) = true) by (vm_compute; reflexivity).
  rewrite forallb_forall in Hall.
  specialize (Hall (Z.to_nat h)). rewrite Z2Nat.id in Hall by lia.
  apply Nat.eqb_eq, Hall, in_seq. lia.
Qed.

End ScheduleFacts.

(** C4 (as amended). For every hour that has data, [generate_schedule]
    returns a schedule holding the standard entry of that hour: time
    ["HH:00"] in two digits, confidence 0.85, and as target the product
    [mean_pods * max(1, max(mean_cpu / 70, mean_memory / 80))] cut to an
    integer by [int], that is rounded toward zero, and then clamped to
    [[min_pods, max_pods]]. The means, the two quotients and the product
    are those of the arithmetic at hand: the statement holds for every
    arithmetic, so whatever the rounding of the interpreter. *)
Theorem standard_entry_per_hour
    (fl : Float.Arith) (now : Py.datetime) (history : ScheduleGenerator.history)
    (min_pods max_pods : Z) (t : Py.datetime) (m : ScalingMetrics.t) :
  In (t, m) history ->
  let h := Py.hour t in
  exists schedule entry,
    ScheduleGenerator.generate_schedule now history min_pods max_pods
    = Py.Returned schedule
    /\ In entry (ScalingSchedule.schedule_entries schedule)
    /\ ScalingSchedule.time entry = Py.fmt_02d h ++ ":00"
    /\ String.length (Py.fmt_02d h) = 2%nat
    /\ ScalingSchedule.confidence entry = 0.85%Q
    /\ ScalingSchedule.reason entry = "Scheduled scaling for hour " ++ Py.str_of_int h
    /\ ScalingSchedule.target_pods entry
       = Spec.clamp min_pods max_pods (Py.int_of_float (Spec.scaled_load history h)).
Proof.
  intros Hin h.
  assert (Hne : history <> []) by (intros ->; destruct Hin).
  assert (Hh : In h (Spec.hours_with_data history)).
  { apply in_hours_with_data. eauto. }
  destruct (analyze_patterns_nonempty history Hne now) as (p & Hp & Htable & _).
  unfold ScheduleGenerator.generate_schedule. rewrite Hp. cbn [Py.bind].
  destruct (schedule_loop_entries p min_pods max_pods
              (Py.sorted Z.ltb (Py.keys (Patterns.hourly_patterns p)))
              (ScalingSchedule.init "ai-workload-schedule"
                 "Generated from historical metrics analysis"))
    as (s & Hs & _ & Hnew).
  { intros k Hk. apply sorted_in in Hk. rewrite Htable, table_keys in Hk.
    rewrite Htable. eexists. now apply table_get. }
  rewrite Hs. cbn [Py.bind].
  eexists. exists (Spec.standard_entry h (Spec.hour_target (Spec.stats_at history h) min_pods max_pods)).
  split; [reflexivity|]. split.
  - apply schedule_low_keeps. apply Hnew.
    + apply sorted_in. now rewrite Htable, table_keys.
    + rewrite Htable. now apply table_get.
  - repeat split. apply fmt_02d_hour. apply Z.mod_pos_bound. lia.
Qed.

(** The amended C4 computed in binary64 on one observation at midnight.
    With cpu 35, memory 100 and three pods the load is 3.75 pods and the
    entry asks for 3. With cpu 94, memory 50 and 35 pods the quotient
    [94 / 70] rounds to 1.3428571428571427, the load to 46.99999999999999,
    and the entry asks for 46. *)
Lemma standard_entry_per_hour_midnight :
  In (0, Examples.memory_bound_metrics) [(0, Examples.memory_bound_metrics)]
  /\ (exists schedule entry,
         ScheduleGenerator.generate_schedule (fl:=Float.binary64) 0
           [(0, Examples.memory_bound_metrics)] 2 20
         = Py.Returned schedule
         /\ In entry (ScalingSchedule.schedule_entries schedule)
         /\ ScalingSchedule.time entry = "00:00"
         /\ ScalingSchedule.target_pods entry = 3)
  /\ (exists schedule entry,
         ScheduleGenerator.generate_schedule (fl:=Float.binary64) 0
           MoreExamples.busy_midnight 2 100
         = Py.Returned schedule
         /\ In entry (ScalingSchedule.schedule_entries schedule)
         /\ ScalingSchedule.time entry = "00:00"
         /\ ScalingSchedule.target_pods entry = 46).
Proof.
  assert (Hin : In (0, Examples.memory_bound_metrics) [(0, Examples.memory_bound_metrics)])
    by (left; reflexivity).
  split; [exact Hin|]. split.
  - destruct (standard_entry_per_hour Float.binary64 0 [(0, Examples.memory_bound_metrics)]
                2 20 0 Examples.memory_bound_metrics Hin)
      as (schedule & entry & Hs & He & Htime & _ & _ & _ & Htarget).
    exists schedule, entry. split; [exact Hs|]. split; [exact He|].
    split; [exact Htime|]. rewrite Htarget. vm_compute. reflexivity.
  - destruct (standard_entry_per_hour Float.binary64 0 MoreExamples.busy_midnight 2 100 0
                (ScalingMetrics.mk 94 50 10 5 0 40 0 35 0) (or_introl eq_refl))
      as (schedule & entry & Hs & He & Htime & _ & _ & _ & Htarget).
    exists schedule, entry. split; [exact Hs|]. split; [exact He|].
    split; [exact Htime|]. rewrite Htarget. vm_compute. reflexivity.
Defined.

(** C4 (as stated) fails: for one observation at midnight with cpu 35,
    memory 100 and three pods the load is 3.75 pods, [round] gives 4, and
    the only entry of the schedule asks for 3 pods. *)
Lemma standard_entry_is_not_rounded :
  let history := [(0, Examples.memory_bound_metrics)] in
  In 0 (Spec.hours_with_data history)
  /\ (Spec.scaled_load history 0 == 3.75)%Q
  /\ Spec.clamp 2 20 (Spec.round (Spec.scaled_load history 0)) = 4
  /\ ScheduleGenerator.generate_schedule 0 history 2 20
     = Py.Returned
         {| ScalingSchedule.name := "ai-workload-schedule";
            ScalingSchedule.description := "Generated from historical metrics analysis";
            ScalingSchedule.schedule_entries := [Spec.standard_entry 0 3] |}
  /\ ~ In (Spec.standard_entry 0
             (Spec.clamp 2 20 (Spec.round (Spec.scaled_load history 0))))
          [Spec.standard_entry 0 3].
Proof.
  cbv zeta.
  split; [left; reflexivity|].
  split; [vm_compute; reflexivity|].
  split; [vm_compute; reflexivity|].
  split; [vm_compute; reflexivity|].
  intros [H|[]]. vm_compute in H. discriminate H.
Qed.

(** * Further properties *)

(** ** The rules of the engine *)

Section RuleFacts.
Import Py.

(** [int(n * 0.7)] is [7 n / 10] rounded toward zero. *)
Lemma int_of_seven_tenths (n : Z) :
  int_of_float (float_of_int n * 0.7)%Q = Z.quot (7 * n) 10.
Proof.
  unfold int_of_float, float_of_int. cbn [Qnum Qden Qmult inject_Z].
  change (Z.pos (1 * 10)) with 10. f_equal. lia.
Qed.

Lemma below_is_not_above (x a b : Q) : (x < a)%Q -> (a <= b)%Q -> float_gt x b = false.
Proof.
  intros Hx Hab. apply float_gt_false.
  apply Qlt_le_weak. eapply Qlt_le_trans; eassumption.
Qed.

End RuleFacts.

(** X1. Memory above 90 decides for vertical scaling whatever the cpu
    load and the pod count are: the action is [scale_up_vertical], the
    memory increase is 50%, no pod count is recommended, the confidence is
    0.85 and the urgency is high. *)
Theorem rule_based_scale_up_vertical (now : Py.datetime) (m : ScalingMetrics.t) :
  (90 < ScalingMetrics.memory_utilization m)%Q ->
  AIScalingEngine._rule_based_decision now m
  = ScalingDecision.mk "scale_up_vertical" None (Some "50%") None 0.85
      "Memory utilization >90%, vertical scaling recommended" "high" None now.
Proof.
  intros Hmem. unfold AIScalingEngine._rule_based_decision.
  assert (H90 : Py.float_gt (ScalingMetrics.memory_utilization m) 90 = true)
    by now apply float_gt_spec.
  assert (H85 : Py.float_gt (ScalingMetrics.memory_utilization m) 85 = true).
  { apply float_gt_spec. eapply Qlt_trans; [|exact Hmem]. reflexivity. }
  rewrite H90, H85, orb_true_r. reflexivity.
Qed.

Lemma rule_based_scale_up_vertical_example :
  (90 < ScalingMetrics.memory_utilization MoreExamples.memory_constrained_metrics)%Q
  /\ ScalingDecision.action
       (AIScalingEngine._rule_based_decision 0
          MoreExamples.memory_constrained_metrics)
     = "scale_up_vertical".
Proof.
  assert (H : (90 < ScalingMetrics.memory_utilization
                      MoreExamples.memory_constrained_metrics)%Q)
    by reflexivity.
  split; [exact H|].
  rewrite (rule_based_scale_up_vertical 0 _ H). reflexivity.
Defined.

(** X2. With cpu below 20, memory below 30 and more than two pods the
    rules decide for [scale_down_horizontal] with confidence 0.75 and
    urgency low, and the scale-down is a real one that keeps two pods: the
    recommended count [max(2, int(pods * 0.7))] is at least 2 and strictly
    below the current pod count. *)
Theorem rule_based_scale_down (now : Py.datetime) (m : ScalingMetrics.t) :
  (ScalingMetrics.cpu_utilization m < 20)%Q ->
  (ScalingMetrics.memory_utilization m < 30)%Q ->
  2 < ScalingMetrics.current_pod_count m ->
  let d := AIScalingEngine._rule_based_decision now m in
  ScalingDecision.action d = "scale_down_horizontal"
  /\ (exists r, ScalingDecision.recommended_pod_count d = Some r
                /\ 2 <= r < ScalingMetrics.current_pod_count m)
  /\ ScalingDecision.confidence d = 0.75%Q
  /\ ScalingDecision.urgency d = "low".
Proof.
  intros Hcpu Hmem Hpods d. subst d.
  set (pods := ScalingMetrics.current_pod_count m) in *.
  unfold AIScalingEngine._rule_based_decision.
  rewrite (below_is_not_above _ 20 80 Hcpu) by discriminate.
  rewrite (below_is_not_above _ 30 85 Hmem) by discriminate.
  apply float_lt_spec in Hcpu, Hmem. rewrite Hcpu, Hmem.
  fold pods. destruct (Z.gtb_spec pods 2) as [_|Hle]; [|lia].
  cbn [orb andb ScalingDecision.init ScalingDecision.action
       ScalingDecision.recommended_pod_count ScalingDecision.confidence
       ScalingDecision.urgency].
  rewrite int_of_seven_tenths, max_int_spec.
  rewrite Z.quot_div_nonneg by lia.
  assert (7 * pods / 10 < pods) by (apply Z.div_lt_upper_bound; lia).
  split; [reflexivity|]. split; [|split; reflexivity].
  eexists. split; [reflexivity | lia].
Qed.

Lemma rule_based_scale_down_example :
  let m := MoreExamples.over_provisioned_metrics in
  (ScalingMetrics.cpu_utilization m < 20)%Q
  /\ (ScalingMetrics.memory_utilization m < 30)%Q
  /\ 2 < ScalingMetrics.current_pod_count m
  /\ exists r,
      ScalingDecision.recommended_pod_count (AIScalingEngine._rule_based_decision 0 m)
      = Some r
      /\ 2 <= r < ScalingMetrics.current_pod_count m.
Proof.
  cbv zeta.
  assert (H1 : (ScalingMetrics.cpu_utilization
                  MoreExamples.over_provisioned_metrics < 20)%Q) by reflexivity.
  assert (H2 : (ScalingMetrics.memory_utilization
                  MoreExamples.over_provisioned_metrics < 30)%Q) by reflexivity.
  assert (H3 : 2 < ScalingMetrics.current_pod_count
                     MoreExamples.over_provisioned_metrics) by (cbn; lia).
  split; [exact H1|]. split; [exact H2|]. split; [exact H3|].
  exact (proj1 (proj2 (rule_based_scale_down 0 _ H1 H2 H3))).
Defined.

(** X3. When neither a scale-up nor a scale-down rule fires (cpu at most
    80, memory at most 85, and cpu at least 20 or memory at least 30 or at
    most two pods), the rules decide for [maintain] with the current pod
    count, confidence 0.90 and urgency normal. *)
Theorem rule_based_maintain (now : Py.datetime) (m : ScalingMetrics.t) :
  (ScalingMetrics.cpu_utilization m <= 80)%Q ->
  (ScalingMetrics.memory_utilization m <= 85)%Q ->
  (20 <= ScalingMetrics.cpu_utilization m)%Q
  \/ (30 <= ScalingMetrics.memory_utilization m)%Q
  \/ ScalingMetrics.current_pod_count m <= 2 ->
  AIScalingEngine._rule_based_decision now m
  = ScalingDecision.mk "maintain" (Some (ScalingMetrics.current_pod_count m)) None None
      0.90 "All metrics within acceptable ranges" "normal" None now.
Proof.
  intros Hcpu Hmem Hmid. unfold AIScalingEngine._rule_based_decision.
  apply float_gt_false in Hcpu, Hmem. rewrite Hcpu, Hmem. cbn [orb].
  assert (Hdown : Py.float_lt (ScalingMetrics.cpu_utilization m) 20
                  && Py.float_lt (ScalingMetrics.memory_utilization m) 30
                  && (ScalingMetrics.current_pod_count m >? 2) = false).
  { destruct Hmid as [H | [H | H]].
    - apply float_lt_false in H. now rewrite H.
    - apply float_lt_false in H. rewrite H. now rewrite andb_false_r.
    - destruct (Z.gtb_spec (ScalingMetrics.current_pod_count m) 2); [lia|].
      now rewrite andb_false_r. }
  rewrite Hdown. reflexivity.
Qed.

Lemma rule_based_maintain_example :
  let m := MoreExamples.normal_metrics in
  (ScalingMetrics.cpu_utilization m <= 80)%Q
  /\ (ScalingMetrics.memory_utilization m <= 85)%Q
  /\ ScalingDecision.action (AIScalingEngine._rule_based_decision 0 m) = "maintain"
  /\ ScalingDecision.recommended_pod_count (AIScalingEngine._rule_based_decision 0 m)
     = Some 3.
Proof.
  cbv zeta.
  assert (H1 : (ScalingMetrics.cpu_utilization
                  MoreExamples.normal_metrics <= 80)%Q)
    by (unfold Qle; cbn; lia).
  assert (H2 : (ScalingMetrics.memory_utilization
                  MoreExamples.normal_metrics <= 85)%Q)
    by (unfold Qle; cbn; lia).
  assert (H3 : (20 <= ScalingMetrics.cpu_utilization
                        MoreExamples.normal_metrics)%Q
               \/ (30 <= ScalingMetrics.memory_utilization
                           MoreExamples.normal_metrics)%Q
               \/ ScalingMetrics.current_pod_count
                    MoreExamples.normal_metrics <= 2)
    by (left; unfold Qle; cbn; lia).
  split; [exact H1|]. split; [exact H2|].
  rewrite (rule_based_maintain 0 _ H1 H2 H3). split; reflexivity.
Defined.

(** X4. The horizontal scale-up of the rules grows the deployment only
    from two pods on: with at least two pods the recommended count exceeds
    the current one, with one pod (or none) it equals the current one. *)
Theorem rule_based_scale_up_growth (now : Py.datetime) (m : ScalingMetrics.t) :
  (ScalingMetrics.memory_utilization m <= 90)%Q ->
  (80 < ScalingMetrics.cpu_utilization m)%Q \/ (85 < ScalingMetrics.memory_utilization m)%Q ->
  0 <= ScalingMetrics.current_pod_count m ->
  exists r,
    ScalingDecision.recommended_pod_count (AIScalingEngine._rule_based_decision now m)
    = Some r
    /\ (2 <= ScalingMetrics.current_pod_count m -> ScalingMetrics.current_pod_count m < r)
    /\ (ScalingMetrics.current_pod_count m <= 1 -> r = ScalingMetrics.current_pod_count m).
Proof.
  intros Hmem Hhigh Hpods.
  unfold AIScalingEngine._rule_based_decision.
  assert (Hor : Py.float_gt (ScalingMetrics.cpu_utilization m) 80
                || Py.float_gt (ScalingMetrics.memory_utilization m) 85 = true).
  { apply orb_true_iff. destruct Hhigh as [H|H]; [left|right]; now apply float_gt_spec. }
  rewrite Hor. apply float_gt_false in Hmem. rewrite Hmem.
  cbn [ScalingDecision.init ScalingDecision.recommended_pod_count].
  rewrite int_of_three_halves. eexists. split; [reflexivity|].
  rewrite Z.quot_div_nonneg by lia.
  split; intros H.
  - assert (ScalingMetrics.current_pod_count m + 1
            <= 3 * ScalingMetrics.current_pod_count m / 2)
      by (apply Z.div_le_lower_bound; lia).
    lia.
  - assert (Hc : ScalingMetrics.current_pod_count m = 0
                 \/ ScalingMetrics.current_pod_count m = 1) by lia.
    destruct Hc as [-> | ->]; reflexivity.
Qed.

Lemma rule_based_scale_up_growth_single_pod :
  let m := MoreExamples.single_pod_spike in
  (ScalingMetrics.memory_utilization m <= 90)%Q
  /\ (80 < ScalingMetrics.cpu_utilization m)%Q
  /\ ScalingDecision.action (AIScalingEngine._rule_based_decision 0 m)
     = "scale_up_horizontal"
  /\ ScalingDecision.recommended_pod_count (AIScalingEngine._rule_based_decision 0 m)
     = Some 1.
Proof.
  cbv zeta.
  assert (H1 : (ScalingMetrics.memory_utilization
                  MoreExamples.single_pod_spike <= 90)%Q)
    by (unfold Qle; cbn; lia).
  assert (H2 : (80 < ScalingMetrics.cpu_utilization
                       MoreExamples.single_pod_spike)%Q) by reflexivity.
  assert (H3 : 0 <= ScalingMetrics.current_pod_count
                      MoreExamples.single_pod_spike) by (cbn; lia).
  split; [exact H1|]. split; [exact H2|]. split; [reflexivity|].
  destruct (rule_based_scale_up_growth 0 _ H1 (or_introl H2) H3) as (r & Hr & _ & Hone).
  rewrite Hr. f_equal. apply Hone. cbn. lia.
Defined.

(** ** Trends, the context and the ways out of [analyze_metrics] *)

Section TrendFacts.
Import Py.

Lemma last_n_length {A : Type} (n : nat) (xs : list A) :
  List.length (AIScalingEngine.last_n n xs) = Nat.min n (List.length xs).
Proof. unfold AIScalingEngine.last_n. rewrite length_skipn. lia. Qed.

Lemma inject_nonzero (n : Z) : n <> 0 -> ~ (float_of_int n == 0)%Q.
Proof. unfold float_of_int, Qeq. cbn [Qnum Qden inject_Z]. lia. Qed.

Context {fl : Float.Arith}.
Variable rt : AIScalingEngine.Runtime.

(** A trend either is computed or divides by a zero average. *)
Lemma calculate_trend_cases (values : list Q) :
  (exists s, AIScalingEngine._calculate_trend rt values = Returned s
             /\ ~ (2 <= len values /\ (SpecMore.overall_avg values == 0)%Q))
  \/ (AIScalingEngine._calculate_trend rt values = Raised ZeroDivisionError
      /\ 2 <= len values /\ (SpecMore.overall_avg values == 0)%Q).
Proof.
  unfold AIScalingEngine._calculate_trend, SpecMore.overall_avg.
  destruct (Z.ltb_spec (len values) 2) as [Hlt|Hge].
  { left. eexists. split; [reflexivity | intros [H _]; lia]. }
  rewrite float_truediv_nonzero.
  2:{ apply inject_nonzero. unfold len. rewrite last_n_length, min_int_spec.
      unfold len in Hge. lia. }
  rewrite (float_truediv_nonzero (Float.sum values)) by (apply inject_nonzero; lia).
  cbn [bind]. unfold Float.truediv.
  destruct (Qeq_bool (Float.div (Float.sum values) (float_of_int (len values))) 0) eqn:E.
  - right. apply Qeq_bool_iff in E.
    cbn [bind]. split; [reflexivity|]. split; [lia | exact E].
  - left. cbn [bind].
    assert (Hnz : ~ (2 <= len values
                     /\ (Float.div (Float.sum values) (float_of_int (len values)) == 0)%Q)).
    { intros [_ Hz]. apply Qeq_bool_iff in Hz. congruence. }
    destruct (float_gt _ 10); [eexists; split; [reflexivity | exact Hnz]|].
    destruct (float_lt _ (-10)); eexists; (split; [reflexivity | exact Hnz]).
Qed.

End TrendFacts.

(** X5. [_calculate_trend] raises exactly when it is given at least two
    values whose overall average, the sum divided by the count as the
    arithmetic at hand computes it, is zero, and what it raises is
    [ZeroDivisionError]: the other two divisions cannot fail. On fewer than
    two values the answer is that the data is insufficient. This holds for
    every arithmetic, so whatever the rounding of the interpreter. *)
Theorem calculate_trend_raises
    (fl : Float.Arith) (rt : AIScalingEngine.Runtime) (values : list Q) :
  (forall e, AIScalingEngine._calculate_trend rt values = Py.Raised e
             <-> e = Py.ZeroDivisionError /\ 2 <= Py.len values
                 /\ (SpecMore.overall_avg values == 0)%Q)
  /\ (Py.len values < 2 ->
      AIScalingEngine._calculate_trend rt values = Py.Returned "insufficient data").
Proof.
  split.
  - intros e.
    destruct (calculate_trend_cases rt values) as [(s & Hs & Hn) | (Hr & Hlen & Hz)].
    + rewrite Hs. split; [discriminate | tauto].
    + rewrite Hr. split; [intros [= <-]; auto | intros (-> & _); reflexivity].
  - intros Hlt. unfold AIScalingEngine._calculate_trend.
    destruct (Z.ltb_spec (Py.len values) 2); [reflexivity | lia].
Qed.

Section ContextFacts.
Import Py.

Lemma len_map {A B : Type} (f : A -> B) (xs : list A) : len (map f xs) = len xs.
Proof. unfold len. now rewrite length_map. Qed.

Context {fl : Float.Arith}.
Variable rt : AIScalingEngine.Runtime.

(** The context is prepared unless one of the three trends divides by
    zero. *)
Lemma prepare_context_cases (m : ScalingMetrics.t) (history : list ScalingMetrics.t) :
  (exists s, AIScalingEngine._prepare_ai_context rt m (Some history) = Returned s
             /\ ~ SpecMore.degenerate history)
  \/ (AIScalingEngine._prepare_ai_context rt m (Some history) = Raised ZeroDivisionError
      /\ SpecMore.degenerate history).
Proof.
  unfold SpecMore.degenerate.
  destruct history as [|m0 l].
  { left. eexists. split; [reflexivity|]. intros [H _]. exact (H eq_refl). }
  unfold AIScalingEngine._prepare_ai_context.
  set (history := m0 :: l).
  destruct (calculate_trend_cases rt (map ScalingMetrics.cpu_utilization history))
    as [(s1 & -> & H1) | (-> & Hl & Hz)];
    [|right; rewrite len_map in Hl; cbn [bind]; auto].
  destruct (calculate_trend_cases rt (map ScalingMetrics.memory_utilization history))
    as [(s2 & -> & H2) | (-> & Hl & Hz)];
    [|right; rewrite len_map in Hl; cbn [bind]; auto].
  destruct (calculate_trend_cases rt (map ScalingMetrics.request_rate history))
    as [(s3 & -> & H3) | (-> & Hl & Hz)];
    [|right; rewrite len_map in Hl; cbn [bind]; auto].
  left. cbn [bind]. eexists. split; [reflexivity|].
  rewrite len_map in H1, H2, H3. tauto.
Qed.

End ContextFacts.

(** X6. The preparation of the context raises exactly when the history
    holds at least two snapshots whose cpu values, memory values or request
    rates have the overall average zero, as the arithmetic at hand computes
    it, and then it raises [ZeroDivisionError]; without a history, on an
    empty one and on a single snapshot it returns. This holds for every
    arithmetic, so whatever the rounding of the interpreter. *)
Theorem prepare_context_raises
    (fl : Float.Arith) (rt : AIScalingEngine.Runtime) (m : ScalingMetrics.t)
    (hist : option (list ScalingMetrics.t)) (e : Py.exn) :
  AIScalingEngine._prepare_ai_context rt m hist = Py.Raised e
  <-> e = Py.ZeroDivisionError
      /\ exists history, hist = Some history /\ SpecMore.degenerate history.
Proof.
  destruct hist as [history|].
  - destruct (prepare_context_cases rt m history) as [(s & Hs & Hn) | (Hr & Hd)].
    + rewrite Hs. split; [discriminate|]. intros (_ & h & [= <-] & Hd). contradiction.
    + rewrite Hr. split.
      * intros [= <-]. split; [reflexivity|]. eauto.
      * intros (-> & _). reflexivity.
  - split; [discriminate|]. intros (_ & h & Hh & _). discriminate.
Qed.



(** ** Reading the answer of the backend *)

Section FenceFacts.
Import Py.

Lemma append_nil_r (s : string) : s ++ EmptyString = s.
Proof.
  induction s as [|c s IH]; [reflexivity|].
  change (String c s ++ EmptyString) with (String c (s ++ EmptyString)). now rewrite IH.
Qed.

Lemma rev_app_append (s1 s2 s3 : string) :
  String.rev_app s1 s2 ++ s3 = String.rev_app s1 (s2 ++ s3).
Proof. revert s2. induction s1 as [|c s1 IH]; intros s2; cbn; [reflexivity | apply IH]. Qed.

Lemma rev_push (c : ascii) (cur r : string) :
  String.rev (String c cur) ++ r = String.rev cur ++ String c r.
Proof. unfold String.rev. cbn. now rewrite !rev_app_append. Qed.

Lemma split_go_nonempty (sep : string) (s : string) :
  forall skip cur, split_go sep skip cur s <> [].
Proof.
  induction s as [|c s IH]; intros skip cur; cbn [split_go]; [discriminate|].
  destruct skip; [|apply IH].
  destruct (String.prefix sep (String c s)); [intros H; discriminate H | apply IH].
Qed.

Lemma prefix_nil (s : string) : String.prefix EmptyString s = true.
Proof. destruct s; reflexivity. Qed.

(** A character that is no backtick does not start a fence. *)
Lemma no_fence_at (c : ascii) (r x : string) :
  PyMore.contains "`" (String c r) = false ->
  String.prefix "```" (String c x) = false /\ PyMore.contains "`" r = false.
Proof.
  intros H. cbn [PyMore.contains String.prefix] in H.
  cbn [String.prefix].
  destruct (ascii_dec "`" c) as [Heq|Hne].
  - exfalso. rewrite prefix_nil in H. discriminate H.
  - split; [reflexivity | exact H].
Qed.

(** Without a backtick nothing is split. *)
Lemma split_go_plain (body : string) :
  PyMore.contains "`" body = false ->
  forall cur, split_go "```" 0 cur body = [String.rev cur ++ body].
Proof.
  induction body as [|c r IH]; intros Hb cur.
  - cbn [split_go]. now rewrite append_nil_r.
  - destruct (no_fence_at c r r Hb) as [Hp Hr].
    cbn [split_go]. rewrite Hp, (IH Hr). now rewrite rev_push.
Qed.

Lemma prefix_fence (tail : string) :
  String.prefix "```" (String "`" (String "`" (String "`" tail))) = true.
Proof. cbn. apply prefix_nil. Qed.

Lemma split_go_at_fence (cur tail : string) :
  split_go "```" 0 cur (String "`" (String "`" (String "`" tail)))
  = String.rev cur :: split_go "```" 0 EmptyString tail.
Proof. cbn [split_go]. rewrite prefix_fence. reflexivity. Qed.

(** Up to the first fence the text is one piece. *)
Lemma split_go_until_fence (body tail : string) :
  PyMore.contains "`" body = false ->
  forall cur,
    split_go "```" 0 cur (body ++ "```" ++ tail)
    = (String.rev cur ++ body) :: split_go "```" 0 EmptyString tail.
Proof.
  induction body as [|c r IH]; intros Hb cur.
  - rewrite append_nil_r.
    change (EmptyString ++ "```" ++ tail) with (String "`" (String "`" (String "`" tail))).
    apply split_go_at_fence.
  - destruct (no_fence_at c r (r ++ "```" ++ tail) Hb) as [Hp Hr].
    change (String c r ++ "```" ++ tail) with (String c (r ++ "```" ++ tail)).
    cbn [split_go]. rewrite Hp, (IH Hr). now rewrite rev_push.
Qed.

(** What [strip_code_fence] does with a text that opens with a fence. *)
Lemma strip_code_fence_fenced (rest : string) :
  AIScalingEngine.strip_code_fence (String "`" (String "`" (String "`" rest)))
  = bind (index (EmptyString :: split_go "```" 0 EmptyString rest) 1)
      (fun part =>
         Returned (strip (if startswith part "json" then drop_chars 4 part else part))).
Proof.
  unfold AIScalingEngine.strip_code_fence, startswith at 1, split.
  rewrite prefix_fence, split_go_at_fence. reflexivity.
Qed.

Lemma json_tag_removed (body : string) :
  (if startswith ("json" ++ body) "json" then drop_chars 4 ("json" ++ body)
   else "json" ++ body) = body.
Proof.
  change ("json" ++ body) with (String "j" (String "s" (String "o" (String "n" body)))).
  unfold startswith. cbn. now rewrite prefix_nil.
Qed.

End FenceFacts.

(** X9. The removal of a code fence never fails: whatever the text is,
    [strip_code_fence] returns (the index into the pieces of the split is
    always in range). *)
Theorem strip_code_fence_returns (response_text : string) :
  Py.returns (AIScalingEngine.strip_code_fence response_text).
Proof.
  unfold AIScalingEngine.strip_code_fence, Py.startswith.
  destruct (String.prefix "```" response_text) eqn:Hp; [|eexists; reflexivity].
  destruct response_text as [|c r]; [discriminate Hp|].
  unfold Py.split. cbn [Py.split_go]. rewrite Hp.
  destruct (Py.split_go "```" (String.length "```" - 1) EmptyString r) as [|piece l] eqn:E.
  - exfalso. exact (split_go_nonempty _ _ _ _ E).
  - cbn. eexists. reflexivity.
Qed.

(** X10. A fenced answer is unwrapped. For a body without a backtick, the
    text [```json body ``` tail] and the unclosed text [```json body] both
    give the body with surrounding white space removed, whatever follows the
    closing fence; a fence without the language tag gives the same, unless
    the body itself begins with [json]. *)
Theorem fenced_answer_is_unwrapped (body tail : string) :
  PyMore.contains "`" body = false ->
  AIScalingEngine.strip_code_fence ("```json" ++ body ++ "```" ++ tail)
  = Py.Returned (Py.strip body)
  /\ AIScalingEngine.strip_code_fence ("```json" ++ body)
     = Py.Returned (Py.strip body)
  /\ (Py.startswith body "json" = false ->
      AIScalingEngine.strip_code_fence ("```" ++ body ++ "```" ++ tail)
      = Py.Returned (Py.strip body)).
Proof.
  intros Hb.
  assert (Hj : PyMore.contains "`" ("json" ++ body) = false) by exact Hb.
  split; [|split; [|intros Hnj]].
  - change ("```json" ++ body ++ "```" ++ tail)
      with (String "`" (String "`" (String "`" (("json" ++ body) ++ "```" ++ tail)))).
    rewrite strip_code_fence_fenced, (split_go_until_fence _ tail Hj).
    cbn [Py.index nth_error Py.bind].
    change (String.rev EmptyString ++ "json" ++ body) with ("json" ++ body).
    now rewrite json_tag_removed.
  - change ("```json" ++ body)
      with (String "`" (String "`" (String "`" ("json" ++ body)))).
    rewrite strip_code_fence_fenced, (split_go_plain _ Hj).
    cbn [Py.index nth_error Py.bind].
    change (String.rev EmptyString ++ "json" ++ body) with ("json" ++ body).
    now rewrite json_tag_removed.
  - change ("```" ++ body ++ "```" ++ tail)
      with (String "`" (String "`" (String "`" (body ++ "```" ++ tail)))).
    rewrite strip_code_fence_fenced, (split_go_until_fence _ tail Hb).
    cbn [Py.index nth_error Py.bind].
    change (String.rev EmptyString ++ body) with body. rewrite Hnj. reflexivity.
Qed.

(** X10 on an answer that wraps [{}] in a fence and adds a remark. *)
Lemma fenced_answer_is_unwrapped_example :
  PyMore.contains "`" (nl ++ "{}" ++ nl) = false
  /\ AIScalingEngine.strip_code_fence
       ("```json" ++ (nl ++ "{}" ++ nl) ++ "```" ++ " Hope this helps.")
     = Py.Returned "{}".
Proof.
  assert (H : PyMore.contains "`" (nl ++ "{}" ++ nl) = false) by reflexivity.
  split; [exact H|].
  rewrite (proj1 (fenced_answer_is_unwrapped (nl ++ "{}" ++ nl) " Hope this helps." H)).
  reflexivity.
Defined.

(** X11. The JSON format asked of the backend is the format of
    [ScalingDecision.to_dict]: when the backend answers with the dict of a
    decision, the engine returns that decision, stamped with the time of the
    call, and the ["timestamp"] key of the answer is ignored. *)
Theorem decision_dict_round_trip
    (rt : AIScalingEngine.Runtime) (isoformat : Py.datetime -> string)
    (now : Py.datetime) (d : ScalingDecision.t)
    (response : AIScalingEngine.Response) (text : string)
    (rest : list AIScalingEngine.ContentBlock) (body : string) :
  AIScalingEngine.content response = AIScalingEngine.TextBlock text :: rest ->
  AIScalingEngine.strip_code_fence (Py.strip text) = Py.Returned body ->
  AIScalingEngine.json_loads rt body
  = Some (Json.Object (ScalingDecisionDict.to_dict isoformat d)) ->
  AIScalingEngine.decode_response rt now response
  = Py.Returned
      (AIScalingEngine.Typed
         (ScalingDecision.mk (ScalingDecision.action d)
            (ScalingDecision.recommended_pod_count d)
            (ScalingDecision.recommended_memory_increase d)
            (ScalingDecision.recommended_cpu_increase d)
            (ScalingDecision.confidence d) (ScalingDecision.reasoning d)
            (ScalingDecision.urgency d) (ScalingDecision.estimated_cost_impact d) now)).
Proof.
  intros Hcontent Hbody Hjson. unfold AIScalingEngine.decode_response.
  rewrite Hcontent. cbn [Py.index nth_error Py.bind AIScalingEngine.block_text].
  rewrite Hbody. cbn [Py.bind]. unfold AIScalingEngine.loads. rewrite Hjson.
  cbn [Py.bind AIScalingEngine.dict_members].
  destruct d as [a pods mem cpu conf why urg cost ts].
  destruct pods, mem, cpu, cost; reflexivity.
Qed.

(** X11 on a runtime whose parser yields the dict of a scale-up decision. *)
Lemma decision_dict_round_trip_example :
  AIScalingEngine.decode_response
    (MoreExamples.fixed_answer_runtime
       (Json.Object (ScalingDecisionDict.to_dict (fun _ => "t")
                       (Examples.decision "scale_up_horizontal" (Some 6)))))
    42 {| AIScalingEngine.content := [AIScalingEngine.TextBlock "answer"] |}
  = Py.Returned
      (AIScalingEngine.Typed
         (ScalingDecision.mk "scale_up_horizontal" (Some 6) None None 0.5 "example"
            "normal" None 42)).
Proof.
  exact (decision_dict_round_trip
           (MoreExamples.fixed_answer_runtime
              (Json.Object (ScalingDecisionDict.to_dict (fun _ => "t")
                              (Examples.decision "scale_up_horizontal" (Some 6)))))
           (fun _ => "t") 42
           (Examples.decision "scale_up_horizontal" (Some 6))
           {| AIScalingEngine.content := [AIScalingEngine.TextBlock "answer"] |}
           "answer" [] "answer" eq_refl eq_refl eq_refl).
Defined.

(** X12. An engine constructed without a usable API key (argument absent
    or empty, environment variable absent or empty) has no client, and its
    [analyze_metrics] is the rule-based strategy on every history: it
    returns the decision of the rules and never raises. *)
Theorem engine_without_key_uses_rules
    (rt : AIScalingEngine.Runtime) (getenv : string -> option string)
    (make_client : string -> AIScalingEngine.Client)
    (api_key : option string) (model : string) (now : Py.datetime)
    (m : ScalingMetrics.t) (hist : option (list ScalingMetrics.t)) :
  EngineSetup.nonempty api_key = None ->
  EngineSetup.nonempty (getenv "ANTHROPIC_API_KEY") = None ->
  AIScalingEngine.client (EngineSetup.init getenv make_client api_key model) = None
  /\ AIScalingEngine.analyze_metrics rt
       (EngineSetup.init getenv make_client api_key model) now m hist
     = Py.Returned (AIScalingEngine.Typed (AIScalingEngine._rule_based_decision now m)).
Proof.
  intros Hkey Henv.
  assert (Hc : AIScalingEngine.client (EngineSetup.init getenv make_client api_key model)
               = None).
  { unfold EngineSetup.init. rewrite Hkey. cbn. now rewrite Henv. }
  split; [exact Hc|].
  unfold AIScalingEngine.analyze_metrics. rewrite Hc. reflexivity.
Qed.

(** X12 with an empty key, an empty environment and two idle snapshots. *)
Lemma engine_without_key_uses_rules_idle :
  AIScalingEngine.analyze_metrics Examples.small_runtime
    (EngineSetup.init (fun _ => None) (fun _ => Examples.chatty_client)
       (Some EmptyString) "claude-3-5-sonnet-20241022")
    0 Examples.spike_metrics (Some [Examples.idle_metrics; Examples.idle_metrics])
  = Py.Returned (AIScalingEngine.Typed
                   (AIScalingEngine._rule_based_decision 0 Examples.spike_metrics)).
Proof.
  exact (proj2 (engine_without_key_uses_rules Examples.small_runtime (fun _ => None)
                  (fun _ => Examples.chatty_client) (Some EmptyString)
                  "claude-3-5-sonnet-20241022" 0 Examples.spike_metrics
                  (Some [Examples.idle_metrics; Examples.idle_metrics])
                  eq_refl eq_refl)).
Defined.

(** ** More on applying a decision *)

Section ApplyFacts.
Import Py.
Variable apply_to_cluster : HPAConfiguration.t -> bool.

(** The result dict in terms of the [if]/[elif] chain. *)
Lemma result_of_decide now self cfg d m :
  let rc := K8sHPAManager.decide_changes (Reconcile.fresh_result now self cfg d) cfg d in
  Reconcile.result_of apply_to_cluster now self cfg d m
  = if negb (bool_decide (UpdateResult.changes (fst rc) = ∅))
       && negb (K8sHPAManager.dry_run self)
    then UpdateResult.set_applied (fst rc) (apply_to_cluster (snd rc))
    else if negb (bool_decide (UpdateResult.changes (fst rc) = ∅))
         then UpdateResult.set_note (fst rc) "Dry-run mode: Changes not applied to cluster"
         else fst rc.
Proof.
  unfold Reconcile.result_of, K8sHPAManager._apply_decision_to_hpa.
  fold (Reconcile.fresh_result now self cfg d).
  destruct (K8sHPAManager.decide_changes (Reconcile.fresh_result now self cfg d) cfg d)
    as [r c].
  cbn [fst snd]. destruct (_ && _); [reflexivity|].
  destruct (negb _); reflexivity.
Qed.

Lemma result_changes now self cfg d m :
  UpdateResult.changes (Reconcile.result_of apply_to_cluster now self cfg d m)
  = UpdateResult.changes
      (fst (K8sHPAManager.decide_changes (Reconcile.fresh_result now self cfg d) cfg d)).
Proof.
  rewrite result_of_decide. cbv zeta. destruct (_ && _); [reflexivity|].
  destruct (negb _); reflexivity.
Qed.

(** The chain leaves [applied] false and records either nothing, with the
    configuration untouched, or the old and new value of both bounds. *)
Lemma decide_changes_record now self cfg d :
  let rc := K8sHPAManager.decide_changes (Reconcile.fresh_result now self cfg d) cfg d in
  UpdateResult.applied (fst rc) = false
  /\ ((UpdateResult.changes (fst rc) = ∅ /\ snd rc = cfg)
      \/ UpdateResult.changes (fst rc)
         = <["max_replicas" := {| UpdateResult.old := HPAConfiguration.max_replicas cfg;
                                  UpdateResult.new := HPAConfiguration.max_replicas (snd rc) |}]>
             (<["min_replicas" := {| UpdateResult.old := HPAConfiguration.min_replicas cfg;
                                     UpdateResult.new :=
                                       HPAConfiguration.min_replicas (snd rc) |}]> ∅)).
Proof.
  unfold K8sHPAManager.decide_changes.
  repeat match goal with
         | |- context [if ?b then _ else _] => destruct b
         | |- context [match K8sHPAManager.truthy ?n with _ => _ end] =>
             destruct (K8sHPAManager.truthy n)
         end; cbn; auto.
Qed.

End ApplyFacts.

(** X13. In dry-run mode the cluster is never touched: the outcome of
    [_apply_decision_to_hpa] does not depend on the applier, [applied] is
    false, and when changes were computed the note says that they were not
    applied. *)
Theorem dry_run_never_applies
    (apply1 apply2 : HPAConfiguration.t -> bool) (now : Py.datetime)
    (self : K8sHPAManager.t) (cfg : HPAConfiguration.t) (d : ScalingDecision.t)
    (m : ScalingMetrics.t) :
  K8sHPAManager.dry_run self = true ->
  K8sHPAManager._apply_decision_to_hpa apply1 now self cfg d m
  = K8sHPAManager._apply_decision_to_hpa apply2 now self cfg d m
  /\ UpdateResult.applied (Reconcile.result_of apply1 now self cfg d m) = false
  /\ (UpdateResult.changes (Reconcile.result_of apply1 now self cfg d m) <> ∅ ->
      UpdateResult.note (Reconcile.result_of apply1 now self cfg d m)
      = Some "Dry-run mode: Changes not applied to cluster").
Proof.
  intros Hdry. split; [|split].
  - unfold K8sHPAManager._apply_decision_to_hpa.
    destruct (K8sHPAManager.decide_changes _ cfg d) as [r c].
    rewrite Hdry, andb_false_r. reflexivity.
  - rewrite result_of_decide. cbv zeta. rewrite Hdry, andb_false_r.
    destruct (decide_changes_record now self cfg d) as [Happ _].
    destruct (negb _); exact Happ.
  - rewrite result_changes, result_of_decide. cbv zeta. rewrite Hdry, andb_false_r.
    intros Hch. rewrite bool_decide_eq_false_2 by exact Hch. reflexivity.
Qed.

Lemma dry_run_never_applies_demo :
  K8sHPAManager.dry_run Examples.dry_run_manager = true
  /\ UpdateResult.applied
       (Reconcile.result_of (fun _ => true) 0 Examples.dry_run_manager Examples.demo_config
          (Examples.decision "scale_up_horizontal" (Some 6)) Examples.spike_metrics)
     = false.
Proof.
  split; [reflexivity|].
  exact (proj1 (proj2 (dry_run_never_applies (fun _ => true) (fun _ => false) 0
                         Examples.dry_run_manager Examples.demo_config
                         (Examples.decision "scale_up_horizontal" (Some 6))
                         Examples.spike_metrics eq_refl))).
Defined.

(** X14. [applied] is true exactly when changes were recorded, the manager
    is not in dry-run mode and the applier reported success for the mutated
    configuration. *)
Theorem applied_iff
    (apply_to_cluster : HPAConfiguration.t -> bool) (now : Py.datetime)
    (self : K8sHPAManager.t) (cfg : HPAConfiguration.t) (d : ScalingDecision.t)
    (m : ScalingMetrics.t) :
  UpdateResult.applied (Reconcile.result_of apply_to_cluster now self cfg d m) = true
  <-> UpdateResult.changes (Reconcile.result_of apply_to_cluster now self cfg d m) <> ∅
      /\ K8sHPAManager.dry_run self = false
      /\ apply_to_cluster (Reconcile.config_after apply_to_cluster now self cfg d m) = true.
Proof.
  rewrite result_changes, config_after_decide, result_of_decide. cbv zeta.
  destruct (decide_changes_record now self cfg d) as [Happ _].
  destruct (K8sHPAManager.decide_changes (Reconcile.fresh_result now self cfg d) cfg d)
    as [r c]. cbn [fst snd] in *.
  destruct (bool_decide (UpdateResult.changes r = ∅)) eqn:Hch.
  - apply bool_decide_eq_true_1 in Hch. cbn. rewrite Happ. split; [discriminate|].
    intros [Hne _]. contradiction.
  - apply bool_decide_eq_false_1 in Hch.
    destruct (K8sHPAManager.dry_run self); cbn.
    + rewrite Happ. split; [discriminate|]. intros (_ & Hd & _). discriminate Hd.
    + split; [auto | intros (_ & _ & H); exact H].
Qed.

(** X15. The record of changes agrees with the mutation: either nothing
    is recorded and the configuration is unchanged, or exactly the two keys
    [min_replicas] and [max_replicas] are recorded, each with the value
    before the call as [old] and the value after it as [new]. *)
Theorem changes_record_the_mutation
    (apply_to_cluster : HPAConfiguration.t -> bool) (now : Py.datetime)
    (self : K8sHPAManager.t) (cfg : HPAConfiguration.t) (d : ScalingDecision.t)
    (m : ScalingMetrics.t) :
  let r := Reconcile.result_of apply_to_cluster now self cfg d m in
  let after := Reconcile.config_after apply_to_cluster now self cfg d m in
  (UpdateResult.changes r = ∅ /\ after = cfg)
  \/ (UpdateResult.changes r !! "min_replicas"
      = Some {| UpdateResult.old := HPAConfiguration.min_replicas cfg;
                UpdateResult.new := HPAConfiguration.min_replicas after |}
      /\ UpdateResult.changes r !! "max_replicas"
         = Some {| UpdateResult.old := HPAConfiguration.max_replicas cfg;
                   UpdateResult.new := HPAConfiguration.max_replicas after |}
      /\ dom (UpdateResult.changes r) = {["min_replicas"; "max_replicas"]}).
Proof.
  cbv zeta. rewrite result_changes, config_after_decide.
  destruct (decide_changes_record now self cfg d) as [_ [Hnone | Hsome]];
    [left; exact Hnone|].
  right. cbv zeta in Hsome. rewrite Hsome.
  split; [|split].
  - rewrite lookup_insert_ne by discriminate. apply lookup_insert_eq.
  - apply lookup_insert_eq.
  - rewrite !dom_insert_L, dom_empty_L. set_solver.
Qed.

(** X16. No decision changes the name, the namespace or the target
    utilizations of a configuration. *)
Theorem apply_keeps_identity_and_targets
    (apply_to_cluster : HPAConfiguration.t -> bool) (now : Py.datetime)
    (self : K8sHPAManager.t) (cfg : HPAConfiguration.t) (d : ScalingDecision.t)
    (m : ScalingMetrics.t) :
  let after := Reconcile.config_after apply_to_cluster now self cfg d m in
  HPAConfiguration.name after = HPAConfiguration.name cfg
  /\ HPAConfiguration.namespace after = HPAConfiguration.namespace cfg
  /\ HPAConfiguration.target_cpu_utilization after
     = HPAConfiguration.target_cpu_utilization cfg
  /\ HPAConfiguration.target_memory_utilization after
     = HPAConfiguration.target_memory_utilization cfg.
Proof. cbv zeta. rewrite config_after_decide. apply decide_changes_frame. Qed.

(** X17. A [scale_up_horizontal] decision never lowers a bound: both
    [min_replicas] and [max_replicas] are at least what they were, and with
    a recommended count [r] other than 0 the new maximum leaves room for
    [r + 5] pods while the new minimum is the larger of the old one and
    [int(r * 0.5)]. *)
Theorem scale_up_never_lowers_bounds
    (apply_to_cluster : HPAConfiguration.t -> bool) (now : Py.datetime)
    (self : K8sHPAManager.t) (cfg : HPAConfiguration.t) (d : ScalingDecision.t)
    (m : ScalingMetrics.t) :
  ScalingDecision.action d = "scale_up_horizontal" ->
  let after := Reconcile.config_after apply_to_cluster now self cfg d m in
  HPAConfiguration.min_replicas cfg <= HPAConfiguration.min_replicas after
  /\ HPAConfiguration.max_replicas cfg <= HPAConfiguration.max_replicas after
  /\ (forall r, ScalingDecision.recommended_pod_count d = Some r -> r <> 0 ->
                HPAConfiguration.max_replicas after
                = Z.max (r + 5) (HPAConfiguration.max_replicas cfg)
                /\ HPAConfiguration.min_replicas after
                   = Z.max (HPAConfiguration.min_replicas cfg) (Z.quot r 2)).
Proof.
  intros Hact. cbv zeta. rewrite config_after_decide.
  unfold K8sHPAManager.decide_changes. rewrite Hact. cbn [String.eqb Ascii.eqb Bool.eqb].
  destruct (ScalingDecision.recommended_pod_count d) as [k|]; cbn [K8sHPAManager.truthy].
  - destruct (Z.eqb_spec k 0) as [->|Hk]; cbn [snd].
    + split; [lia|]. split; [lia|]. intros r [= <-] Hr. contradiction.
    + rewrite int_of_half, !max_int_spec. cbn.
      split; [lia|]. split; [lia|]. intros r [= <-] _. split; reflexivity.
  - cbn [snd]. split; [lia|]. split; [lia|]. intros r Hr. discriminate Hr.
Qed.

Lemma scale_up_never_lowers_bounds_demo :
  let after := Reconcile.config_after (fun _ => true) 0 Examples.dry_run_manager
                 Examples.demo_config (Examples.decision "scale_up_horizontal" (Some 30))
                 Examples.spike_metrics in
  HPAConfiguration.min_replicas after = 15 /\ HPAConfiguration.max_replicas after = 35.
Proof.
  cbv zeta.
  destruct (scale_up_never_lowers_bounds (fun _ => true) 0 Examples.dry_run_manager
              Examples.demo_config (Examples.decision "scale_up_horizontal" (Some 30))
              Examples.spike_metrics eq_refl) as (_ & _ & H).
  destruct (H 30 eq_refl ltac:(discriminate)) as [Hmax Hmin].
  split; [rewrite Hmin | rewrite Hmax]; reflexivity.
Defined.

Section RuleFlowFacts.
Import Py.

(** The rules never recommend a negative scale-down. *)
Lemma rule_based_not_negative (now : datetime) (m : ScalingMetrics.t) :
  ~ Reconcile.negative_scale_down (AIScalingEngine._rule_based_decision now m).
Proof.
  unfold Reconcile.negative_scale_down, AIScalingEngine._rule_based_decision.
  destruct (_ || _).
  { destruct (float_gt _ 90); cbn; intros [Ha _]; discriminate Ha. }
  destruct (_ && _); cbn; intros [Ha (r & Hr & Hle)]; [|discriminate Ha].
  rewrite max_int_spec in Hr. injection Hr as <-. lia.
Qed.

End RuleFlowFacts.

(** X18. Through a manager whose engine has no client,
    [update_hpa_from_metrics] returns for every snapshot and history, and a
    valid configuration is valid afterwards: the decisions of the rules
    never drive the replica bounds out of order. The call is recorded in
    [applied_changes]. *)
Theorem rule_engine_keeps_config_valid
    (rt : AIScalingEngine.Runtime) (apply_to_cluster : HPAConfiguration.t -> bool)
    (now now' : Py.datetime) (self : K8sHPAManager.t) (cfg : HPAConfiguration.t)
    (m : ScalingMetrics.t) (hist : option (list ScalingMetrics.t)) :
  AIScalingEngine.client (K8sHPAManager.scaling_engine self) = None ->
  HPAConfiguration.valid cfg ->
  exists result after self',
    K8sHPAManagerFlow.update_hpa_from_metrics rt apply_to_cluster now now' self cfg m hist
    = Py.Returned (AIScalingEngine.Typed (result, after, self'))
    /\ HPAConfiguration.valid after
    /\ UpdateResult.decision result = AIScalingEngine._rule_based_decision now m
    /\ K8sHPAManager.applied_changes self'
       = (K8sHPAManager.applied_changes self ++ [result])%list.
Proof.
  intros Hc Hv. unfold K8sHPAManagerFlow.update_hpa_from_metrics.
  rewrite (analyze_without_client rt _ now m hist Hc). cbn [Py.bind].
  set (d := AIScalingEngine._rule_based_decision now m).
  exists (Reconcile.result_of apply_to_cluster now' self cfg d m),
         (Reconcile.config_after apply_to_cluster now' self cfg d m),
         (Reconcile.manager_after apply_to_cluster now' self cfg d m).
  split; [|split; [|split]].
  - unfold Reconcile.result_of, Reconcile.config_after, Reconcile.manager_after.
    destruct (K8sHPAManager._apply_decision_to_hpa _ _ _ _ _ _) as [[r c] s]. reflexivity.
  - rewrite config_after_decide.
    apply decide_changes_valid; solve [exact Hv | apply rule_based_not_negative | assumption].
  - rewrite result_of_decide. cbv zeta.
    assert (Hdec : UpdateResult.decision
                     (fst (K8sHPAManager.decide_changes
                             (Reconcile.fresh_result now' self cfg d) cfg d)) = d).
    { unfold K8sHPAManager.decide_changes.
      repeat match goal with
             | |- context [if ?b then _ else _] => destruct b
             | |- context [match K8sHPAManager.truthy ?n with _ => _ end] =>
                 destruct (K8sHPAManager.truthy n)
             end; reflexivity. }
    destruct (_ && _); [exact Hdec|]. destruct (negb _); exact Hdec.
  - apply applied_changes_grow.
Qed.

Lemma rule_engine_keeps_config_valid_demo :
  exists result after self',
    K8sHPAManagerFlow.update_hpa_from_metrics Examples.small_runtime (fun _ => true) 0 1
      Examples.dry_run_manager Examples.demo_config Examples.spike_metrics None
    = Py.Returned (AIScalingEngine.Typed (result, after, self'))
    /\ HPAConfiguration.valid after.
Proof.
  assert (Hv : HPAConfiguration.valid Examples.demo_config)
    by (unfold HPAConfiguration.valid; cbn; lia).
  destruct (rule_engine_keeps_config_valid Examples.small_runtime (fun _ => true) 0 1
              Examples.dry_run_manager Examples.demo_config Examples.spike_metrics None
              eq_refl Hv) as (result & after & self' & H1 & H2 & _).
  exists result, after, self'. split; assumption.
Defined.

(** ** Recommendations from a history *)

(** X19. From a non-empty history [generate_hpa_recommendations] returns a
    recommendation the constructor of [HPAConfiguration] accepts: at least
    two replicas, a maximum at least five above the minimum, a cpu target
    of 65 or 70 and a memory target of 75 or 80. On an empty history it
    returns the dict that holds only an error message. Neither raises. *)
Theorem recommendation_is_acceptable
    (round2 : Q -> Q) (str_of_float : Q -> string)
    (history : list ScalingMetrics.t) (hpa_name namespace : string) :
  HPARecommendation.generate_hpa_recommendations round2 str_of_float [] hpa_name namespace
  = Py.Returned (HPARecommendation.ErrorDict "No metrics history provided")
  /\ (history <> [] ->
      exists r,
        HPARecommendation.generate_hpa_recommendations round2 str_of_float history
          hpa_name namespace
        = Py.Returned (HPARecommendation.Recommendation r)
        /\ let c := HPARecommendation.recommended_config r in
           2 <= HPARecommendation.min_replicas c
           /\ HPARecommendation.min_replicas c + 5 <= HPARecommendation.max_replicas c
           /\ (HPARecommendation.target_cpu_utilization c = 65
               \/ HPARecommendation.target_cpu_utilization c = 70)
           /\ (HPARecommendation.target_memory_utilization c = 75
               \/ HPARecommendation.target_memory_utilization c = 80)
           /\ HPAConfiguration.init hpa_name namespace
                (HPARecommendation.min_replicas c) (HPARecommendation.max_replicas c)
                (HPARecommendation.target_cpu_utilization c)
                (HPARecommendation.target_memory_utilization c)
              = Py.Returned
                  (HPAConfiguration.mk hpa_name namespace
                     (HPARecommendation.min_replicas c) (HPARecommendation.max_replicas c)
                     (HPARecommendation.target_cpu_utilization c)
                     (HPARecommendation.target_memory_utilization c))).
Proof.
  split; [reflexivity|]. intros Hne.
  destruct history as [|m0 l]; [congruence|].
  unfold HPARecommendation.generate_hpa_recommendations.
  rewrite (mean_returns (map ScheduleGenerator.pods_of (m0 :: l))) by discriminate.
  cbn [PyMore.max_of_float Py.max_of map Py.bind].
  eexists. split; [reflexivity|].
  cbn [HPARecommendation.recommended_config HPARecommendation.min_replicas
       HPARecommendation.max_replicas HPARecommendation.target_cpu_utilization
       HPARecommendation.target_memory_utilization].
  rewrite !max_int_spec.
  set (mn := Z.max 2 _). set (mx := Z.max _ (mn + 5)).
  assert (H1 : 2 <= mn) by (unfold mn; lia).
  assert (H2 : mn + 5 <= mx) by (unfold mx; lia).
  split; [exact H1|]. split; [exact H2|].
  split; [destruct (Py.float_gt _ 90); auto|].
  split; [destruct (Py.float_gt _ 90); auto|].
  apply init_accepts. unfold Reconcile.acceptable.
  destruct (Py.float_gt _ 90), (Py.float_gt _ 90); lia.
Qed.

(** X19 on the six observations of the manager's demo. *)
Lemma recommendation_is_acceptable_demo :
  let history :=
    [ ScalingMetrics.mk 45 55 120 85 0.5 450 5 3 0;
      ScalingMetrics.mk 72 78 420 185 2.2 1100 48 3 0;
      ScalingMetrics.mk 85 88 580 285 4.2 1480 95 8 0;
      ScalingMetrics.mk 78 82 480 215 3.5 1370 78 8 0;
      ScalingMetrics.mk 62 68 320 142 1.6 960 35 5 0;
      ScalingMetrics.mk 45 52 185 95 0.7 680 12 4 0 ] in
  history <> []
  /\ exists r,
      HPARecommendation.generate_hpa_recommendations (fun x => x) (fun _ => "x") history
        "ai-inference-hpa" "ai-services"
      = Py.Returned (HPARecommendation.Recommendation r)
      /\ 2 <= HPARecommendation.min_replicas (HPARecommendation.recommended_config r).
Proof.
  cbv zeta.
  set (history := [ ScalingMetrics.mk 45 55 120 85 0.5 450 5 3 0;
                    ScalingMetrics.mk 72 78 420 185 2.2 1100 48 3 0;
                    ScalingMetrics.mk 85 88 580 285 4.2 1480 95 8 0;
                    ScalingMetrics.mk 78 82 480 215 3.5 1370 78 8 0;
                    ScalingMetrics.mk 62 68 320 142 1.6 960 35 5 0;
                    ScalingMetrics.mk 45 52 185 95 0.7 680 12 4 0 ]).
  assert (Hne : history <> []) by discriminate.
  split; [exact Hne|].
  destruct (proj2 (recommendation_is_acceptable (fun x => x) (fun _ => "x") history
                     "ai-inference-hpa" "ai-services") Hne) as (r & Hr & Hmin & _).
  exists r. split; [exact Hr | exact Hmin].
Defined.

(** ** The structure of a generated schedule *)

Section StructureFacts.
Import Py.
Local Open Scope list_scope.
Context {fl : Float.Arith}.

Lemma schedule_hour_exact (p : Patterns.t) (min_pods max_pods : Z)
    (schedule : ScalingSchedule.t) (h : Z) (stats : HourStats.t) :
  get (Patterns.hourly_patterns p) h = Some stats ->
  ScheduleGenerator.schedule_hour p min_pods max_pods schedule h
  = Returned
      (ScalingSchedule.mk (ScalingSchedule.name schedule)
         (ScalingSchedule.description schedule)
         (ScalingSchedule.schedule_entries schedule
          ++ SpecMore.hour_entries p min_pods max_pods (h, stats))).
Proof.
  intros Hget. unfold ScheduleGenerator.schedule_hour, getitem, SpecMore.hour_entries.
  rewrite Hget. cbn [bind fst snd]. rewrite recommended_for_returns. cbn [bind].
  destruct (bool_decide _); unfold ScalingSchedule.add_entry;
    cbn [ScalingSchedule.name ScalingSchedule.description ScalingSchedule.schedule_entries];
    rewrite <- ?app_assoc; reflexivity.
Qed.

Lemma schedule_loop_exact (p : Patterns.t) (min_pods max_pods : Z)
    (F : Z -> HourStats.t) (hours : list Z) :
  forall schedule,
    (forall h, In h hours -> get (Patterns.hourly_patterns p) h = Some (F h)) ->
    ScheduleGenerator.foldM (ScheduleGenerator.schedule_hour p min_pods max_pods)
      hours schedule
    = Returned
        (ScalingSchedule.mk (ScalingSchedule.name schedule)
           (ScalingSchedule.description schedule)
           (ScalingSchedule.schedule_entries schedule
            ++ flat_map (fun h => SpecMore.hour_entries p min_pods max_pods (h, F h)) hours)).
Proof.
  induction hours as [|h hours IH]; intros schedule Hall; cbn [ScheduleGenerator.foldM flat_map].
  - rewrite app_nil_r. now destruct schedule.
  - rewrite (schedule_hour_exact p min_pods max_pods schedule h (F h))
      by (apply Hall; now left).
    cbn [bind]. rewrite IH by (intros k Hk; apply Hall; now right).
    cbn. now rewrite <- app_assoc.
Qed.

Lemma schedule_low_exact (min_pods : Z) (lows : list LowHour.t) :
  forall schedule,
    fold_left (ScheduleGenerator.schedule_low min_pods) lows schedule
    = ScalingSchedule.mk (ScalingSchedule.name schedule)
        (ScalingSchedule.description schedule)
        (ScalingSchedule.schedule_entries schedule
         ++ map (fun l => SpecMore.low_traffic_entry (LowHour.hour l) min_pods) lows).
Proof.
  induction lows as [|l lows IH]; intros schedule; cbn [fold_left map].
  - rewrite app_nil_r. now destruct schedule.
  - rewrite IH. cbn. now rewrite <- app_assoc.
Qed.

Variable history : ScheduleGenerator.history.
Hypothesis history_nonempty : history <> [].

Lemma peak_hours_of_table :
  ScheduleGenerator._identify_peak_hours (Spec.hourly_table history)
  = Returned
      (sorted (fun a b => float_gt (PeakHour.cpu a) (PeakHour.cpu b))
         (map ScheduleGenerator.peak_entry
            (List.filter
               (ScheduleGenerator.is_peak_hour
                  (Spec.global_mean ScalingMetrics.cpu_utilization history)
                  (Spec.global_mean ScalingMetrics.request_rate history))
               (Spec.hourly_table history)))).
Proof.
  unfold ScheduleGenerator._identify_peak_hours.
  rewrite (table_mean history history_nonempty HourStats.cpu ScalingMetrics.cpu_utilization)
    by reflexivity.
  rewrite (table_mean history history_nonempty HourStats.rps ScalingMetrics.request_rate)
    by reflexivity.
  cbn [bind].
  destruct (Spec.hourly_table history) eqn:E; [|reflexivity].
  exfalso. apply (hours_nonempty history history_nonempty). apply map_eq_nil in E. exact E.
Qed.

(** The analysis of a non-empty history, field by field. *)
Lemma analyze_patterns_fields (now : datetime) :
  exists p,
    ScheduleGenerator.analyze_patterns now history
    = Returned (ScheduleGenerator.Analysis p)
    /\ Patterns.hourly_patterns p = Spec.hourly_table history
    /\ ScheduleGenerator._identify_peak_hours (Spec.hourly_table history)
       = Returned (Patterns.peak_hours p)
    /\ ScheduleGenerator._identify_low_hours (Spec.hourly_table history)
       = Returned (Patterns.low_traffic_hours p)
    /\ Patterns.analysis_timestamp p = now.
Proof.
  rewrite analyze_patterns_unfold by assumption.
  rewrite hourly_averages_table. cbn [bind].
  destruct (daily_averages_return history) as [daily ->]. cbn [bind].
  rewrite peak_hours_of_table, (low_hours_of_table history history_nonempty). cbn [bind].
  eexists. split; [reflexivity|]. cbn. auto.
Qed.

(** The hours of the loop of [generate_schedule]. *)
Lemma sorted_hours_ascending :
  StronglySorted Z.lt (sorted Z.ltb (Spec.hours_with_data history)).
Proof.
  apply (sorted_ascending (fun h : Z => h)). rewrite map_id. apply distinct_nodup.
Qed.

End StructureFacts.

(** The closed form of [generate_schedule] on a non-empty history. *)
Lemma generate_schedule_closed_form {fl : Float.Arith}
    (now : Py.datetime) (history : ScheduleGenerator.history) (min_pods max_pods : Z) :
  history <> [] ->
  exists p,
    ScheduleGenerator.analyze_patterns now history
    = Py.Returned (ScheduleGenerator.Analysis p)
    /\ ScheduleGenerator.generate_schedule now history min_pods max_pods
       = Py.Returned
           {| ScalingSchedule.name := "ai-workload-schedule";
              ScalingSchedule.description := "Generated from historical metrics analysis";
              ScalingSchedule.schedule_entries :=
                (flat_map
                   (fun h => SpecMore.hour_entries p min_pods max_pods
                               (h, Spec.stats_at history h))
                   (Py.sorted Z.ltb (Spec.hours_with_data history))
                 ++ map (fun l => SpecMore.low_traffic_entry (LowHour.hour l) min_pods)
                      (Patterns.low_traffic_hours p))%list |}
    /\ StronglySorted Z.lt (Py.sorted Z.ltb (Spec.hours_with_data history)).
Proof.
  intros Hne.
  destruct (analyze_patterns_fields history Hne now) as (p & Hp & Htable & _).
  exists p. split; [exact Hp|]. split; [|apply sorted_hours_ascending].
  unfold ScheduleGenerator.generate_schedule. rewrite Hp. cbn [Py.bind].
  rewrite (schedule_loop_exact p min_pods max_pods (Spec.stats_at history)).
  - cbn [Py.bind]. rewrite schedule_low_exact. cbn.
    rewrite Htable, table_keys. reflexivity.
  - intros h Hh. apply sorted_in in Hh. rewrite Htable, table_keys in Hh.
    rewrite Htable. now apply table_get.
Qed.


(** X20. The schedule generated from a non-empty history is named
    [ai-workload-schedule] and lists, for the hours with data in strictly
    ascending order, the pre-scale entry of the hour if it is a peak hour
    followed by its standard entry, and after all of them one entry per
    low-traffic hour, in the order of the low-traffic list. The peak and
    low-traffic hours are those of the analysis of the same history, and the
    target of an hour is computed from its statistics in the arithmetic at
    hand: the statement holds for every arithmetic, so whatever the rounding
    of the interpreter. *)
Theorem generated_schedule_structure
    (fl : Float.Arith) (now : Py.datetime) (history : ScheduleGenerator.history)
    (min_pods max_pods : Z) :
  history <> [] ->
  exists p,
    ScheduleGenerator.analyze_patterns now history
    = Py.Returned (ScheduleGenerator.Analysis p)
    /\ ScheduleGenerator.generate_schedule now history min_pods max_pods
       = Py.Returned
           {| ScalingSchedule.name := "ai-workload-schedule";
              ScalingSchedule.description := "Generated from historical metrics analysis";
              ScalingSchedule.schedule_entries :=
                (flat_map
                   (fun h => SpecMore.hour_entries p min_pods max_pods
                               (h, Spec.stats_at history h))
                   (Py.sorted Z.ltb (Spec.hours_with_data history))
                 ++ map (fun l => SpecMore.low_traffic_entry (LowHour.hour l) min_pods)
                      (Patterns.low_traffic_hours p))%list |}
    /\ StronglySorted Z.lt (Py.sorted Z.ltb (Spec.hours_with_data history)).
Proof. apply generate_schedule_closed_form. Qed.

Lemma generated_schedule_structure_two_hours :
  let history :=
    [ (0, ScalingMetrics.mk 10 20 10 5 0 40 0 2 0);
      (3600, ScalingMetrics.mk 90 80 500 300 2 2000 50 6 3600) ] in
  history <> []
  /\ exists schedule,
      ScheduleGenerator.generate_schedule (fl:=Float.binary64) 0 history 2 20
      = Py.Returned schedule
      /\ map ScalingSchedule.time (ScalingSchedule.schedule_entries schedule)
         = ["00:00"; "00:30"; "01:00"; "00:00"].
Proof.
  cbv zeta.
  set (history := [ (0, ScalingMetrics.mk 10 20 10 5 0 40 0 2 0);
                    (3600, ScalingMetrics.mk 90 80 500 300 2 2000 50 6 3600) ]).
  assert (Hne : history <> []) by discriminate.
  split; [exact Hne|].
  destruct (generated_schedule_structure Float.binary64 0 history 2 20 Hne)
    as (p & Hp & Hs & _).
  eexists. split; [exact Hs|].
  assert (Hp' : ScheduleGenerator.analyze_patterns (fl:=Float.binary64) 0 history
                = Py.Returned (ScheduleGenerator.Analysis p)) by exact Hp.
  vm_compute in Hp'. injection Hp' as <-. vm_compute. reflexivity.
Defined.

Section EntryFacts.
Import Py.
Local Open Scope list_scope.
Context {fl : Float.Arith}.



Lemma hour_entries_standard (p : Patterns.t) (min_pods max_pods : Z) (kv : Z * HourStats.t) :
  In (Spec.standard_entry (fst kv) (Spec.hour_target (snd kv) min_pods max_pods))
     (SpecMore.hour_entries p min_pods max_pods kv).
Proof. unfold SpecMore.hour_entries. apply in_or_app. right. now left. Qed.

Lemma hour_entries_pre_scale (p : Patterns.t) (min_pods max_pods : Z) (kv : Z * HourStats.t) :
  In (fst kv) (map PeakHour.hour (Patterns.peak_hours p)) ->
  In (SpecMore.pre_scale_entry (fst kv) (Spec.hour_target (snd kv) min_pods max_pods))
     (SpecMore.hour_entries p min_pods max_pods kv).
Proof.
  intros Hin. unfold SpecMore.hour_entries.
  rewrite bool_decide_eq_true_2 by now apply list_elem_of_In.
  now left.
Qed.



End EntryFacts.



Section PeakFacts.
Import Py.
Local Open Scope list_scope.
Context {fl : Float.Arith}.
Variable history : ScheduleGenerator.history.
Hypothesis history_nonempty : history <> [].

Lemma is_peak_hour_spec (h : Z) :
  ScheduleGenerator.is_peak_hour
    (Spec.global_mean ScalingMetrics.cpu_utilization history)
    (Spec.global_mean ScalingMetrics.request_rate history)
    (h, Spec.stats_at history h) = true
  <-> SpecMore.peak history h.
Proof.
  unfold ScheduleGenerator.is_peak_hour, SpecMore.peak. cbn [snd].
  rewrite orb_true_iff, !float_gt_spec. reflexivity.
Qed.

(** The peak hours of an analysis, by hour. *)
Lemma peak_hour_in (p : Patterns.t) (h : Z) :
  ScheduleGenerator._identify_peak_hours (Spec.hourly_table history)
  = Returned (Patterns.peak_hours p) ->
  In h (map PeakHour.hour (Patterns.peak_hours p))
  <-> In h (Spec.hours_with_data history) /\ SpecMore.peak history h.
Proof.
  rewrite (peak_hours_of_table history history_nonempty). intros [= <-].
  rewrite in_map_iff. split.
  - intros (e & He & Hin). apply sorted_in in Hin.
    apply in_map_iff in Hin as ([k s] & <- & Hin).
    apply List.filter_In in Hin as [Hin Hpk]. cbn in He. subst k.
    unfold Spec.hourly_table in Hin. apply in_map_iff in Hin as (h' & [= <- <-] & Hh).
    split; [exact Hh|]. now apply is_peak_hour_spec.
  - intros [Hh Hp]. exists (ScheduleGenerator.peak_entry (h, Spec.stats_at history h)).
    split; [reflexivity|]. apply sorted_in. apply in_map.
    apply List.filter_In. split; [|now apply is_peak_hour_spec].
    unfold Spec.hourly_table. apply in_map_iff. eauto.
Qed.

End PeakFacts.

Section DescendingFacts.
Import Py.
Context {A : Type} (key : A -> Q).

Let before (a b : A) : bool := float_gt (key a) (key b).
Let descending (a b : A) : Prop := (key b <= key a)%Q.

Lemma insert_sorted_descending (x : A) (l : list A) :
  StronglySorted descending l -> StronglySorted descending (insert_sorted before x l).
Proof.
  induction 1 as [|a l Hl IH Ha]; cbn.
  - repeat constructor.
  - unfold before at 1. destruct (float_gt (key a) (key x)) eqn:E.
    + apply float_gt_spec in E. constructor; [exact IH|].
      apply List.Forall_forall. intros y Hy. apply insert_sorted_in in Hy as [->|Hy].
      * now apply Qlt_le_weak.
      * rewrite List.Forall_forall in Ha. now apply Ha.
    + apply float_gt_false in E.
      constructor; [now constructor|]. constructor; [exact E|].
      eapply List.Forall_impl; [|exact Ha]. unfold descending. intros z Hz.
      eapply Qle_trans; eassumption.
Qed.

Lemma sorted_descending (l : list A) : StronglySorted descending (sorted before l).
Proof.
  induction l as [|a l IH]; cbn; [constructor|]. now apply insert_sorted_descending.
Qed.

End DescendingFacts.

(** X23. On a non-empty history an hour is listed in [peak_hours] exactly
    when it has data and its mean cpu exceeds the mean of the hourly cpu
    means times 1.5 or its mean request rate exceeds the mean of the hourly
    request-rate means times 1.5; the list is in descending order of the
    mean cpu. Every mean is a sum divided by a count and every product is
    [avg * 1.5], each as the arithmetic at hand computes it: the statement
    holds for every arithmetic, so whatever the rounding of the
    interpreter. *)
Theorem peak_hours_characterised
    (fl : Float.Arith) (now : Py.datetime) (history : ScheduleGenerator.history) :
  history <> [] ->
  exists p,
    ScheduleGenerator.analyze_patterns now history
    = Py.Returned (ScheduleGenerator.Analysis p)
    /\ (forall h,
           In h (map PeakHour.hour (Patterns.peak_hours p))
           <-> In h (Spec.hours_with_data history) /\ SpecMore.peak history h)
    /\ StronglySorted (fun a b => (PeakHour.cpu b <= PeakHour.cpu a)%Q)
         (Patterns.peak_hours p).
Proof.
  intros Hne.
  destruct (analyze_patterns_fields history Hne now) as (p & Hp & _ & Hpeak & _).
  exists p. split; [exact Hp|]. split.
  - intros h. now apply peak_hour_in.
  - rewrite (peak_hours_of_table history Hne) in Hpeak. injection Hpeak as <-.
    apply (sorted_descending PeakHour.cpu).
Qed.

Lemma peak_hours_characterised_two_hours :
  let history :=
    [ (0, ScalingMetrics.mk 10 20 10 5 0 40 0 2 0);
      (3600, ScalingMetrics.mk 90 80 500 300 2 2000 50 6 3600) ] in
  history <> []
  /\ exists p,
      ScheduleGenerator.analyze_patterns (fl:=Float.binary64) 0 history
      = Py.Returned (ScheduleGenerator.Analysis p)
      /\ In 1 (map PeakHour.hour (Patterns.peak_hours p))
      /\ ~ In 0 (map PeakHour.hour (Patterns.peak_hours p)).
Proof.
  cbv zeta.
  set (history := [ (0, ScalingMetrics.mk 10 20 10 5 0 40 0 2 0);
                    (3600, ScalingMetrics.mk 90 80 500 300 2 2000 50 6 3600) ]).
  assert (Hne : history <> []) by discriminate.
  split; [exact Hne|].
  destruct (peak_hours_characterised Float.binary64 0 history Hne) as (p & Hp & Hiff & _).
  exists p. split; [exact Hp|]. split.
  - apply Hiff. split; [right; left; reflexivity|].
    left. unfold Qlt. vm_compute. reflexivity.
  - intros Hin. apply Hiff in Hin as [_ [Hcpu | Hrps]].
    + revert Hcpu. unfold Qlt. vm_compute. discriminate.
    + revert Hrps. unfold Qlt. vm_compute. discriminate.
Defined.

(** X24. Every peak hour gets a pre-scale entry: half an hour before the
    hour (at minute 30 of the hour before, hour 0 wrapping to 23), with
    confidence 0.9 and the same target as the standard entry of the hour,
    which is in the schedule as well. The target is the clamped [int] of
    the scaled load of the hour, computed in the arithmetic at hand: the
    statement holds for every arithmetic. *)
Theorem peak_hours_are_pre_scaled
    (fl : Float.Arith) (now : Py.datetime) (history : ScheduleGenerator.history)
    (min_pods max_pods : Z) :
  history <> [] ->
  exists p schedule,
    ScheduleGenerator.analyze_patterns now history
    = Py.Returned (ScheduleGenerator.Analysis p)
    /\ ScheduleGenerator.generate_schedule now history min_pods max_pods
       = Py.Returned schedule
    /\ forall h,
        In h (map PeakHour.hour (Patterns.peak_hours p)) ->
        let target := Spec.clamp min_pods max_pods
                        (Py.int_of_float (Spec.scaled_load history h)) in
        In {| ScalingSchedule.time := Py.fmt_02d ((h - 1) mod 24) ++ ":30";
              ScalingSchedule.target_pods := target;
              ScalingSchedule.reason :=
                "Pre-scale for peak hour " ++ Py.str_of_int h ++ ":00";
              ScalingSchedule.confidence := 0.9%Q;
              ScalingSchedule.day_of_week := None |}
           (ScalingSchedule.schedule_entries schedule)
        /\ In (Spec.standard_entry h target) (ScalingSchedule.schedule_entries schedule).
Proof.
  intros Hne.
  destruct (analyze_patterns_fields history Hne now) as (p & Hp & _ & Hpeak & _).
  destruct (generate_schedule_closed_form now history min_pods max_pods Hne)
    as (p' & Hp' & Hs & _).
  assert (p' = p) by congruence. subst p'.
  exists p. eexists. split; [exact Hp|]. split; [exact Hs|].
  intros h Hh target. cbn [ScalingSchedule.schedule_entries].
  assert (Hdata : In h (Py.sorted Z.ltb (Spec.hours_with_data history))).
  { apply sorted_in. now apply (peak_hour_in history Hne p h Hpeak). }
  split; apply in_or_app; left; apply in_flat_map; exists h; (split; [exact Hdata|]).
  - apply (hour_entries_pre_scale p min_pods max_pods (h, Spec.stats_at history h)).
    exact Hh.
  - apply (hour_entries_standard p min_pods max_pods (h, Spec.stats_at history h)).
Qed.

Lemma peak_hours_are_pre_scaled_two_hours :
  let history :=
    [ (0, ScalingMetrics.mk 10 20 10 5 0 40 0 2 0);
      (3600, ScalingMetrics.mk 90 80 500 300 2 2000 50 6 3600) ] in
  history <> []
  /\ exists schedule e,
      ScheduleGenerator.generate_schedule (fl:=Float.binary64) 0 history 2 20
      = Py.Returned schedule
      /\ In e (ScalingSchedule.schedule_entries schedule)
      /\ ScalingSchedule.time e = "00:30"
      /\ ScalingSchedule.target_pods e = 7.
Proof.
  cbv zeta.
  set (history := [ (0, ScalingMetrics.mk 10 20 10 5 0 40 0 2 0);
                    (3600, ScalingMetrics.mk 90 80 500 300 2 2000 50 6 3600) ]).
  assert (Hne : history <> []) by discriminate.
  split; [exact Hne|].
  destruct (peak_hours_are_pre_scaled Float.binary64 0 history 2 20 Hne)
    as (p & schedule & Hp & Hs & Hall).
  assert (Hpeak : In 1 (map PeakHour.hour (Patterns.peak_hours p))).
  { vm_compute in Hp. injection Hp as <-. left. reflexivity. }
  destruct (Hall 1 Hpeak) as [Hpre _].
  exists schedule. eexists. split; [exact Hs|]. split; [exact Hpre|].
  split; reflexivity.
Defined.

(** X25. Every low-traffic hour owns its time slot twice: the schedule
    holds the standard entry of the hour and, later in the list, a second
    entry at the same time ["HH:00"] with target [min_pods] and confidence
    0.95. The low-traffic hours are those of the analysis of the same
    history and the target of the standard entry is computed in the
    arithmetic at hand: the statement holds for every arithmetic. *)
Theorem low_traffic_hours_are_scheduled_twice
    (fl : Float.Arith) (now : Py.datetime) (history : ScheduleGenerator.history)
    (min_pods max_pods : Z) :
  history <> [] ->
  exists p schedule,
    ScheduleGenerator.analyze_patterns now history
    = Py.Returned (ScheduleGenerator.Analysis p)
    /\ ScheduleGenerator.generate_schedule now history min_pods max_pods
       = Py.Returned schedule
    /\ forall h,
        In h (map LowHour.hour (Patterns.low_traffic_hours p)) ->
        let standard :=
          Spec.standard_entry h
            (Spec.clamp min_pods max_pods (Py.int_of_float (Spec.scaled_load history h))) in
        let low :=
          {| ScalingSchedule.time := Py.fmt_02d h ++ ":00";
             ScalingSchedule.target_pods := min_pods;
             ScalingSchedule.reason := "Scale down during low traffic";
             ScalingSchedule.confidence := 0.95%Q;
             ScalingSchedule.day_of_week := None |} in
        ScalingSchedule.time standard = ScalingSchedule.time low
        /\ exists l1 l2 l3,
            ScalingSchedule.schedule_entries schedule
            = (l1 ++ standard :: l2 ++ low :: l3)%list.
Proof.
  intros Hne.
  destruct (analyze_patterns_fields history Hne now) as (p & Hp & _ & _ & Hlow & _).
  destruct (generate_schedule_closed_form now history min_pods max_pods Hne)
    as (p' & Hp' & Hs & _).
  assert (p' = p) by congruence. subst p'.
  exists p. eexists. split; [exact Hp|]. split; [exact Hs|].
  intros h Hh standard low. split; [reflexivity|].
  cbn [ScalingSchedule.schedule_entries].
  assert (Hstd : In standard
                   (flat_map (fun k => SpecMore.hour_entries p min_pods max_pods
                                         (k, Spec.stats_at history k))
                      (Py.sorted Z.ltb (Spec.hours_with_data history)))).
  { apply in_flat_map. exists h. split.
    - apply sorted_in. now apply (low_hour_in history Hne p h Hlow).
    - apply (hour_entries_standard p min_pods max_pods (h, Spec.stats_at history h)). }
  assert (Hl : In low (map (fun l => SpecMore.low_traffic_entry (LowHour.hour l) min_pods)
                         (Patterns.low_traffic_hours p))).
  { apply in_map_iff in Hh as (l & <- & Hl). apply in_map_iff. exists l. auto. }
  apply in_split in Hstd as (a & b & ->). apply in_split in Hl as (c & e & ->).
  exists a, (b ++ c)%list, e. rewrite <- !app_assoc. reflexivity.
Qed.

Lemma low_traffic_hours_are_scheduled_twice_two_hours :
  let history :=
    [ (0, ScalingMetrics.mk 10 20 10 5 0 40 0 2 0);
      (3600, ScalingMetrics.mk 90 80 500 300 2 2000 50 6 3600) ] in
  history <> []
  /\ exists schedule l1 l2 l3,
      ScheduleGenerator.generate_schedule (fl:=Float.binary64) 0 history 2 20
      = Py.Returned schedule
      /\ ScalingSchedule.schedule_entries schedule
         = (l1 ++ Spec.standard_entry 0 2 :: l2 ++ SpecMore.low_traffic_entry 0 2 :: l3)%list.
Proof.
  cbv zeta.
  set (history := [ (0, ScalingMetrics.mk 10 20 10 5 0 40 0 2 0);
                    (3600, ScalingMetrics.mk 90 80 500 300 2 2000 50 6 3600) ]).
  assert (Hne : history <> []) by discriminate.
  split; [exact Hne|].
  destruct (low_traffic_hours_are_scheduled_twice Float.binary64 0 history 2 20 Hne)
    as (p & schedule & Hp & Hs & Hall).
  assert (Hlow : In 0 (map LowHour.hour (Patterns.low_traffic_hours p))).
  { vm_compute in Hp. injection Hp as <-. left. reflexivity. }
  destruct (Hall 0 Hlow) as [_ (l1 & l2 & l3 & Hentries)].
  exists schedule, l1, l2, l3. split; [exact Hs | exact Hentries].
Defined.

Section SignFacts.
Import Py.
Local Open Scope list_scope.





End SignFacts.



(** ** Cron jobs *)

Section CronFacts.
Import Py.
Local Open Scope list_scope.



End CronFacts.

Section CronJobFacts.
Import Py.
Local Open Scope list_scope.




(** [s.split(c)] on a single character gives one piece more than there are
    occurrences of the character. *)
Lemma split_go_char_length (c : ascii) (s : string) :
  forall cur, List.length (split_go (String c EmptyString) 0 cur s)
              = S (SpecMore.count_char c s).
Proof.
  induction s as [|a s IH]; intros cur; [reflexivity|].
  cbn [split_go SpecMore.count_char String.prefix String.length Nat.sub].
  destruct (ascii_dec c a) as [->|Hne].
  - rewrite prefix_nil, Ascii.eqb_refl. cbn [List.length]. now rewrite IH.
  - destruct (Ascii.eqb_spec a c) as [->|_]; [congruence|]. now rewrite IH.
Qed.

Lemma unpack2_returns (parts : list string) :
  returns (PyMore.unpack2 parts) <-> List.length parts = 2%nat.
Proof.
  destruct parts as [|a [|b [|c r]]]; cbn; split;
    try (intros [x Hx]; discriminate Hx); try discriminate; try reflexivity.
  intros _. eexists. reflexivity.
Qed.

Lemma unpack2_raises (parts : list string) (x : exn) :
  PyMore.unpack2 parts = Raised x -> exists msg, x = ValueError msg.
Proof.
  destruct parts as [|a [|b [|c r]]]; cbn; intros H; try discriminate H;
    injection H as <-; eauto.
Qed.

Lemma cron_job_returns (e : ScalingSchedule.Entry) :
  returns (CronJobs.cron_job e)
  <-> SpecMore.count_char ":" (ScalingSchedule.time e) = 1%nat.
Proof.
  unfold CronJobs.cron_job.
  assert (Hlen : List.length (split (ScalingSchedule.time e) ":")
                 = S (SpecMore.count_char ":" (ScalingSchedule.time e)))
    by apply split_go_char_length.
  pose proof (unpack2_returns (split (ScalingSchedule.time e) ":")) as Hu.
  split.
  - intros [j Hj]. destruct (PyMore.unpack2 _) as [hm|x] eqn:E; [|discriminate Hj].
    assert (Hr : returns (Returned (A:=string * string) hm)) by (eexists; reflexivity).
    apply Hu in Hr. lia.
  - intros Hc.
    assert (Hr : returns (PyMore.unpack2 (split (ScalingSchedule.time e) ":")))
      by (apply Hu; lia).
    destruct Hr as [hm ->]. cbn. eexists. reflexivity.
Qed.

Lemma cron_job_raises (e : ScalingSchedule.Entry) (x : exn) :
  CronJobs.cron_job e = Raised x -> exists msg, x = ValueError msg.
Proof.
  unfold CronJobs.cron_job.
  destruct (PyMore.unpack2 _) as [hm|y] eqn:E; cbn; [discriminate|].
  intros [= <-]. eapply unpack2_raises, E.
Qed.

Lemma mapM_returns_iff {A B : Type} (f : A -> outcome B) (l : list A) :
  returns (mapM f l) <-> forall x, In x l -> returns (f x).
Proof.
  split.
  - induction l as [|a l IH]; cbn; [intros _ x []|].
    intros [ys Hys] x Hx.
    destruct (f a) as [b|e] eqn:Ea; [|discriminate Hys].
    destruct (mapM f l) as [bs|e] eqn:El; [|discriminate Hys].
    destruct Hx as [<-|Hx]; [eexists; exact Ea|].
    apply IH; [eexists; reflexivity | exact Hx].
  - intros Hall. apply mapM_returns. apply List.Forall_forall. exact Hall.
Qed.

Lemma mapM_raises {A B : Type} (f : A -> outcome B) (l : list A) (e : exn) :
  mapM f l = Raised e -> exists x, In x l /\ f x = Raised e.
Proof.
  induction l as [|a l IH]; cbn; [discriminate|].
  destruct (f a) as [b|e'] eqn:Ea; cbn.
  - destruct (mapM f l) as [bs|e'] eqn:El; cbn; [discriminate|].
    intros [= <-]. destruct (IH eq_refl) as (x & Hx & Hfx). eauto.
  - intros [= <-]. eauto.
Qed.

End CronJobFacts.


(** X28. [to_cron_jobs] returns exactly when the time of every entry holds
    one colon; otherwise the unpacking of hour and minute fails and what is
    raised is a [ValueError]. *)
Theorem to_cron_jobs_needs_one_colon (schedule : ScalingSchedule.t) :
  (Py.returns (CronJobs.to_cron_jobs schedule)
   <-> forall e, In e (ScalingSchedule.schedule_entries schedule) ->
                 SpecMore.count_char ":" (ScalingSchedule.time e) = 1%nat)
  /\ (forall x, CronJobs.to_cron_jobs schedule = Py.Raised x ->
                exists msg, x = Py.ValueError msg).
Proof.
  unfold CronJobs.to_cron_jobs. split.
  - rewrite mapM_returns_iff. split; intros H e He; apply cron_job_returns, H, He.
  - intros x Hx. apply mapM_raises in Hx as (e & _ & He).
    eapply cron_job_raises, He.
Qed.

(** ** Weekly schedules *)

Section WeeklyFacts.
Import Py.
Local Open Scope list_scope.





End WeeklyFacts.



(** ** The hourly statistics *)

Section HourlyFacts.
Import Py.
Local Open Scope list_scope.








End HourlyFacts.



(** ** What rounding changes *)

(** The target of a standard entry depends on the rounding. For one sample
    at midnight with cpu 94 and 35 pods, binary64 rounds [94 / 70] to
    1.3428571428571427 and the product with 35 to 46.99999999999999: the
    entry asks for 46 pods. Without rounding the product is 47. *)
Lemma rounding_lowers_a_target :
  ScheduleGenerator.generate_schedule (fl:=Float.binary64) 0 MoreExamples.busy_midnight 2 100
  = Py.Returned
      {| ScalingSchedule.name := "ai-workload-schedule";
         ScalingSchedule.description := "Generated from historical metrics analysis";
         ScalingSchedule.schedule_entries := [Spec.standard_entry 0 46] |}
  /\ ScheduleGenerator.generate_schedule (fl:=Float.exact) 0 MoreExamples.busy_midnight 2 100
     = Py.Returned
         {| ScalingSchedule.name := "ai-workload-schedule";
            ScalingSchedule.description := "Generated from historical metrics analysis";
            ScalingSchedule.schedule_entries := [Spec.standard_entry 0 47] |}.
Proof. split; vm_compute; reflexivity. Qed.

(** So does the list of low-traffic hours. For hourly cpu means 8.1, 20.0
    and 20.5, binary64 rounds their sum to 48.6 and half of their mean to
    the float 8.1 itself: midnight is not below it and no hour is listed.
    Without rounding midnight lies below half of the mean and is listed. *)
Lemma rounding_decides_a_low_traffic_hour :
  (exists p,
      ScheduleGenerator.analyze_patterns (fl:=Float.binary64) 0 MoreExamples.near_tie
      = Py.Returned (ScheduleGenerator.Analysis p)
      /\ Patterns.low_traffic_hours p = [])
  /\ (exists p,
         ScheduleGenerator.analyze_patterns (fl:=Float.exact) 0 MoreExamples.near_tie
         = Py.Returned (ScheduleGenerator.Analysis p)
         /\ map LowHour.hour (Patterns.low_traffic_hours p) = [0]).
Proof. split; eexists; (split; [vm_compute; reflexivity | reflexivity]). Qed.
